(** * The generic OAuth2 plugin of better-auth: a shallow embedding

    The development follows two source files:

    - [oauth2/refresh-access-token.ts] ([src/unnamed/part_001]): the function
      [refreshAccessToken].
    - the generic OAuth plugin ([src/unnamed/part_002]): the configuration
      record [GenericOAuthConfig], the default [getUserInfo], the provider
      wrapper around [refreshAccessToken], and the endpoints
      [signInWithOAuth2] and [oAuth2Callback].

    Asynchronous code is written in a small monad [M]: a computation reads the
    calls made so far, may throw, and reports the calls it makes itself.
    Everything the two files import (the HTTP client, the URL class, the state
    codec, the account collaborators, the clock) is a field of the record
    [Env]; the theorems hold for every [Env]. *)

From Stdlib Require Import ZArith Bool Ascii.
From stdpp Require Import gmap strings list fin_maps.

Local Open Scope string_scope.
Local Open Scope list_scope.
Local Open Scope Z_scope.
Local Open Scope stdpp_scope.

(** ** JavaScript values *)

(** The values that occur in decoded ID tokens and userinfo documents. *)
Inductive JsVal :=
| JUndefined
| JNull
| JBool (b : bool)
| JNum (n : Z)
| JStr (s : string).

(** ToBoolean. *)
Definition truthy (v : JsVal) : bool :=
  match v with
  | JUndefined | JNull => false
  | JBool b => b
  | JNum n => negb (Z.eqb n 0)
  | JStr s => negb (String.eqb s "")
  end.

(** A string-typed optional field: [undefined] and [""] are falsy. *)
Definition truthyS (o : option string) : bool :=
  match o with
  | Some s => negb (String.eqb s "")
  | None => false
  end.

(** A boolean-typed optional field. *)
Definition truthyB (o : option bool) : bool :=
  match o with
  | Some b => b
  | None => false
  end.

(** A number-typed optional field: [undefined] and [0] are falsy. *)
Definition truthyN (o : option Z) : bool :=
  match o with
  | Some n => negb (Z.eqb n 0)
  | None => false
  end.

(** [a || b] on optional strings. *)
Definition orS (a b : option string) : option string :=
  if truthyS a then a else b.

(** [`${x}`] for an optional string. *)
Definition tpl (o : option string) : string :=
  match o with
  | Some s => s
  | None => "undefined"
  end.

(** A plain object with string keys. Reading a missing property gives
    [undefined]; the spread [{...a, ...b}] is [b ∪ a]. *)
Abbreviation Obj := (gmap string JsVal).

Definition prop (o : Obj) (k : string) : JsVal := default JUndefined (o !! k).

(** [o?.k] on an object that may be [null]. *)
Definition propOpt (o : option Obj) (k : string) : JsVal :=
  match o with
  | Some m => prop m k
  | None => JUndefined
  end.

(** [s.split(sep)] for a one-character separator. *)
Fixpoint split (sep : ascii) (s : string) : list string :=
  match s with
  | EmptyString => [EmptyString]
  | String c r =>
      if Ascii.eqb c sep then EmptyString :: split sep r
      else match split sep r with
           | h :: t => String c h :: t
           | [] => [String c EmptyString]
           end
  end.

(** [l.join(sep)]. *)
Definition join (sep : string) (l : list string) : string := String.concat sep l.

(** ** URLSearchParams and URL *)

Abbreviation URLSearchParams := (list (string * string)).

(** [params.set(name, value)]: the first pair named [name] takes the value and
    the later ones are removed; without such a pair, one is appended. *)
Fixpoint sp_set (name value : string) (l : URLSearchParams) : URLSearchParams :=
  match l with
  | [] => [(name, value)]
  | (k, v) :: rest =>
      if String.eqb k name
      then (name, value) :: List.filter (fun p => negb (String.eqb (fst p) name)) rest
      else (k, v) :: sp_set name value rest
  end.

(** [params.get(name)]: the value of the first pair named [name]. *)
Fixpoint sp_get (name : string) (l : URLSearchParams) : option string :=
  match l with
  | [] => None
  | (k, v) :: rest => if String.eqb k name then Some v else sp_get name rest
  end.

(** [for (const [k, v] of Object.entries(o)) params.set(k, v)]; the list is
    [Object.entries(o)] in enumeration order. *)
Definition sp_setAll (entries : list (string * string)) (l : URLSearchParams)
  : URLSearchParams :=
  fold_left (fun acc kv => sp_set (fst kv) (snd kv) acc) entries l.

(** A parsed URL: everything before the query, the query, the fragment. *)
Record URL := mkURL {
  url_base : string;
  searchParams : URLSearchParams;
  url_hash : string
}.

Definition url_set (name value : string) (u : URL) : URL :=
  mkURL (url_base u) (sp_set name value (searchParams u)) (url_hash u).

Definition url_setAll (entries : list (string * string)) (u : URL) : URL :=
  mkURL (url_base u) (sp_setAll entries (searchParams u)) (url_hash u).

(** ** Dates *)

(** A [Date] holds a time value in milliseconds, or is invalid. *)
Inductive Date :=
| DateMs (ms : Z)
| InvalidDate.

(** [new Date(v)] clips [v]: outside ±8.64e15 ms the date is invalid. *)
Definition Date_new (v : Z) : Date :=
  if Z.leb (Z.abs v) 8640000000000000 then DateMs v else InvalidDate.

(** ** Data of the OAuth2 core *)

(** [authentication?: "basic" | "post"]. *)
Inductive AuthMethod :=
| basic
| post.

Record OAuth2Tokens := mkTokens {
  tokenType : option string;
  accessToken : option string;
  refreshToken : option string;
  accessTokenExpiresAt : option Date;
  refreshTokenExpiresAt : option Date;
  scopes : option (list string);
  idToken : option string
}.

(** The options passed to the OAuth2 helpers. *)
Record ProviderOptions := mkOptions {
  po_clientId : string;
  po_clientSecret : string;
  po_redirectURI : option string
}.

(** The [providerConfig] argument of [refreshAccessToken]. *)
Record RefreshProviderConfig := mkRefreshConfig {
  tokenEndpoint : string;
  rp_authentication : option AuthMethod;
  extraParams : option (list (string * string))
}.

(** The JSON body a token endpoint answers with. [expires_in] is a number of
    seconds; the model covers its integral values. *)
Record TokenResponse := mkTokenResponse {
  access_token : option string;
  refresh_token : option string;
  expires_in : option Z;
  token_type : option string;
  scope : option string;
  id_token : option string
}.

(** The part of a discovery document the plugin reads. *)
Record DiscoveryDocument := mkDiscovery {
  authorization_endpoint : option string;
  token_endpoint : option string;
  userinfo_endpoint : option string
}.

Record BetterFetchError := mkFetchError {
  fe_status : Z;
  fe_message : string
}.

(** What [betterFetch] resolves to: [{ data, error }]. *)
Record FetchResponse (A : Type) := mkFetch {
  data : option A;
  error : option BetterFetchError
}.
Arguments mkFetch {A} _ _.
Arguments data {A} _.
Arguments error {A} _.

(** An HTTP request to a token endpoint. *)
Record TokenRequest := mkTokenRequest {
  req_url : string;
  req_body : URLSearchParams;
  req_headers : gmap string string
}.

(** The link target a flow state may carry. *)
Record Link := mkLink {
  link_email : string;
  link_userId : string
}.

(** What [parseState] returns. *)
Record ParsedState := mkState {
  callbackURL : string;
  codeVerifier : string;
  errorURL : option string;
  requestSignUp : option bool;
  newUserURL : option string;
  link : option Link
}.

Record CreateAuthorizationURLArgs := mkCAU {
  cau_id : string;
  cau_options : ProviderOptions;
  cau_authorizationEndpoint : string;
  cau_state : string;
  cau_codeVerifier : option string;
  cau_scopes : list string;
  cau_redirectURI : string
}.

Record ValidateAuthorizationCodeArgs := mkVAC {
  vac_code : string;
  vac_codeVerifier : option string;
  vac_redirectURI : string;
  vac_options : ProviderOptions;
  vac_tokenEndpoint : string
}.

Record CreateAccountArgs := mkCA {
  ca_userId : string;
  ca_providerId : string;
  ca_accountId : JsVal;
  ca_accessToken : option string;
  ca_refreshToken : option string;
  ca_accessTokenExpiresAt : option Date;
  ca_refreshTokenExpiresAt : option Date;
  ca_scope : option string
}.

(** The argument of [handleOAuthUserInfo]; [ho_tokens] is the spread
    [...tokens] of the [account] field. *)
Record HandleOAuthUserInfoArgs := mkHO {
  ho_userInfo : Obj;
  ho_providerId : string;
  ho_accountId : JsVal;
  ho_tokens : OAuth2Tokens;
  ho_scope : option string;
  ho_disableSignUp : JsVal
}.

Record SessionData := mkSession {
  sd_session : string;
  sd_user : string
}.

(** What [handleOAuthUserInfo] returns. *)
Record HandleResult := mkResult {
  hr_error : option string;
  hr_data : option SessionData;
  hr_isRegister : bool
}.

(** The body of [POST /sign-in/oauth2]. *)
Record SignInBody := mkBody {
  body_providerId : string;
  body_callbackURL : option string;
  body_errorCallbackURL : option string;
  body_newUserCallbackURL : option string;
  disableRedirect : option bool;
  body_scopes : option (list string);
  body_requestSignUp : option bool
}.

(** The query of [GET /oauth2/callback/:providerId]. *)
Record CallbackQuery := mkQuery {
  q_code : option string;
  q_error : option string;
  q_error_description : option string;
  q_state : option string
}.

(** The fields of [ctx.context] the endpoints read: [baseURL],
    [options.onAPIError?.errorURL] and
    [options.account?.accountLinking?.allowDifferentEmails]. *)
Record Context := mkContext {
  baseURL : string;
  onAPIError_errorURL : option string;
  allowDifferentEmails : option bool
}.

(** What [signInWithOAuth2] answers with. *)
Record SignInResponse := mkResponse {
  resp_url : string;
  resp_redirect : bool
}.

(** ** Calls, exceptions and the monad *)

(** One constructor per call that leaves the two files. *)
Inductive Event :=
| EvFetchDiscovery (url : string)
| EvFetchUserInfo (url : string) (authorization : string)
| EvFetchToken (r : TokenRequest)
| EvCreateAuthorizationURL (a : CreateAuthorizationURLArgs)
| EvValidateAuthorizationCode (a : ValidateAuthorizationCodeArgs)
| EvGenerateState
| EvParseState
| EvCreateAccount (a : CreateAccountArgs)
| EvHandleOAuthUserInfo (a : HandleOAuthUserInfoArgs)
| EvSetSessionCookie (s : SessionData)
| EvLogError (msg : string).

Inductive Status :=
| BAD_REQUEST
| NOT_FOUND.

Inductive Exn :=
| Redirect (location : string)
| APIError (status : Status) (message : string)
| FetchFailure (e : BetterFetchError)
| TypeError (what : string)
| Thrown (what : string).

Inductive Result (A : Type) :=
| Ok (a : A)
| Throw (e : Exn).
Arguments Ok {A} _.
Arguments Throw {A} _.

(** A computation is given the calls made before it, and answers with its
    result and the calls it made. *)
Definition M (A : Type) : Type := list Event -> Result A * list Event.

Definition ret {A} (a : A) : M A := fun _ => (Ok a, []).

Definition throw {A} (e : Exn) : M A := fun _ => (Throw e, []).

Definition bind {A B} (m : M A) (f : A -> M B) : M B :=
  fun h =>
    match m h with
    | (Ok a, t1) => let (r, t2) := f a (h ++ t1) in (r, t1 ++ t2)
    | (Throw e, t1) => (Throw e, t1)
    end.

(** [try { m } catch (e) { handler(e) }]. *)
Definition try_catch {A} (m : M A) (handler : Exn -> M A) : M A :=
  fun h =>
    match m h with
    | (Ok a, t1) => (Ok a, t1)
    | (Throw e, t1) => let (r, t2) := handler e (h ++ t1) in (r, t1 ++ t2)
    end.

(** A call to a collaborator: its answer may depend on all earlier calls. *)
Definition call {A} (ev : Event) (answer : list Event -> Result A) : M A :=
  fun h => (answer h, [ev]).

Definition emit (ev : Event) : M unit := fun _ => (Ok tt, [ev]).

(** A value that depends on the moment it is read at, such as the clock. *)
Definition ask {A} (read : list Event -> A) : M A := fun h => (Ok (read h), []).

(** The outcome of a synchronous helper that may throw. *)
Definition lift {A} (r : Result A) : M A := fun _ => (r, []).

Notation "'let*' x ':=' m 'in' k" := (bind m (fun x => k))
  (at level 10, x name, m at level 200, k at level 200).
Notation "m1 ';;;' m2" := (bind m1 (fun _ => m2))
  (at level 100, right associativity).

(** The outside world. The three [betterFetch_*] fields are [betterFetch] at
    the three response types the sources use it with; [None] from [URL_parse]
    is the [TypeError] of [new URL(s)]. [btoa] is total: it stands for [btoa]
    on credentials it accepts (characters up to U+00FF). *)
Record Env := mkEnv {
  betterFetch_discovery :
    list Event -> string -> Result (FetchResponse DiscoveryDocument);
  betterFetch_userinfo :
    list Event -> string -> string -> Result (FetchResponse Obj);
  betterFetch_token :
    list Event -> TokenRequest -> Result (FetchResponse TokenResponse);
  createAuthorizationURL :
    list Event -> CreateAuthorizationURLArgs -> Result URL;
  validateAuthorizationCode :
    list Event -> ValidateAuthorizationCodeArgs -> Result (option OAuth2Tokens);
  generateState : list Event -> SignInBody -> Result (string * string);
  parseState : list Event -> CallbackQuery -> Result ParsedState;
  createAccount : list Event -> CreateAccountArgs -> Result (option string);
  handleOAuthUserInfo :
    list Event -> HandleOAuthUserInfoArgs -> Result HandleResult;
  setSessionCookie : list Event -> SessionData -> Result unit;
  decodeJwt : string -> Result Obj;
  URL_parse : string -> option URL;
  URL_toString : URL -> string;
  btoa : string -> string;
  toLowerCase : string -> string;
  Date_now : list Event -> Z
}.

(** ** [refreshAccessToken] (oauth2/refresh-access-token.ts, src/unnamed/part_001) *)

Section RefreshAccessToken.
Variable env : Env.

(** The request the function assembles before it calls [betterFetch]: the
    body, the headers, the placement of the client credentials and the
    extra parameters. *)
Definition refresh_request (refreshToken : string) (options : ProviderOptions)
    (providerConfig : RefreshProviderConfig) : TokenRequest :=
  let body : URLSearchParams := [] in
  let headers : gmap string string :=
    {[ "content-type" := "application/x-www-form-urlencoded";
       "accept" := "application/json" ]} in
  let body := sp_set "grant_type" "refresh_token" body in
  let body := sp_set "refresh_token" refreshToken body in
  let hb :=
    match rp_authentication providerConfig with
    | Some basic =>
        let encodedCredentials :=
          btoa env (po_clientId options +:+ ":" +:+ po_clientSecret options) in
        (<[ "authorization" := "Basic " +:+ encodedCredentials ]> headers, body)
    | _ =>
        let body := sp_set "client_id" (po_clientId options) body in
        let body := sp_set "client_secret" (po_clientSecret options) body in
        (headers, body)
    end in
  let body :=
    match extraParams providerConfig with
    | Some entries => sp_setAll entries (snd hb)
    | None => snd hb
    end in
  mkTokenRequest (tokenEndpoint providerConfig) body (fst hb).

(** The token bundle built from the response, before the expiry is added. *)
Definition tokens_of_response (d : TokenResponse) : OAuth2Tokens :=
  {| accessToken := access_token d;
     refreshToken := refresh_token d;
     tokenType := token_type d;
     scopes := split " " <$> scope d;
     idToken := id_token d;
     accessTokenExpiresAt := None;
     refreshTokenExpiresAt := None |}.

Definition with_accessTokenExpiresAt (t : OAuth2Tokens) (d : Date) : OAuth2Tokens :=
  {| accessToken := accessToken t;
     refreshToken := refreshToken t;
     tokenType := tokenType t;
     scopes := scopes t;
     idToken := idToken t;
     accessTokenExpiresAt := Some d;
     refreshTokenExpiresAt := refreshTokenExpiresAt t |}.

Definition refreshAccessToken (refreshToken : string) (options : ProviderOptions)
    (providerConfig : RefreshProviderConfig) : M OAuth2Tokens :=
  let req := refresh_request refreshToken options providerConfig in
  let* r := call (EvFetchToken req) (fun h => betterFetch_token env h req) in
  match error r with
  | Some e => throw (FetchFailure e)
  | None =>
      match data r with
      | None => throw (TypeError "data is null")
      | Some d =>
          let tokens := tokens_of_response d in
          if truthyN (expires_in d) then
            let* now := ask (Date_now env) in
            ret (with_accessTokenExpiresAt tokens
                   (Date_new (now + default 0 (expires_in d) * 1000)))
          else ret tokens
      end
  end.

End RefreshAccessToken.

(** ** The generic OAuth plugin (src/unnamed/part_002) *)

(** Configuration of one provider. The two callbacks are user code: they get
    their argument and either return or throw. What they call on the way is
    their own business and is not recorded among the handler's calls. *)
Record GenericOAuthConfig := mkConfig {
  providerId : string;
  discoveryUrl : option string;
  authorizationUrl : option string;
  tokenUrl : option string;
  userInfoUrl : option string;
  clientId : string;
  clientSecret : string;
  cfg_scopes : option (list string);
  redirectURI : option string;
  responseType : option string;
  prompt : option string;
  pkce : option bool;
  accessType : option string;
  cfg_getUserInfo : option (OAuth2Tokens -> Result (option Obj));
  mapProfileToUser : option (Obj -> Result Obj);
  authorizationUrlParams : option (list (string * string));
  disableImplicitSignUp : option bool;
  disableSignUp : option bool;
  authentication : option AuthMethod
}.

(** An optional boolean as a value. *)
Definition optB (o : option bool) : JsVal :=
  match o with
  | Some b => JBool b
  | None => JUndefined
  end.

(** [options.config.find((c) => c.providerId === id)]. *)
Definition find_config (config : list GenericOAuthConfig) (id : string)
  : option GenericOAuthConfig :=
  List.find (fun c => String.eqb (providerId c) id) config.

(** What the callback handler knows once it has extracted the user info. *)
Record CallbackIdentity := mkIdentity {
  ci_provider : GenericOAuthConfig;
  ci_state : ParsedState;
  ci_tokens : OAuth2Tokens;
  ci_userInfo : option Obj
}.

Section GenericOAuth.
Variable env : Env.

(** The default [getUserInfo(tokens, finalUserInfoUrl)]. [decodeJwt] returns
    an object or throws, so the test [if (decoded)] always passes. *)
Definition getUserInfo (tokens : OAuth2Tokens) (finalUserInfoUrl : option string)
  : M (option Obj) :=
  let* fromIdToken :=
    if truthyS (idToken tokens) then
      let* decoded := lift (decodeJwt env (default "" (idToken tokens))) in
      if truthy (prop decoded "sub") && truthy (prop decoded "email") then
        ret (Some (decoded ∪
               ({[ "id" := prop decoded "sub";
                   "emailVerified" := prop decoded "email_verified";
                   "image" := prop decoded "picture" ]} : Obj)))
      else ret None
    else ret None in
  match fromIdToken with
  | Some identity => ret (Some identity)
  | None =>
      if negb (truthyS finalUserInfoUrl) then ret None
      else
        let url := default "" finalUserInfoUrl in
        let authorization := "Bearer " +:+ tpl (accessToken tokens) in
        let* userInfo :=
          call (EvFetchUserInfo url authorization)
               (fun h => betterFetch_userinfo env h url authorization) in
        ret (Some (default ∅ (data userInfo) ∪
               ({[ "id" := propOpt (data userInfo) "sub";
                   "emailVerified" := propOpt (data userInfo) "email_verified";
                   "email" := propOpt (data userInfo) "email";
                   "image" := propOpt (data userInfo) "picture";
                   "name" := propOpt (data userInfo) "name" ]} : Obj)))
  end.

(** The [refreshAccessToken] method of the provider built in [init]. *)
Definition provider_refreshAccessToken (c : GenericOAuthConfig)
    (refreshToken : string) : M OAuth2Tokens :=
  let finalTokenUrl := tokenUrl c in
  let* finalTokenUrl :=
    if truthyS (discoveryUrl c) then
      let url := default "" (discoveryUrl c) in
      let* discovery :=
        call (EvFetchDiscovery url) (fun h => betterFetch_discovery env h url) in
      match data discovery with
      | Some d => ret (token_endpoint d)
      | None => ret finalTokenUrl
      end
    else ret finalTokenUrl in
  if negb (truthyS finalTokenUrl) then
    throw (APIError BAD_REQUEST "Invalid OAuth configuration. Token URL not found.")
  else
    refreshAccessToken env refreshToken
      {| po_clientId := clientId c;
         po_clientSecret := clientSecret c;
         po_redirectURI := None |}
      {| tokenEndpoint := default "" finalTokenUrl;
         rp_authentication := None;
         extraParams := None |}.

(** Lines 422-430 of the sign-in endpoint: when the provider has
    [authorizationUrlParams], they are set on the authorization endpoint
    itself, before the authorization URL is built. *)
Definition withAdditionalParams (params : option (list (string * string)))
    (finalAuthUrl : string) : Result string :=
  match params with
  | Some entries =>
      match URL_parse env finalAuthUrl with
      | None => Throw (TypeError "Invalid URL")
      | Some u => Ok (URL_toString env (url_setAll entries u))
      end
  | None => Ok finalAuthUrl
  end.

(** The handler of [POST /sign-in/oauth2]. *)
Definition signInWithOAuth2 (config : list GenericOAuthConfig) (ctx : Context)
    (body : SignInBody) : M SignInResponse :=
  let id := body_providerId body in
  match find_config config id with
  | None => throw (APIError BAD_REQUEST ("No config found for provider " +:+ id))
  | Some c =>
      let finalAuthUrl := authorizationUrl c in
      let finalTokenUrl := tokenUrl c in
      let* finals :=
        if truthyS (discoveryUrl c) then
          let url := default "" (discoveryUrl c) in
          let* discovery :=
            call (EvFetchDiscovery url) (fun h => betterFetch_discovery env h url) in
          match error discovery with
          | Some e => emit (EvLogError (fe_message e))
          | None => ret tt
          end ;;;
          match data discovery with
          | Some d => ret (authorization_endpoint d, token_endpoint d)
          | None => ret (finalAuthUrl, finalTokenUrl)
          end
        else ret (finalAuthUrl, finalTokenUrl) in
      if negb (truthyS (fst finals)) || negb (truthyS (snd finals)) then
        throw (APIError BAD_REQUEST "Invalid OAuth configuration")
      else
        let* finalAuthUrl :=
          lift (withAdditionalParams (authorizationUrlParams c)
                  (default "" (fst finals))) in
        let* st := call EvGenerateState (fun h => generateState env h body) in
        let args :=
          {| cau_id := id;
             cau_options :=
               {| po_clientId := clientId c;
                  po_clientSecret := clientSecret c;
                  po_redirectURI := redirectURI c |};
             cau_authorizationEndpoint := finalAuthUrl;
             cau_state := fst st;
             cau_codeVerifier := if truthyB (pkce c) then Some (snd st) else None;
             cau_scopes :=
               match body_scopes body with
               | Some requested => requested ++ default [] (cfg_scopes c)
               | None => default [] (cfg_scopes c)
               end;
             cau_redirectURI := baseURL ctx +:+ "/oauth2/callback/" +:+ id |} in
        let* authUrl :=
          call (EvCreateAuthorizationURL args)
               (fun h => createAuthorizationURL env h args) in
        let authUrl :=
          if truthyS (responseType c)
             && negb (String.eqb (default "" (responseType c)) "code")
          then url_set "response_type" (default "" (responseType c)) authUrl
          else authUrl in
        let authUrl :=
          if truthyS (prompt c)
          then url_set "prompt" (default "" (prompt c)) authUrl
          else authUrl in
        let authUrl :=
          if truthyS (accessType c)
          then url_set "access_type" (default "" (accessType c)) authUrl
          else authUrl in
        ret {| resp_url := URL_toString env authUrl;
               resp_redirect := negb (truthyB (disableRedirect body)) |}
  end.

(** What the [catch] block logs: [e.name] when [e] is an object with a
    [name], the empty string otherwise. The error object [betterFetch]
    returns, which the helpers rethrow as it is, has no [name]. *)
Definition exn_name (e : Exn) : string :=
  match e with
  | Redirect _ | APIError _ _ => "APIError"
  | FetchFailure _ => EmptyString
  | TypeError _ => "TypeError"
  | Thrown what => what
  end.

(** [ctx.redirect(url)] builds the redirect response, which the handler
    throws. *)
Definition redirectOnError {A} (ctx : Context) (st : ParsedState) (error : string)
  : M A :=
  let target :=
    orS (orS (errorURL st) (Some (callbackURL st)))
        (Some (baseURL ctx +:+ "/error")) in
  throw (Redirect (tpl target +:+ "?error=" +:+ error)).

(** [(provider.disableImplicitSignUp && !requestSignUp) || provider.disableSignUp]. *)
Definition disableSignUp_arg (provider : GenericOAuthConfig) (st : ParsedState)
  : JsVal :=
  let conj :=
    if truthyB (disableImplicitSignUp provider)
    then JBool (negb (truthyB (requestSignUp st)))
    else optB (disableImplicitSignUp provider) in
  if truthy conj then conj else optB (disableSignUp provider).

(** The handler of [GET /oauth2/callback/:providerId], in two stages.
    [callback_identity] is the handler up to the user info it extracts
    (lines 516-607): the checks on the query, the provider, the flow state,
    the endpoints, the code exchange and the user info. *)
Definition callback_identity (config : list GenericOAuthConfig) (ctx : Context)
    (params_providerId : string) (query : CallbackQuery) : M CallbackIdentity :=
  let defaultErrorURL :=
    tpl (orS (onAPIError_errorURL ctx) (Some (baseURL ctx +:+ "/error"))) in
  if truthyS (q_error query) || negb (truthyS (q_code query)) then
    throw (Redirect
             (defaultErrorURL +:+ "?error="
              +:+ tpl (orS (q_error query) (Some "oAuth_code_missing"))
              +:+ "&error_description=" +:+ tpl (q_error_description query)))
  else
  match find_config config params_providerId with
  | None =>
      throw (APIError BAD_REQUEST
               ("No config found for provider " +:+ params_providerId))
  | Some provider =>
      let* st := call EvParseState (fun h => parseState env h query) in
      let code := default "" (q_code query) in
      let finalTokenUrl := tokenUrl provider in
      let finalUserInfoUrl := userInfoUrl provider in
      let* finals :=
        if truthyS (discoveryUrl provider) then
          let url := default "" (discoveryUrl provider) in
          let* discovery :=
            call (EvFetchDiscovery url) (fun h => betterFetch_discovery env h url) in
          match data discovery with
          | Some d => ret (token_endpoint d, userinfo_endpoint d)
          | None => ret (finalTokenUrl, finalUserInfoUrl)
          end
        else ret (finalTokenUrl, finalUserInfoUrl) in
      let finalTokenUrl := fst finals in
      let finalUserInfoUrl := snd finals in
      let* tokens :=
        try_catch
          (if negb (truthyS finalTokenUrl) then
             throw (APIError BAD_REQUEST "Invalid OAuth configuration.")
           else
             let args :=
               {| vac_code := code;
                  vac_codeVerifier :=
                    if truthyB (pkce provider) then Some (codeVerifier st) else None;
                  vac_redirectURI :=
                    baseURL ctx +:+ "/oauth2/callback/" +:+ providerId provider;
                  vac_options :=
                    {| po_clientId := clientId provider;
                       po_clientSecret := clientSecret provider;
                       po_redirectURI := redirectURI provider |};
                  vac_tokenEndpoint := default "" finalTokenUrl |} in
             call (EvValidateAuthorizationCode args)
                  (fun h => validateAuthorizationCode env h args))
          (fun e =>
             emit (EvLogError (exn_name e)) ;;;
             redirectOnError ctx st "oauth_code_verification_failed") in
      match tokens with
      | None => throw (APIError BAD_REQUEST "Invalid OAuth configuration.")
      | Some tokens =>
          let* userInfo :=
            match cfg_getUserInfo provider with
            | Some custom => lift (custom tokens)
            | None => getUserInfo tokens finalUserInfoUrl
            end in
          ret {| ci_provider := provider;
                 ci_state := st;
                 ci_tokens := tokens;
                 ci_userInfo := userInfo |}
      end
  end.

(** [callback_complete] is the rest of the handler (lines 609-684): the
    email check, the profile mapping, the link branch and the sign-in
    branch. It leaves only by throwing: a redirect or an error. *)
Definition callback_complete (ctx : Context) (x : CallbackIdentity) : M Empty_set :=
  let provider := ci_provider x in
  let st := ci_state x in
  let tokens := ci_tokens x in
  let userInfo := ci_userInfo x in
  if negb (truthy (propOpt userInfo "email")) then
    emit (EvLogError "Unable to get user info") ;;;
    redirectOnError ctx st "email_is_missing"
  else
    let userInfo := default ∅ userInfo in
    let* mapUser :=
      match mapProfileToUser provider with
      | Some f => let* mapped := lift (f userInfo) in ret (Some mapped)
      | None => ret None
      end in
    match link st with
    | Some l =>
        let* mismatch :=
          if negb (bool_decide (allowDifferentEmails ctx = Some true)) then
            match prop userInfo "email" with
            | JStr email =>
                ret (negb (String.eqb (link_email l) (toLowerCase env email)))
            | _ => throw (TypeError "userInfo.email.toLowerCase")
            end
          else ret false in
        if mismatch then redirectOnError ctx st "email_doesn't_match"
        else
          let args :=
            {| ca_userId := link_userId l;
               ca_providerId := providerId provider;
               ca_accountId := prop userInfo "id";
               ca_accessToken := accessToken tokens;
               ca_refreshToken := refreshToken tokens;
               ca_accessTokenExpiresAt := accessTokenExpiresAt tokens;
               ca_refreshTokenExpiresAt := refreshTokenExpiresAt tokens;
               ca_scope := join "," <$> scopes tokens |} in
          let* newAccount :=
            call (EvCreateAccount args) (fun h => createAccount env h args) in
          match newAccount with
          | None => redirectOnError ctx st "unable_to_link_account"
          | Some _ => throw (Redirect (callbackURL st))
          end
    | None =>
        let args :=
          {| ho_userInfo := default ∅ mapUser ∪ userInfo;
             ho_providerId := providerId provider;
             ho_accountId := prop userInfo "id";
             ho_tokens := tokens;
             ho_scope := join "," <$> scopes tokens;
             ho_disableSignUp := disableSignUp_arg provider st |} in
        let* result :=
          call (EvHandleOAuthUserInfo args)
               (fun h => handleOAuthUserInfo env h args) in
        if truthyS (hr_error result) then
          redirectOnError ctx st
            (join "_" (split " " (default "" (hr_error result))))
        else
          match hr_data result with
          | None => throw (TypeError "result.data")
          | Some d =>
              call (EvSetSessionCookie d)
                   (fun h => setSessionCookie env h d) ;;;
              throw (Redirect
                       (if hr_isRegister result
                        then tpl (orS (newUserURL st) (Some (callbackURL st)))
                        else callbackURL st))
          end
    end.

Definition oAuth2Callback (config : list GenericOAuthConfig) (ctx : Context)
    (params_providerId : string) (query : CallbackQuery) : M Empty_set :=
  let* x := callback_identity config ctx params_providerId query in
  callback_complete ctx x.

End GenericOAuth.

(** ** The provider object built in [init] (src/unnamed/part_002, lines 194-298) *)

(** The argument of the provider's [validateAuthorizationCode]. *)
Record CodeData := mkCodeData {
  cd_code : string;
  cd_codeVerifier : option string;
  cd_redirectURI : string
}.

(** What the provider's [getUserInfo] returns: [{ user, data }]. *)
Record ProviderUser := mkProviderUser {
  pu_user : Obj;
  pu_data : Obj
}.

(** The outcome of a provider method that may assign the variable
    [finalUserInfoUrl] of the provider's closure: its result, its calls, and
    the value the variable holds afterwards. The assignment stays when the
    method throws later on. *)
Record ProviderRun (A : Type) := mkRun {
  pr_result : Result A;
  pr_calls : list Event;
  pr_userInfoUrl : option string
}.
Arguments mkRun {A} _ _ _.
Arguments pr_result {A} _.
Arguments pr_calls {A} _.
Arguments pr_userInfoUrl {A} _.

Section Provider.
Variable env : Env.

(** [let finalUserInfoUrl = c.userInfoUrl]: the variable when the provider
    is built. *)
Definition provider_initial_userInfoUrl (c : GenericOAuthConfig) : option string :=
  userInfoUrl c.

(** Lines 215-227: the discovery step of [validateAuthorizationCode]. It
    returns the token URL to use and the value [finalUserInfoUrl] holds
    afterwards. *)
Definition provider_discover (c : GenericOAuthConfig) (finalUserInfoUrl : option string)
  : M (option string * option string) :=
  let finalTokenUrl := tokenUrl c in
  if truthyS (discoveryUrl c) then
    let url := default "" (discoveryUrl c) in
    let* discovery :=
      call (EvFetchDiscovery url) (fun h => betterFetch_discovery env h url) in
    match data discovery with
    | Some d => ret (token_endpoint d, userinfo_endpoint d)
    | None => ret (finalTokenUrl, finalUserInfoUrl)
    end
  else ret (finalTokenUrl, finalUserInfoUrl).

(** Lines 228-243: the rest of [validateAuthorizationCode]. *)
Definition provider_exchange (c : GenericOAuthConfig) (data : CodeData)
    (finalTokenUrl : option string) : M (option OAuth2Tokens) :=
  if negb (truthyS finalTokenUrl) then
    throw (APIError BAD_REQUEST "Invalid OAuth configuration. Token URL not found.")
  else
    let args :=
      {| vac_code := cd_code data;
         vac_codeVerifier := cd_codeVerifier data;
         vac_redirectURI := cd_redirectURI data;
         vac_options :=
           {| po_clientId := clientId c;
              po_clientSecret := clientSecret c;
              po_redirectURI := redirectURI c |};
         vac_tokenEndpoint := default "" finalTokenUrl |} in
    call (EvValidateAuthorizationCode args)
         (fun h => validateAuthorizationCode env h args).

(** The [validateAuthorizationCode] method of the provider, run with
    [finalUserInfoUrl] holding the value given. *)
Definition provider_validateAuthorizationCode (c : GenericOAuthConfig)
    (finalUserInfoUrl : option string) (data : CodeData) (h : list Event)
  : ProviderRun (option OAuth2Tokens) :=
  match provider_discover c finalUserInfoUrl h with
  | (Ok finals, t1) =>
      let (r, t2) := provider_exchange c data (fst finals) (h ++ t1) in
      mkRun r (t1 ++ t2) (snd finals)
  | (Throw e, t1) => mkRun (Throw e) t1 finalUserInfoUrl
  end.

(** The [getUserInfo] method of the provider, run with [finalUserInfoUrl]
    holding the value given. The result of [mapProfileToUser] is spread as it
    is returned: the model covers mappers that return the object itself. *)
Definition provider_getUserInfo (c : GenericOAuthConfig)
    (finalUserInfoUrl : option string) (tokens : OAuth2Tokens)
  : M (option ProviderUser) :=
  if negb (truthyS finalUserInfoUrl) then ret None
  else
    let* userInfo :=
      match cfg_getUserInfo c with
      | Some custom => lift (custom tokens)
      | None => getUserInfo env tokens finalUserInfoUrl
      end in
    match userInfo with
    | None => ret None
    | Some userInfo =>
        let* mapped :=
          match mapProfileToUser c with
          | Some f => lift (f userInfo)
          | None => ret (∅ : Obj)
          end in
        ret (Some {| pu_user :=
                       mapped ∪
                       ({[ "id" := prop userInfo "id";
                           "email" := prop userInfo "email";
                           "emailVerified" := prop userInfo "emailVerified";
                           "image" := prop userInfo "image";
                           "name" := prop userInfo "name" ]} : Obj);
                     pu_data := userInfo |})
    end.

End Provider.

(** ** The link endpoint (src/unnamed/part_002, lines 687-782) *)

(** An account record, as far as the endpoint reads it. *)
Record Account := mkAccount {
  acc_providerId : string;
  acc_accountId : string
}.

(** The user of the session the endpoint requires. *)
Record SessionUser := mkSessionUser {
  su_id : string;
  su_email : string
}.

(** The body of [POST /oauth2/link]. *)
Record LinkBody := mkLinkBody {
  lb_providerId : string;
  lb_callbackURL : string
}.

(** What the link endpoint needs besides [Env]: the account store, the state
    codec called with a link target, and the two messages of
    [BASE_ERROR_CODES], which is not among the sources. *)
Record LinkEnv := mkLinkEnv {
  findAccounts : list Event -> string -> Result (list Account);
  generateState_link : list Event -> LinkBody -> Link -> Result (string * string);
  SOCIAL_ACCOUNT_ALREADY_LINKED : string;
  PROVIDER_NOT_FOUND : string
}.

(** A read of a store: its answer may depend on the calls made so far, and it
    is not itself recorded among them. *)
Definition consult {A} (answer : list Event -> Result A) : M A :=
  fun h => (answer h, []).

Section LinkAccount.
Variables (env : Env) (lenv : LinkEnv).

(** The handler of [POST /oauth2/link]. *)
Definition oAuth2LinkAccount (config : list GenericOAuthConfig) (ctx : Context)
    (session : SessionUser) (body : LinkBody) : M SignInResponse :=
  let* account := consult (fun h => findAccounts lenv h (su_id session)) in
  match List.find (fun a => String.eqb (acc_providerId a) (lb_providerId body)) account with
  | Some _ => throw (APIError BAD_REQUEST (SOCIAL_ACCOUNT_ALREADY_LINKED lenv))
  | None =>
      match find_config config (lb_providerId body) with
      | None => throw (APIError NOT_FOUND (PROVIDER_NOT_FOUND lenv))
      | Some provider =>
          let finalAuthUrl := authorizationUrl provider in
          let* finalAuthUrl :=
            if negb (truthyS finalAuthUrl) then
              if negb (truthyS (discoveryUrl provider)) then
                throw (APIError BAD_REQUEST "Invalid OAuth configuration")
              else
                let url := default "" (discoveryUrl provider) in
                let* discovery :=
                  call (EvFetchDiscovery url)
                       (fun h => betterFetch_discovery env h url) in
                match error discovery with
                | Some e => emit (EvLogError (fe_message e))
                | None => ret tt
                end ;;;
                match data discovery with
                | Some d => ret (authorization_endpoint d)
                | None => ret finalAuthUrl
                end
            else ret finalAuthUrl in
          if negb (truthyS finalAuthUrl) then
            throw (APIError BAD_REQUEST "Invalid OAuth configuration")
          else
            let target :=
              {| link_email := su_email session; link_userId := su_id session |} in
            let* state :=
              call EvGenerateState
                   (fun h => generateState_link lenv h body target) in
            let args :=
              {| cau_id := providerId provider;
                 cau_options :=
                   {| po_clientId := clientId provider;
                      po_clientSecret := clientSecret provider;
                      po_redirectURI :=
                        orS (redirectURI provider)
                            (Some (baseURL ctx +:+ "/oauth2/callback")) |};
                 cau_authorizationEndpoint := default "" finalAuthUrl;
                 cau_state := fst state;
                 cau_codeVerifier :=
                   if truthyB (pkce provider) then Some (snd state) else None;
                 cau_scopes := default [] (cfg_scopes provider);
                 cau_redirectURI :=
                   baseURL ctx +:+ "/oauth2/callback/" +:+ providerId provider |} in
            let* url :=
              call (EvCreateAuthorizationURL args)
                   (fun h => createAuthorizationURL env h args) in
            ret {| resp_url := URL_toString env url; resp_redirect := true |}
      end
  end.

End LinkAccount.

(** ** The stages of the two handlers

    The blocks of [signInWithOAuth2] and of the first stage of the callback,
    each under a name; [signInWithOAuth2_stages] and
    [callback_identity_stages] below show that the handlers are these blocks
    in sequence. *)

Section Stages.
Variable env : Env.

(** Lines 399-416: the endpoints sign-in goes on with. *)
Definition signIn_endpoints (c : GenericOAuthConfig)
  : M (option string * option string) :=
  let finalAuthUrl := authorizationUrl c in
  let finalTokenUrl := tokenUrl c in
  if truthyS (discoveryUrl c) then
    let url := default "" (discoveryUrl c) in
    let* discovery :=
      call (EvFetchDiscovery url) (fun h => betterFetch_discovery env h url) in
    match error discovery with
    | Some e => emit (EvLogError (fe_message e))
    | None => ret tt
    end ;;;
    match data discovery with
    | Some d => ret (authorization_endpoint d, token_endpoint d)
    | None => ret (finalAuthUrl, finalTokenUrl)
    end
  else ret (finalAuthUrl, finalTokenUrl).

(** Lines 433-447: what sign-in hands to [createAuthorizationURL]. *)
Definition signIn_builder_args (ctx : Context) (body : SignInBody)
    (c : GenericOAuthConfig) (finalAuthUrl : string) (st : string * string)
  : CreateAuthorizationURLArgs :=
  {| cau_id := body_providerId body;
     cau_options :=
       {| po_clientId := clientId c;
          po_clientSecret := clientSecret c;
          po_redirectURI := redirectURI c |};
     cau_authorizationEndpoint := finalAuthUrl;
     cau_state := fst st;
     cau_codeVerifier := if truthyB (pkce c) then Some (snd st) else None;
     cau_scopes :=
       match body_scopes body with
       | Some requested => requested ++ default [] (cfg_scopes c)
       | None => default [] (cfg_scopes c)
       end;
     cau_redirectURI :=
       baseURL ctx +:+ "/oauth2/callback/" +:+ body_providerId body |}.

(** Lines 449-459: the settings sign-in puts on the URL it was built. *)
Definition signIn_settings (c : GenericOAuthConfig) (authUrl : URL) : URL :=
  let authUrl :=
    if truthyS (responseType c)
       && negb (String.eqb (default "" (responseType c)) "code")
    then url_set "response_type" (default "" (responseType c)) authUrl
    else authUrl in
  let authUrl :=
    if truthyS (prompt c)
    then url_set "prompt" (default "" (prompt c)) authUrl
    else authUrl in
  if truthyS (accessType c)
  then url_set "access_type" (default "" (accessType c)) authUrl
  else authUrl.

(** Lines 417-464: sign-in once the endpoints are known. *)
Definition signIn_build (ctx : Context) (body : SignInBody) (c : GenericOAuthConfig)
    (finals : option string * option string) : M SignInResponse :=
  if negb (truthyS (fst finals)) || negb (truthyS (snd finals)) then
    throw (APIError BAD_REQUEST "Invalid OAuth configuration")
  else
    let* finalAuthUrl :=
      lift (withAdditionalParams env (authorizationUrlParams c)
              (default "" (fst finals))) in
    let* st := call EvGenerateState (fun h => generateState env h body) in
    let args := signIn_builder_args ctx body c finalAuthUrl st in
    let* authUrl :=
      call (EvCreateAuthorizationURL args)
           (fun h => createAuthorizationURL env h args) in
    ret {| resp_url := URL_toString env (signIn_settings c authUrl);
           resp_redirect := negb (truthyB (disableRedirect body)) |}.

(** Lines 557-570: the endpoints the callback goes on with. *)
Definition callback_endpoints (provider : GenericOAuthConfig)
  : M (option string * option string) :=
  let finalTokenUrl := tokenUrl provider in
  let finalUserInfoUrl := userInfoUrl provider in
  if truthyS (discoveryUrl provider) then
    let url := default "" (discoveryUrl provider) in
    let* discovery :=
      call (EvFetchDiscovery url) (fun h => betterFetch_discovery env h url) in
    match data discovery with
    | Some d => ret (token_endpoint d, userinfo_endpoint d)
    | None => ret (finalTokenUrl, finalUserInfoUrl)
    end
  else ret (finalTokenUrl, finalUserInfoUrl).

(** Lines 577-587: what the callback hands to [validateAuthorizationCode]. *)
Definition callback_exchange_args (ctx : Context) (provider : GenericOAuthConfig)
    (st : ParsedState) (code : string) (endpoint : string)
  : ValidateAuthorizationCodeArgs :=
  {| vac_code := code;
     vac_codeVerifier :=
       if truthyB (pkce provider) then Some (codeVerifier st) else None;
     vac_redirectURI :=
       baseURL ctx +:+ "/oauth2/callback/" +:+ providerId provider;
     vac_options :=
       {| po_clientId := clientId provider;
          po_clientSecret := clientSecret provider;
          po_redirectURI := redirectURI provider |};
     vac_tokenEndpoint := endpoint |}.

(** Lines 571-596: the code exchange and its [catch]. *)
Definition callback_tokens (ctx : Context) (provider : GenericOAuthConfig)
    (st : ParsedState) (code : string) (finalTokenUrl : option string)
  : M (option OAuth2Tokens) :=
  try_catch
    (if negb (truthyS finalTokenUrl) then
       throw (APIError BAD_REQUEST "Invalid OAuth configuration.")
     else
       let args :=
         callback_exchange_args ctx provider st code (default "" finalTokenUrl) in
       call (EvValidateAuthorizationCode args)
            (fun h => validateAuthorizationCode env h args))
    (fun e =>
       emit (EvLogError (exn_name e)) ;;;
       redirectOnError ctx st "oauth_code_verification_failed").

(** Lines 603-607: the user info of the callback. *)
Definition callback_userInfo (provider : GenericOAuthConfig) (tokens : OAuth2Tokens)
    (finalUserInfoUrl : option string) : M (option Obj) :=
  match cfg_getUserInfo provider with
  | Some custom => lift (custom tokens)
  | None => getUserInfo env tokens finalUserInfoUrl
  end.

(** Lines 170-181: the user the default [getUserInfo] makes of the answer of
    the userinfo endpoint. *)
Definition userInfo_of_response (userInfo : FetchResponse Obj) : Obj :=
  default ∅ (data userInfo) ∪
    ({[ "id" := propOpt (data userInfo) "sub";
        "emailVerified" := propOpt (data userInfo) "email_verified";
        "email" := propOpt (data userInfo) "email";
        "image" := propOpt (data userInfo) "picture";
        "name" := propOpt (data userInfo) "name" ]} : Obj).

(** Lines 405-410 of sign-in: a discovery error is logged. *)
Definition discovery_log (e : option BetterFetchError) : list Event :=
  match e with
  | Some e => [EvLogError (fe_message e)]
  | None => []
  end.

End Stages.

(** ** A small world to run the handlers in

    The examples and witnesses below run the handlers in [world]: URLs are
    split at the first [?], the authorization URL builder sets its five
    standard parameters, and the collaborators answer with the values given. *)

Module Demo.

(** [s] cut at the first [c]: the text before it and the text after it. *)
Fixpoint cut (c : ascii) (s : string) : string * option string :=
  match s with
  | EmptyString => (EmptyString, None)
  | String a r =>
      if Ascii.eqb a c then (EmptyString, Some r)
      else let (before, after) := cut c r in (String a before, after)
  end.

Definition parse_pair (s : string) : string * string :=
  let (k, v) := cut "=" s in (k, default "" v).

Definition parse (s : string) : option URL :=
  match cut "?" s with
  | (base, None) => Some (mkURL base [] "")
  | (base, Some q) => Some (mkURL base (parse_pair <$> split "&" q) "")
  end.

Definition print (u : URL) : string :=
  match searchParams u with
  | [] => url_base u
  | ps => url_base u +:+ "?"
          +:+ join "&" ((fun kv => fst kv +:+ "=" +:+ snd kv) <$> ps)
  end.

(** The code challenge of a verifier; the hash is left symbolic. *)
Definition challenge (verifier : string) : string := "S256(" +:+ verifier +:+ ")".

(** [code_challenge_method] and [code_challenge], when there is a verifier. *)
Definition with_challenge (verifier : option string) (u : URL) : URL :=
  match verifier with
  | Some v => url_set "code_challenge" (challenge v)
                (url_set "code_challenge_method" "S256" u)
  | None => u
  end.

(** Modelled from the spec: [createAuthorizationURL] is not among the
    sources; section 4.2 gives the query parameters it sets. The builder sets
    [response_type] (default [code]), [client_id], [state], [scope]
    (space-joined) and [redirect_uri] on the endpoint it is given, and the
    code challenge with its method when it is given a verifier. *)
Definition build (a : CreateAuthorizationURLArgs) : Result URL :=
  match parse (cau_authorizationEndpoint a) with
  | None => Throw (TypeError "Invalid URL")
  | Some u =>
      Ok (with_challenge (cau_codeVerifier a)
         (url_set "redirect_uri"
            (default (cau_redirectURI a) (po_redirectURI (cau_options a)))
         (url_set "scope" (join " " (cau_scopes a))
         (url_set "state" (cau_state a)
         (url_set "client_id" (po_clientId (cau_options a))
         (url_set "response_type" "code" u))))))
  end.

(** Lower-casing of the letters A to Z. *)
Definition lower_ascii (a : ascii) : ascii :=
  let n := nat_of_ascii a in
  if Nat.leb 65 n && Nat.leb n 90 then ascii_of_nat (n + 32) else a.

Fixpoint lower (s : string) : string :=
  match s with
  | EmptyString => EmptyString
  | String a r => String (lower_ascii a) (lower r)
  end.

Definition world (discovery : FetchResponse DiscoveryDocument)
    (token : FetchResponse TokenResponse) (exchanged : Result (option OAuth2Tokens))
    (st : ParsedState) (jwt : Result Obj) (now : Z) : Env :=
  {| betterFetch_discovery := fun _ _ => Ok discovery;
     betterFetch_userinfo := fun _ _ _ => Ok (mkFetch None None);
     betterFetch_token := fun _ _ => Ok token;
     createAuthorizationURL := fun _ a => build a;
     validateAuthorizationCode := fun _ _ => exchanged;
     generateState := fun _ _ => Ok ("st4te", "v3rifier");
     parseState := fun _ _ => Ok st;
     createAccount := fun _ _ => Ok (Some "account-1");
     handleOAuthUserInfo :=
       fun _ _ => Ok (mkResult None (Some (mkSession "session-1" "user-1")) false);
     setSessionCookie := fun _ _ => Ok tt;
     decodeJwt := fun _ => jwt;
     URL_parse := parse;
     URL_toString := print;
     btoa := fun s => "b64(" +:+ s +:+ ")";
     toLowerCase := lower;
     Date_now := fun _ => now |}.

(** A provider that differs from [acme] below in the six fields given. *)
Definition provider (discovery authorization token : option string)
    (prompt_ : option string) (params : option (list (string * string)))
    (auth : option AuthMethod) : GenericOAuthConfig :=
  {| providerId := "acme";
     discoveryUrl := discovery;
     authorizationUrl := authorization;
     tokenUrl := token;
     userInfoUrl := Some "https://acme.test/userinfo";
     clientId := "client-1";
     clientSecret := "s3cret";
     cfg_scopes := Some ["openid"; "email"];
     redirectURI := None;
     responseType := None;
     prompt := prompt_;
     pkce := None;
     accessType := None;
     cfg_getUserInfo := None;
     mapProfileToUser := None;
     authorizationUrlParams := params;
     disableImplicitSignUp := None;
     disableSignUp := None;
     authentication := auth |}.

Definition static_authorization : option string := Some "https://acme.test/authorize".
Definition static_token : option string := Some "https://acme.test/token".

Definition acme : GenericOAuthConfig :=
  provider None static_authorization static_token None None None.

Definition well_known : string := "https://idp.acme.test/.well-known/openid-configuration".

Definition acme_discovery : GenericOAuthConfig :=
  provider (Some well_known) static_authorization static_token None None None.

Definition acme_discovery_only : GenericOAuthConfig :=
  provider (Some well_known) None None None None None.

Definition acme_prompt : GenericOAuthConfig :=
  provider None static_authorization static_token
    (Some "consent") (Some [("prompt", "login")]) None.

Definition acme_response_type : GenericOAuthConfig :=
  provider None static_authorization static_token
    None (Some [("response_type", "token")]) None.

Definition acme_basic : GenericOAuthConfig :=
  provider None static_authorization static_token None None (Some basic).

Definition ctx : Context :=
  {| baseURL := "https://app.test/api/auth";
     onAPIError_errorURL := None;
     allowDifferentEmails := None |}.

Definition discovered : DiscoveryDocument :=
  mkDiscovery (Some "https://idp.acme.test/auth") (Some "https://idp.acme.test/token")
    (Some "https://idp.acme.test/me").

Definition no_discovery : FetchResponse DiscoveryDocument := mkFetch None None.
Definition no_token : FetchResponse TokenResponse := mkFetch None None.

Definition token_response (expires : option Z) : TokenResponse :=
  mkTokenResponse (Some "at-2") (Some "rt-2") expires (Some "Bearer")
    (Some "openid email") None.

Definition refreshed (expires : option Z) : FetchResponse TokenResponse :=
  mkFetch (Some (token_response expires)) None.

Definition state0 : ParsedState :=
  mkState "https://app.test/welcome" "v3rifier" None None None None.

Definition link_state : ParsedState :=
  mkState "https://app.test/settings" "v3rifier" None None None
    (Some (mkLink "alice@app.test" "user-7")).

Definition tokens0 : OAuth2Tokens :=
  mkTokens (Some "Bearer") (Some "at-1") None None None None None.

Definition tokens_with_id : OAuth2Tokens :=
  mkTokens (Some "Bearer") (Some "at-1") None None None None
    (Some "header.payload.signature").

Definition payload : Obj :=
  {[ "sub" := JStr "sub-9"; "email" := JStr "Bob@Acme.test";
     "email_verified" := JBool true ]}.

(** The identity the default [getUserInfo] spreads from [payload]. *)
Definition bob : Obj :=
  payload ∪ ({[ "id" := JStr "sub-9"; "emailVerified" := JBool true;
                "image" := JUndefined ]} : Obj).

(** What the default [getUserInfo] returns when the userinfo endpoint answers
    without data. *)
Definition nobody : Obj :=
  {[ "id" := JUndefined; "emailVerified" := JUndefined; "email" := JUndefined;
     "image" := JUndefined; "name" := JUndefined ]}.

(** The code exchange of [acme] at [endpoint]. *)
Definition exchange (endpoint : string) : Event :=
  EvValidateAuthorizationCode
    {| vac_code := "c0de";
       vac_codeVerifier := None;
       vac_redirectURI := "https://app.test/api/auth/oauth2/callback/acme";
       vac_options := mkOptions "client-1" "s3cret" None;
       vac_tokenEndpoint := endpoint |}.

Definition no_jwt : Result Obj := Throw (Thrown "JWTInvalid").

Definition body0 : SignInBody := mkBody "acme" None None None None None None.

Definition query0 : CallbackQuery := mkQuery (Some "c0de") None None (Some "st4te").

Definition denied : CallbackQuery :=
  mkQuery None (Some "access_denied") (Some "refused") (Some "st4te").

(** The world most runs below take place in. *)
Definition plain : Env :=
  world no_discovery no_token (Ok (Some tokens0)) state0 no_jwt 0.

(** [w], with the userinfo endpoint answering [r]. *)
Definition with_userinfo (r : FetchResponse Obj) (w : Env) : Env :=
  {| betterFetch_discovery := betterFetch_discovery w;
     betterFetch_userinfo := fun _ _ _ => Ok r;
     betterFetch_token := betterFetch_token w;
     createAuthorizationURL := createAuthorizationURL w;
     validateAuthorizationCode := validateAuthorizationCode w;
     generateState := generateState w;
     parseState := parseState w;
     createAccount := createAccount w;
     handleOAuthUserInfo := handleOAuthUserInfo w;
     setSessionCookie := setSessionCookie w;
     decodeJwt := decodeJwt w;
     URL_parse := URL_parse w;
     URL_toString := URL_toString w;
     btoa := btoa w;
     toLowerCase := toLowerCase w;
     Date_now := Date_now w |}.

(** [w], with account resolution answering [res]. *)
Definition with_resolution (res : HandleResult) (w : Env) : Env :=
  {| betterFetch_discovery := betterFetch_discovery w;
     betterFetch_userinfo := betterFetch_userinfo w;
     betterFetch_token := betterFetch_token w;
     createAuthorizationURL := createAuthorizationURL w;
     validateAuthorizationCode := validateAuthorizationCode w;
     generateState := generateState w;
     parseState := parseState w;
     createAccount := createAccount w;
     handleOAuthUserInfo := fun _ _ => Ok res;
     setSessionCookie := setSessionCookie w;
     decodeJwt := decodeJwt w;
     URL_parse := URL_parse w;
     URL_toString := URL_toString w;
     btoa := btoa w;
     toLowerCase := toLowerCase w;
     Date_now := Date_now w |}.

(** [w], with the state codec answering [r] to [parseState]. *)
Definition with_state (r : Result ParsedState) (w : Env) : Env :=
  {| betterFetch_discovery := betterFetch_discovery w;
     betterFetch_userinfo := betterFetch_userinfo w;
     betterFetch_token := betterFetch_token w;
     createAuthorizationURL := createAuthorizationURL w;
     validateAuthorizationCode := validateAuthorizationCode w;
     generateState := generateState w;
     parseState := fun _ _ => r;
     createAccount := createAccount w;
     handleOAuthUserInfo := handleOAuthUserInfo w;
     setSessionCookie := setSessionCookie w;
     decodeJwt := decodeJwt w;
     URL_parse := URL_parse w;
     URL_toString := URL_toString w;
     btoa := btoa w;
     toLowerCase := toLowerCase w;
     Date_now := Date_now w |}.

(** A userinfo document with an [id] of its own. *)
Definition profile : Obj :=
  {[ "sub" := JStr "sub-3"; "email" := JStr "carol@acme.test"; "id" := JNum 42 ]}.

(** [profile] as the default [getUserInfo] returns it. *)
Definition carol : Obj :=
  profile ∪ ({[ "id" := JStr "sub-3"; "emailVerified" := JUndefined;
                "email" := JStr "carol@acme.test"; "image" := JUndefined;
                "name" := JUndefined ]} : Obj).

(** [acme] with a [getUserInfo] of its own. *)
Definition acme_custom : GenericOAuthConfig :=
  {| providerId := "acme";
     discoveryUrl := None;
     authorizationUrl := static_authorization;
     tokenUrl := static_token;
     userInfoUrl := Some "https://acme.test/userinfo";
     clientId := "client-1";
     clientSecret := "s3cret";
     cfg_scopes := Some ["openid"; "email"];
     redirectURI := None;
     responseType := None;
     prompt := None;
     pkce := Some true;
     accessType := Some "offline";
     cfg_getUserInfo := Some (fun _ => Ok (Some bob));
     mapProfileToUser := None;
     authorizationUrlParams := None;
     disableImplicitSignUp := None;
     disableSignUp := None;
     authentication := None |}.

Definition options0 : ProviderOptions := mkOptions "client-1" "s3cret" None.

Definition extras : list (string * string) :=
  [("audience", "api"); ("client_id", "other-client")].

Definition refresh_with_extras : RefreshProviderConfig :=
  mkRefreshConfig "https://acme.test/token" None (Some extras).

Definition refresh_basic : RefreshProviderConfig :=
  mkRefreshConfig "https://acme.test/token" (Some basic) None.

Definition refused : HandleResult := mkResult (Some "signup disabled") None false.

Definition registered : HandleResult :=
  mkResult None (Some (mkSession "session-1" "user-1")) true.

Definition new_user_state : ParsedState :=
  mkState "https://app.test/welcome" "v3rifier" None None
    (Some "https://app.test/onboarding") None.

Definition code0 : CodeData :=
  mkCodeData "c0de" None "https://app.test/api/auth/oauth2/callback/acme".

Definition link_env (accounts : list Account) : LinkEnv :=
  {| findAccounts := fun _ _ => Ok accounts;
     generateState_link := fun _ _ _ => Ok ("st4te", "v3rifier");
     SOCIAL_ACCOUNT_ALREADY_LINKED := "Social account already linked";
     PROVIDER_NOT_FOUND := "Provider not found" |}.

Definition alice : SessionUser := mkSessionUser "user-7" "alice@app.test".

Definition link_body : LinkBody := mkLinkBody "acme" "https://app.test/settings".

(** A world in which the userinfo endpoint answers [profile]. *)
Definition with_profile : Env := with_userinfo (mkFetch (Some profile) None) plain.

(** What the callback of [acme] knows about [ui] in the flow [st]. *)
Definition known (st : ParsedState) (t : OAuth2Tokens) (ui : Obj) : CallbackIdentity :=
  mkIdentity acme st t (Some ui).

(** The calls of a callback of [acme] up to the userinfo request. *)
Definition asked : list Event :=
  [EvParseState; exchange "https://acme.test/token";
   EvFetchUserInfo "https://acme.test/userinfo" "Bearer at-1"].

Definition bob_link_state : ParsedState :=
  mkState "https://app.test/settings" "v3rifier" None None None
    (Some (mkLink "bob@acme.test" "user-7")).

(** A world in which [bob] comes back to link his account. *)
Definition linking : Env :=
  world no_discovery no_token (Ok (Some tokens_with_id)) bob_link_state (Ok payload) 0.

(** A world in which discovery answers [discovered] and refresh succeeds. *)
Definition discovering : Env :=
  world (mkFetch (Some discovered) None) (refreshed (Some 3600)) (Ok (Some tokens0))
    state0 no_jwt 0.

(** [discovering], with the userinfo endpoint answering [profile]. *)
Definition discovering_profile : Env :=
  with_userinfo (mkFetch (Some profile) None) discovering.

End Demo.


(** ** Kinds of calls *)

(** A call that touches account records: creating an account, or handing
    the identity to the account-resolution collaborator. *)
Definition account_call (ev : Event) : Prop :=
  match ev with
  | EvCreateAccount _ | EvHandleOAuthUserInfo _ => True
  | _ => False
  end.

(** What it means for a call to use the endpoints of the discovery document
    [d]: the authorization URL is built on [d]'s authorization endpoint (with
    the provider's [authorizationUrlParams] set on it, when it has some), the
    code is exchanged at [d]'s token endpoint, and the user info is fetched
    from [d]'s userinfo endpoint. *)
Definition uses_discovered_endpoints (env : Env) (c : GenericOAuthConfig)
    (d : DiscoveryDocument) (ev : Event) : Prop :=
  match ev with
  | EvCreateAuthorizationURL a =>
      exists s, authorization_endpoint d = Some s
        /\ withAdditionalParams env (authorizationUrlParams c) s
           = Ok (cau_authorizationEndpoint a)
  | EvValidateAuthorizationCode a => token_endpoint d = Some (vac_tokenEndpoint a)
  | EvFetchUserInfo url _ => userinfo_endpoint d = Some url
  | _ => True
  end.

(** A token request that carries the client credentials of [c] in its body
    and has no [authorization] header; any other call passes. *)
Definition credentials_in_body (c : GenericOAuthConfig) (ev : Event) : Prop :=
  match ev with
  | EvFetchToken r =>
      req_headers r !! "authorization" = None
      /\ sp_get "client_id" (req_body r) = Some (clientId c)
      /\ sp_get "client_secret" (req_body r) = Some (clientSecret c)
  | _ => True
  end.

(** Where [redirectOnError] sends the browser. *)
Definition error_target (ctx : Context) (st : ParsedState) : string :=
  tpl (orS (orS (errorURL st) (Some (callbackURL st)))
           (Some (baseURL ctx +:+ "/error"))).

(** The one request of the default [getUserInfo]: to the userinfo URL it was
    given, with the access token as bearer credential. *)
Definition userinfo_request (url : option string) (tokens : OAuth2Tokens)
    (ev : Event) : Prop :=
  match ev with
  | EvFetchUserInfo u a => url = Some u /\ a = "Bearer " +:+ tpl (accessToken tokens)
  | _ => False
  end.

(** A call of the sign-in branch: account resolution or the session cookie. *)
Definition session_call (ev : Event) : Prop :=
  match ev with
  | EvHandleOAuthUserInfo _ | EvSetSessionCookie _ => True
  | _ => False
  end.

(** The creation of an account record. *)
Definition create_account_call (ev : Event) : Prop :=
  match ev with
  | EvCreateAccount _ => True
  | _ => False
  end.

(** The calls an initiation may make: discovery, logging, the state codec and
    the authorization URL builder. *)
Definition initiation_call (ev : Event) : Prop :=
  match ev with
  | EvFetchDiscovery _ | EvLogError _ | EvGenerateState
  | EvCreateAuthorizationURL _ => True
  | _ => False
  end.

(** What it means for a call to use the statically configured endpoints of
    [c]. *)
Definition uses_static_endpoints (env : Env) (c : GenericOAuthConfig)
    (ev : Event) : Prop :=
  match ev with
  | EvCreateAuthorizationURL a =>
      exists s, authorizationUrl c = Some s
        /\ withAdditionalParams env (authorizationUrlParams c) s
           = Ok (cau_authorizationEndpoint a)
  | EvValidateAuthorizationCode a => tokenUrl c = Some (vac_tokenEndpoint a)
  | EvFetchUserInfo url _ => userInfoUrl c = Some url
  | _ => True
  end.

(** A token request sent to [endpoint]; a discovery fetch passes, nothing
    else does. *)
Definition token_request_at (endpoint : option string) (ev : Event) : Prop :=
  match ev with
  | EvFetchToken r => endpoint = Some (req_url r)
  | EvFetchDiscovery _ => True
  | _ => False
  end.

(** A code exchange sent to [endpoint]; a discovery fetch passes, nothing
    else does. *)
Definition code_exchange_at (endpoint : option string) (ev : Event) : Prop :=
  match ev with
  | EvValidateAuthorizationCode a => endpoint = Some (vac_tokenEndpoint a)
  | EvFetchDiscovery _ => True
  | _ => False
  end.

(** A link initiation that builds on [endpoint] without asking discovery. *)
Definition builds_on_without_discovery (endpoint : string) (ev : Event) : Prop :=
  match ev with
  | EvCreateAuthorizationURL a => cau_authorizationEndpoint a = endpoint
  | EvGenerateState => True
  | _ => False
  end.

(** [s] with every space replaced by an underscore. *)
Fixpoint underscored (s : string) : string :=
  match s with
  | EmptyString => EmptyString
  | String a r =>
      String (if Ascii.eqb a " " then "_"%char else a) (underscored r)
  end.

(** The default [getUserInfo] cannot take the identity from the ID token:
    there is none, or its payload lacks a [sub] or an [email]. *)
Definition id_token_insufficient (env : Env) (tokens : OAuth2Tokens) : Prop :=
  truthyS (idToken tokens) = false
  \/ exists decoded,
       decodeJwt env (default "" (idToken tokens)) = Ok decoded
       /\ truthy (prop decoded "sub") && truthy (prop decoded "email") = false.

(** The calls the callback may make up to the user info: the state codec,
    discovery, the code exchange, the userinfo request and the logger. *)
Definition resolution_call (ev : Event) : Prop :=
  match ev with
  | EvParseState | EvFetchDiscovery _ | EvValidateAuthorizationCode _
  | EvFetchUserInfo _ _ | EvLogError _ => True
  | _ => False
  end.

(** ** Reasoning about computations *)

(** [safe P m Q]: whatever was called before, every call [m] makes satisfies
    [P], and the value [m] returns, when it returns one, satisfies [Q]. *)
Definition safe {A} (P : Event -> Prop) (m : M A) (Q : A -> Prop) : Prop :=
  forall h, Forall P (snd (m h)) /\ forall a, fst (m h) = Ok a -> Q a.

Section Safe.
Context {A B : Type} (P : Event -> Prop).

Lemma safe_ret (a : A) (Q : A -> Prop) : Q a -> safe P (ret a) Q.
Proof.
  intros Ha h; split; [constructor|].
  intros b Hb; cbn in Hb; congruence.
Qed.

Lemma safe_throw (e : Exn) (Q : A -> Prop) : safe P (throw e) Q.
Proof. intros h; split; [constructor|]. intros a Ha; discriminate Ha. Qed.

Lemma safe_lift (r : Result A) (Q : A -> Prop) :
  (forall a, r = Ok a -> Q a) -> safe P (lift r) Q.
Proof. intros Hr h; split; [constructor|]. exact Hr. Qed.

Lemma safe_ask (read : list Event -> A) (Q : A -> Prop) :
  (forall h, Q (read h)) -> safe P (ask read) Q.
Proof.
  intros Hr h; split; [constructor|].
  intros a Ha; cbn in Ha; injection Ha as <-; apply Hr.
Qed.

Lemma safe_emit (ev : Event) (Q : unit -> Prop) :
  P ev -> Q tt -> safe P (emit ev) Q.
Proof.
  intros Hev Hq h; split; [repeat constructor; exact Hev|].
  intros [] _; exact Hq.
Qed.

Lemma safe_call (ev : Event) (answer : list Event -> Result A) (Q : A -> Prop) :
  P ev -> (forall h a, answer h = Ok a -> Q a) -> safe P (call ev answer) Q.
Proof.
  intros Hev Hq h; split; [repeat constructor; exact Hev|].
  intros a Ha; exact (Hq h a Ha).
Qed.

Lemma safe_bind (m : M A) (f : A -> M B) (R : A -> Prop) (Q : B -> Prop) :
  safe P m R -> (forall a, R a -> safe P (f a) Q) -> safe P (bind m f) Q.
Proof.
  intros Hm Hf h. unfold bind.
  destruct (Hm h) as [Ht Hv]. destruct (m h) as [[a|e] t1]; cbn in *.
  - destruct (Hf a (Hv a eq_refl) (h ++ t1)) as [Ht2 Hv2].
    destruct (f a (h ++ t1)) as [r t2]; cbn in *.
    split; [apply Forall_app; split; assumption | exact Hv2].
  - split; [exact Ht | intros b Hb; discriminate Hb].
Qed.

Lemma safe_try_catch (m : M A) (handler : Exn -> M A) (Q : A -> Prop) :
  safe P m Q -> (forall e, safe P (handler e) Q) -> safe P (try_catch m handler) Q.
Proof.
  intros Hm Hh h. unfold try_catch.
  destruct (Hm h) as [Ht Hv]. destruct (m h) as [[a|e] t1]; cbn in *.
  - split; assumption.
  - destruct (Hh e (h ++ t1)) as [Ht2 Hv2].
    destruct (handler e (h ++ t1)) as [r t2]; cbn in *.
    split; [apply Forall_app; split; assumption | exact Hv2].
Qed.

End Safe.

(** The trace of a computation that leaves through [bind]. *)
Lemma bind_run {A B} (m : M A) (f : A -> M B) h a t1 :
  m h = (Ok a, t1) ->
  bind m f h = (fst (f a (h ++ t1)), t1 ++ snd (f a (h ++ t1))).
Proof. intros Hm. unfold bind. rewrite Hm. destruct (f a (h ++ t1)); reflexivity. Qed.

(** ** [refreshAccessToken] *)

(** What [refreshAccessToken] does when the token endpoint answers with data
    and no error. *)
Lemma refreshAccessToken_data env rt options pc h d :
  betterFetch_token env h (refresh_request env rt options pc)
    = Ok (mkFetch (Some d) None) ->
  refreshAccessToken env rt options pc h =
    (Ok (if truthyN (expires_in d)
         then with_accessTokenExpiresAt (tokens_of_response d)
                (Date_new
                   (Date_now env (h ++ [EvFetchToken (refresh_request env rt options pc)])
                    + default 0 (expires_in d) * 1000))
         else tokens_of_response d),
     [EvFetchToken (refresh_request env rt options pc)]).
Proof.
  intros Hfetch. unfold refreshAccessToken, bind, call. rewrite Hfetch. cbn.
  destruct (truthyN (expires_in d)); reflexivity.
Qed.

(** C8. When the token endpoint's response carries [expires_in = 3600] and the
    clock reads [T] once the response is in, [refreshAccessToken] returns a
    bundle whose [accessTokenExpiresAt] is the date [T + 3600 * 1000] ms, that
    is [T] plus 3600 seconds exactly ([T + 3600 s] being a valid date). *)
Theorem refresh_expiry_is_receipt_plus_3600s env rt options pc h d T :
  betterFetch_token env h (refresh_request env rt options pc)
    = Ok (mkFetch (Some d) None) ->
  expires_in d = Some 3600 ->
  Date_now env (h ++ [EvFetchToken (refresh_request env rt options pc)]) = T ->
  Z.abs (T + 3600 * 1000) <= 8640000000000000 ->
  exists tokens,
    fst (refreshAccessToken env rt options pc h) = Ok tokens
    /\ accessTokenExpiresAt tokens = Some (DateMs (T + 3600 * 1000)).
Proof.
  intros Hfetch Hexp Hnow Hrange.
  rewrite (refreshAccessToken_data _ _ _ _ _ _ Hfetch), Hexp, Hnow. cbn [truthyN fst].
  eexists; split; [reflexivity|]. cbn.
  unfold Date_new. apply Z.leb_le in Hrange. cbn in Hrange |- *. rewrite Hrange.
  reflexivity.
Qed.

(** C10. When the refresh response omits [expires_in] or reports
    [expires_in = 0], [refreshAccessToken] returns the bundle built from the
    response with no [accessTokenExpiresAt]; the clock is not consulted. *)
Theorem refresh_without_expiry env rt options pc h d :
  betterFetch_token env h (refresh_request env rt options pc)
    = Ok (mkFetch (Some d) None) ->
  expires_in d = None \/ expires_in d = Some 0 ->
  fst (refreshAccessToken env rt options pc h) = Ok (tokens_of_response d)
  /\ accessTokenExpiresAt (tokens_of_response d) = None.
Proof.
  intros Hfetch Hexp.
  rewrite (refreshAccessToken_data _ _ _ _ _ _ Hfetch).
  destruct Hexp as [-> | ->]; split; reflexivity.
Qed.

(** ** The default [getUserInfo] *)

(** C3. When the bundle carries an ID token that decodes to a payload with a
    [sub] and an [email] claim (both truthy, the test the code applies), the
    default [getUserInfo] returns the identity spread from that payload, with
    [id] and [email] taken from it, and makes no call at all: in particular no
    request to the userinfo endpoint. *)
Theorem getUserInfo_id_token_short_circuit env tokens finalUserInfoUrl h t decoded :
  idToken tokens = Some t ->
  t <> "" ->
  decodeJwt env t = Ok decoded ->
  truthy (prop decoded "sub") = true ->
  truthy (prop decoded "email") = true ->
  exists identity : Obj,
    getUserInfo env tokens finalUserInfoUrl h = (Ok (Some identity), [])
    /\ identity = decoded ∪
         ({[ "id" := prop decoded "sub";
             "emailVerified" := prop decoded "email_verified";
             "image" := prop decoded "picture" ]} : Obj)
    /\ prop identity "email" = prop decoded "email"
    /\ prop identity "sub" = prop decoded "sub"
    /\ (decoded !! "id" = None -> prop identity "id" = prop decoded "sub").
Proof.
  intros Hid Hne Hjwt Hsub Hemail.
  eexists; split; [|split; [reflexivity|]].
  - unfold getUserInfo, bind, lift, ret. rewrite Hid.
    cbn [truthyS default from_option id].
    apply String.eqb_neq in Hne. rewrite Hne, Hjwt. cbn [negb].
    rewrite Hsub, Hemail. reflexivity.
  - assert (Hin : forall k, truthy (prop decoded k) = true -> is_Some (decoded !! k)).
    { intros k. unfold prop. destruct (decoded !! k); [eauto | discriminate]. }
    repeat split.
    + unfold prop at 1. destruct (Hin _ Hemail) as [v Hv].
      rewrite (lookup_union_Some_l _ _ _ _ Hv). unfold prop. rewrite Hv. reflexivity.
    + unfold prop at 1. destruct (Hin _ Hsub) as [v Hv].
      rewrite (lookup_union_Some_l _ _ _ _ Hv). unfold prop. rewrite Hv. reflexivity.
    + intros Hnone. unfold prop at 1.
      rewrite lookup_union_r by exact Hnone. reflexivity.
Qed.

(** ** The callback handler *)

(** C9. When the callback query carries an [error] or lacks a [code] (each
    read as the code tests it: a non-empty [error], an absent or empty
    [code]), the handler throws a redirect to
    [{errorURL}?error={error or oAuth_code_missing}&error_description={description}]
    and makes no call at all: in particular none to the token endpoint. *)
Theorem callback_error_or_missing_code_redirects env config ctx pid query h :
  truthyS (q_error query) = true \/ truthyS (q_code query) = false ->
  oAuth2Callback env config ctx pid query h =
    (Throw (Redirect
       (tpl (orS (onAPIError_errorURL ctx) (Some (baseURL ctx +:+ "/error")))
        +:+ "?error=" +:+ tpl (orS (q_error query) (Some "oAuth_code_missing"))
        +:+ "&error_description=" +:+ tpl (q_error_description query))),
     []).
Proof.
  intros Hq. unfold oAuth2Callback, bind, callback_identity.
  assert (Hgate : truthyS (q_error query) || negb (truthyS (q_code query)) = true).
  { destruct Hq as [-> | ->]; [reflexivity | apply orb_true_r]. }
  rewrite Hgate. reflexivity.
Qed.

(** One step of a [safe] proof: the rule of the computation's head. *)
Ltac safe_step :=
  lazymatch goal with
  | |- safe _ (ret _) _ => apply safe_ret
  | |- safe _ (throw _) _ => apply safe_throw
  | |- safe _ (redirectOnError _ _ _) _ => apply safe_throw
  | |- safe _ (lift _) _ => apply safe_lift
  | |- safe _ (ask _) _ => apply safe_ask
  | |- safe _ (emit _) _ => apply safe_emit
  | |- safe _ (call _ _) _ => apply safe_call
  | |- safe _ (try_catch _ _) _ => apply safe_try_catch; [|intros ?]
  | |- safe _ (bind _ _) _ =>
      eapply safe_bind with (R := fun _ => True); [|intros ? _]
  | |- safe _ (if ?b then _ else _) _ => destruct b eqn:?
  | |- safe _ (match ?x with _ => _ end) _ => destruct x eqn:?
  end.

(** The first stage of the callback makes no call that touches account
    records. *)
Lemma callback_identity_no_account_call env config ctx pid query :
  safe (fun ev => ~ account_call ev)
       (callback_identity env config ctx pid query) (fun _ => True).
Proof.
  unfold callback_identity, getUserInfo.
  repeat (safe_step; cbn [account_call]; try tauto).
Qed.

(** C4. When the user info the callback extracted has no email (no user
    info at all, or a falsy [email]), the handler logs, throws the redirect
    [{errorURL || callbackURL || baseURL/error}?error=email_is_missing], and
    the whole run makes no call that touches account records: neither
    [handleOAuthUserInfo] nor [createAccount]. *)
Theorem callback_missing_email_redirects env config ctx pid query h x tr :
  callback_identity env config ctx pid query h = (Ok x, tr) ->
  truthy (propOpt (ci_userInfo x) "email") = false ->
  oAuth2Callback env config ctx pid query h =
    (Throw (Redirect (error_target ctx (ci_state x) +:+ "?error=email_is_missing")),
     tr ++ [EvLogError "Unable to get user info"])
  /\ Forall (fun ev => ~ account_call ev)
            (snd (oAuth2Callback env config ctx pid query h)).
Proof.
  intros Hid Hemail.
  assert (Hrun : oAuth2Callback env config ctx pid query h =
    (Throw (Redirect (error_target ctx (ci_state x) +:+ "?error=email_is_missing")),
     tr ++ [EvLogError "Unable to get user info"])).
  { unfold oAuth2Callback. rewrite (bind_run _ _ _ _ _ Hid).
    unfold callback_complete. rewrite Hemail. reflexivity. }
  split; [exact Hrun|].
  rewrite Hrun. cbn [snd]. apply Forall_app; split.
  - pose proof (callback_identity_no_account_call env config ctx pid query h) as [Ht _].
    rewrite Hid in Ht. exact Ht.
  - repeat constructor. cbn. tauto.
Qed.

(** C5. In a link flow (the flow state carries a link target), when
    [allowDifferentEmails] is not [true] and the link target's email differs
    from the extracted email as the code compares them (the extracted one
    lower-cased), the handler throws the redirect
    [{errorURL || callbackURL || baseURL/error}?error=email_doesn't_match] and
    the whole run makes no call that touches account records. The provider's
    own [mapProfileToUser], which runs before the comparison, is taken to
    return. *)
Theorem callback_link_email_mismatch_redirects
    env config ctx pid query h x tr l email :
  callback_identity env config ctx pid query h = (Ok x, tr) ->
  link (ci_state x) = Some l ->
  allowDifferentEmails ctx <> Some true ->
  propOpt (ci_userInfo x) "email" = JStr email ->
  email <> "" ->
  link_email l <> toLowerCase env email ->
  (forall f, mapProfileToUser (ci_provider x) = Some f ->
             exists mapped, f (default ∅ (ci_userInfo x)) = Ok mapped) ->
  oAuth2Callback env config ctx pid query h =
    (Throw (Redirect (error_target ctx (ci_state x) +:+ "?error=email_doesn't_match")),
     tr)
  /\ Forall (fun ev => ~ account_call ev)
            (snd (oAuth2Callback env config ctx pid query h)).
Proof.
  intros Hid Hlink Hallow Hemail Hne Hdiff Hmap.
  assert (Hrun : oAuth2Callback env config ctx pid query h =
    (Throw (Redirect (error_target ctx (ci_state x) +:+ "?error=email_doesn't_match")),
     tr)).
  { unfold oAuth2Callback. rewrite (bind_run _ _ _ _ _ Hid).
    unfold callback_complete. rewrite Hemail, Hlink.
    apply String.eqb_neq in Hne, Hdiff.
    cbn [truthy]. rewrite Hne. cbn [negb].
    assert (Hprop : prop (default ∅ (ci_userInfo x)) "email" = JStr email).
    { destruct (ci_userInfo x); [exact Hemail | discriminate Hemail]. }
    rewrite (bool_decide_eq_false_2 _ Hallow).
    destruct (mapProfileToUser (ci_provider x)) as [f|] eqn:Hf.
    - destruct (Hmap f eq_refl) as [mapped Hmapped].
      unfold bind, lift, ret. rewrite Hmapped. cbn.
      rewrite Hprop. cbn. rewrite Hdiff. cbn. rewrite app_nil_r. reflexivity.
    - unfold bind, ret. cbn. rewrite Hprop. cbn. rewrite Hdiff. cbn.
      rewrite app_nil_r. reflexivity. }
  split; [exact Hrun|].
  rewrite Hrun. cbn [snd].
  pose proof (callback_identity_no_account_call env config ctx pid query h) as [Ht _].
  rewrite Hid in Ht. exact Ht.
Qed.

(** ** Discovery *)

Section Discovery.
Variables (env : Env) (c : GenericOAuthConfig) (url : string) (d : DiscoveryDocument).
Hypothesis Hurl : discoveryUrl c = Some url.
Hypothesis Hnonempty : url <> "".
Hypothesis Hfetch :
  forall h, exists e, betterFetch_discovery env h url = Ok (mkFetch (Some d) e).

Let P := uses_discovered_endpoints env c d.

Lemma discoveryUrl_truthy : truthyS (discoveryUrl c) = true.
Proof.
  rewrite Hurl. cbn. apply String.eqb_neq in Hnonempty. rewrite Hnonempty. reflexivity.
Qed.

Lemma discovery_call_data :
  safe P (call (EvFetchDiscovery url) (fun h => betterFetch_discovery env h url))
       (fun discovery => data discovery = Some d).
Proof.
  apply safe_call; [exact I|].
  intros h a Ha. destruct (Hfetch h) as [e He]. rewrite He in Ha.
  injection Ha as <-. reflexivity.
Qed.

Lemma signIn_uses_discovery config ctx body :
  find_config config (body_providerId body) = Some c ->
  safe P (signInWithOAuth2 env config ctx body) (fun _ => True).
Proof.
  intros Hfind. unfold signInWithOAuth2. rewrite Hfind, discoveryUrl_truthy, Hurl.
  cbn [default from_option id].
  eapply safe_bind with
    (R := fun finals => finals = (authorization_endpoint d, token_endpoint d)).
  { eapply safe_bind; [apply discovery_call_data|].
    intros discovery Hdata. cbn beta. rewrite Hdata.
    eapply safe_bind with (R := fun _ => True).
    - destruct (error discovery); [apply safe_emit; exact I | apply safe_ret; exact I].
    - intros _ _. apply safe_ret. reflexivity. }
  intros finals ->. cbn [fst snd].
  destruct (negb (truthyS (authorization_endpoint d))
            || negb (truthyS (token_endpoint d))) eqn:Hgate;
    [apply safe_throw|].
  eapply safe_bind with
    (R := fun finalAuthUrl =>
            withAdditionalParams env (authorizationUrlParams c)
              (default "" (authorization_endpoint d)) = Ok finalAuthUrl).
  { apply safe_lift. auto. }
  intros finalAuthUrl Hfinal.
  eapply safe_bind with (R := fun _ => True).
  { apply safe_call; [exact I | auto]. }
  intros st _.
  eapply safe_bind with (R := fun _ => True).
  { apply safe_call; [|auto].
    destruct (authorization_endpoint d) as [s|] eqn:Hauth; [|discriminate Hgate].
    exists s. split; [exact Hauth | exact Hfinal]. }
  intros authUrl _. apply safe_ret. exact I.
Qed.

Lemma callback_uses_discovery config ctx pid query :
  find_config config pid = Some c ->
  safe P (oAuth2Callback env config ctx pid query) (fun _ => True).
Proof.
  intros Hfind. unfold oAuth2Callback.
  eapply safe_bind with
    (R := fun x => ci_provider x = c).
  - unfold callback_identity.
    destruct (truthyS (q_error query) || negb (truthyS (q_code query)));
      [apply safe_throw|].
    rewrite Hfind, discoveryUrl_truthy, Hurl. cbn [default from_option id].
    eapply safe_bind with (R := fun _ => True);
      [apply safe_call; [exact I | auto]|].
    intros st _.
    eapply safe_bind with
      (R := fun finals => finals = (token_endpoint d, userinfo_endpoint d)).
    { eapply safe_bind; [apply discovery_call_data|].
      intros discovery Hdata. cbn beta. rewrite Hdata. apply safe_ret. reflexivity. }
    intros finals ->. cbn [fst snd].
    eapply safe_bind with (R := fun _ => True).
    { apply safe_try_catch.
      - destruct (token_endpoint d) as [s|] eqn:Htoken; cbn; [|apply safe_throw].
        destruct (negb (negb (String.eqb s ""))); [apply safe_throw|].
        apply safe_call; [exact Htoken | auto].
      - intros e. repeat (safe_step; try (intros; exact I)). }
    intros [tokens|] _; [|apply safe_throw].
    eapply safe_bind with (R := fun _ => True).
    { destruct (cfg_getUserInfo c); [apply safe_lift; auto|].
      unfold getUserInfo.
      eapply safe_bind with (R := fun _ => True).
      { repeat (safe_step; try (intros; exact I)). }
      intros [identity|] _; [apply safe_ret; exact I|].
      destruct (userinfo_endpoint d) as [s|] eqn:Huserinfo; cbn;
        [|apply safe_ret; exact I].
      destruct (negb (negb (String.eqb s ""))); [apply safe_ret; exact I|].
      eapply safe_bind with (R := fun _ => True).
      - apply safe_call; [exact Huserinfo | auto].
      - intros ? _. apply safe_ret. exact I. }
    intros userInfo _. apply safe_ret. reflexivity.
  - intros x Hx. unfold callback_complete.
    repeat (safe_step; try (intros; exact I)).
Qed.

End Discovery.

(** ** URLSearchParams *)

Lemma sp_get_filter_ne k name (l : URLSearchParams) :
  k <> name ->
  sp_get k (List.filter (fun p => negb (String.eqb (fst p) name)) l) = sp_get k l.
Proof.
  intros Hne. induction l as [|[k0 v0] l IH]; [reflexivity|].
  cbn. destruct (String.eqb k0 name) eqn:E0; cbn.
  - apply String.eqb_eq in E0. subst k0.
    destruct (String.eqb name k) eqn:E1; [|exact IH].
    apply String.eqb_eq in E1. congruence.
  - rewrite IH. reflexivity.
Qed.

Lemma sp_get_set_eq k v (l : URLSearchParams) : sp_get k (sp_set k v l) = Some v.
Proof.
  induction l as [|[k0 v0] l IH]; cbn.
  - rewrite String.eqb_refl. reflexivity.
  - destruct (String.eqb k0 k) eqn:E; cbn.
    + rewrite String.eqb_refl. reflexivity.
    + rewrite E. exact IH.
Qed.

Lemma sp_get_set_ne k k' v (l : URLSearchParams) :
  k <> k' -> sp_get k' (sp_set k v l) = sp_get k' l.
Proof.
  intros Hne. induction l as [|[k0 v0] l IH]; cbn.
  - apply String.eqb_neq in Hne. rewrite Hne. reflexivity.
  - destruct (String.eqb k0 k) eqn:E; cbn.
    + apply String.eqb_eq in E. subst k0.
      apply String.eqb_neq in Hne. rewrite Hne.
      apply sp_get_filter_ne. apply String.eqb_neq in Hne. congruence.
    + destruct (String.eqb k0 k'); [reflexivity | exact IH].
Qed.

(** ** Credentials of the refresh request *)

(** [refreshAccessToken] itself follows its [providerConfig.authentication]:
    with ["basic"] the credentials go into a Basic [authorization] header. *)
Lemma refresh_request_basic env rt options pc :
  rp_authentication pc = Some basic ->
  req_headers (refresh_request env rt options pc) !! "authorization"
    = Some ("Basic " +:+ btoa env (po_clientId options +:+ ":" +:+ po_clientSecret options)).
Proof.
  intros Hbasic. unfold refresh_request. rewrite Hbasic. cbn [req_headers fst].
  apply lookup_insert_eq.
Qed.

(** Otherwise there is no [authorization] header and the credentials are body
    parameters (under the extra parameters, when there are some). *)
Lemma refresh_request_post env rt options pc :
  rp_authentication pc <> Some basic ->
  req_headers (refresh_request env rt options pc) !! "authorization" = None
  /\ req_body (refresh_request env rt options pc) =
       from_option sp_setAll (fun b => b) (extraParams pc)
         [("grant_type", "refresh_token"); ("refresh_token", rt);
          ("client_id", po_clientId options);
          ("client_secret", po_clientSecret options)].
Proof.
  intros Hpost. unfold refresh_request.
  destruct (rp_authentication pc) as [[|]|]; [congruence| |];
    (split; [vm_compute; reflexivity | destruct (extraParams pc); reflexivity]).
Qed.

(** The provider's [refreshAccessToken] hands [refreshAccessToken] a
    [providerConfig] with the token endpoint only: whatever the provider's
    [authentication], its token request has no [authorization] header and
    carries the credentials in the body. *)
Lemma provider_refresh_credentials_in_body env c rt :
  safe (credentials_in_body c) (provider_refreshAccessToken env c rt) (fun _ => True).
Proof.
  unfold provider_refreshAccessToken, refreshAccessToken.
  repeat (safe_step; try (intros; exact I)).
  all: cbn; repeat split; vm_compute; reflexivity.
Qed.

(** C7. A provider whose [authentication] is ["basic"] should refresh with
    its credentials in a Basic [authorization] header. It does not:
    [Demo.acme_basic] has that setting, and its [refreshAccessToken] sends one
    token request without an [authorization] header and with [client_id] and
    [client_secret] in the body. The setting never reaches
    [refreshAccessToken] (see [refresh_request_basic] for what it does with
    it, and [provider_refresh_credentials_in_body] for every provider). *)
Theorem provider_refresh_drops_basic_authentication :
  authentication Demo.acme_basic = Some basic
  /\ snd (provider_refreshAccessToken
            (Demo.world Demo.no_discovery (Demo.refreshed (Some 3600))
               (Ok None) Demo.state0 Demo.no_jwt 1700000000000)
            Demo.acme_basic "rt-1" [])
     = [EvFetchToken
          {| req_url := "https://acme.test/token";
             req_body :=
               [("grant_type", "refresh_token"); ("refresh_token", "rt-1");
                ("client_id", "client-1"); ("client_secret", "s3cret")];
             req_headers :=
               {[ "content-type" := "application/x-www-form-urlencoded";
                  "accept" := "application/json" ]} |}].
Proof. split; vm_compute; reflexivity. Qed.

(** ** A missing token endpoint at callback *)

(** When the provider has no static token URL and the discovery fetch brings
    no data, the [BAD_REQUEST] thrown inside the [try] block is caught by its
    [catch], logged, and replaced by a redirect. *)
Lemma callback_missing_token_endpoint_run
    env config ctx pid query h provider url e st :
  truthyS (q_error query) = false ->
  truthyS (q_code query) = true ->
  find_config config pid = Some provider ->
  parseState env h query = Ok st ->
  discoveryUrl provider = Some url ->
  url <> "" ->
  betterFetch_discovery env (h ++ [EvParseState]) url = Ok (mkFetch None e) ->
  tokenUrl provider = None ->
  oAuth2Callback env config ctx pid query h =
    (Throw (Redirect (error_target ctx st +:+ "?error=oauth_code_verification_failed")),
     [EvParseState; EvFetchDiscovery url; EvLogError "APIError"]).
Proof.
  intros Herr Hcode Hfind Hstate Hdisc Hne Hfetch Htoken.
  apply String.eqb_neq in Hne.
  unfold oAuth2Callback, callback_identity, bind, call, try_catch.
  rewrite Herr, Hcode, Hfind. cbv beta iota. cbn [orb negb].
  rewrite Hstate, Hdisc. cbn [truthyS default from_option id]. rewrite Hne.
  cbn [negb]. rewrite Hfetch. cbn [data]. rewrite Htoken. reflexivity.
Qed.

(** The same without a discovery URL. *)
Lemma callback_no_token_endpoint_run env config ctx pid query h provider st :
  truthyS (q_error query) = false ->
  truthyS (q_code query) = true ->
  find_config config pid = Some provider ->
  parseState env h query = Ok st ->
  discoveryUrl provider = None ->
  tokenUrl provider = None ->
  oAuth2Callback env config ctx pid query h =
    (Throw (Redirect (error_target ctx st +:+ "?error=oauth_code_verification_failed")),
     [EvParseState; EvLogError "APIError"]).
Proof.
  intros Herr Hcode Hfind Hstate Hdisc Htoken.
  unfold oAuth2Callback, callback_identity, bind, call, try_catch.
  rewrite Herr, Hcode, Hfind. cbv beta iota. cbn [orb negb].
  rewrite Hstate, Hdisc, Htoken. reflexivity.
Qed.

(** C2. A callback that finds no token endpoint after its discovery attempt
    should fail with [BAD_REQUEST] and not be redirected. It is redirected:
    [Demo.acme_discovery_only] has a discovery URL and no static token URL,
    the discovery fetch brings no data, and the handler answers a callback
    carrying a code with the redirect
    [.../welcome?error=oauth_code_verification_failed], after logging the
    [APIError] its [catch] block caught. *)
Theorem callback_missing_token_endpoint_is_redirected :
  oAuth2Callback
    (Demo.world Demo.no_discovery Demo.no_token (Ok (Some Demo.tokens0))
       Demo.state0 Demo.no_jwt 0)
    [Demo.acme_discovery_only] Demo.ctx "acme" Demo.query0 []
  = (Throw (Redirect "https://app.test/welcome?error=oauth_code_verification_failed"),
     [EvParseState; EvFetchDiscovery Demo.well_known; EvLogError "APIError"]).
Proof. vm_compute. reflexivity. Qed.

(** ** Custom authorization parameters *)

(** The handler sets [prompt] on the URL the builder returned, after the
    custom parameters went into the endpoint: whatever the builder does, the
    provider's [prompt] is the one in the answer. *)
Lemma signIn_prompt_is_the_configured_one env config ctx body c p :
  find_config config (body_providerId body) = Some c ->
  prompt c = Some p ->
  p <> "" ->
  safe (fun _ => True) (signInWithOAuth2 env config ctx body)
       (fun resp => exists u, resp_url resp = URL_toString env u
                              /\ sp_get "prompt" (searchParams u) = Some p).
Proof.
  intros Hfind Hprompt Hne. unfold signInWithOAuth2. rewrite Hfind, Hprompt.
  apply String.eqb_neq in Hne. cbn [truthyS default from_option id]. rewrite Hne.
  cbn [negb].
  repeat (safe_step; try (intros; exact I)).
  eexists; split; [reflexivity|].
  destruct (truthyS (accessType c)); cbn [searchParams url_set].
  - rewrite (sp_get_set_ne "access_type" "prompt") by discriminate.
    apply sp_get_set_eq.
  - apply sp_get_set_eq.
Qed.

(** C6. Every key of [authorizationUrlParams] should reach the final
    authorization URL with its custom value, over the value set by default.
    It does not: [Demo.acme_prompt] has the custom parameter [prompt=login]
    and the setting [prompt: "consent"]; the custom parameter reaches the
    endpoint handed to the builder, and the URL the handler answers with says
    [prompt=consent]. *)
Theorem signIn_custom_prompt_is_overwritten :
  authorizationUrlParams Demo.acme_prompt = Some [("prompt", "login")]
  /\ signInWithOAuth2
       (Demo.world Demo.no_discovery Demo.no_token (Ok None) Demo.state0
          Demo.no_jwt 0)
       [Demo.acme_prompt] Demo.ctx Demo.body0 []
     = (Ok {| resp_url :=
                "https://acme.test/authorize?prompt=consent&response_type=code"
                +:+ "&client_id=client-1&state=st4te&scope=openid email"
                +:+ "&redirect_uri=https://app.test/api/auth/oauth2/callback/acme";
              resp_redirect := true |},
        [EvGenerateState;
         EvCreateAuthorizationURL
           {| cau_id := "acme";
              cau_options := mkOptions "client-1" "s3cret" None;
              cau_authorizationEndpoint := "https://acme.test/authorize?prompt=login";
              cau_state := "st4te";
              cau_codeVerifier := None;
              cau_scopes := ["openid"; "email"];
              cau_redirectURI := "https://app.test/api/auth/oauth2/callback/acme" |}]).
Proof. split; vm_compute; reflexivity. Qed.

(** ** The theorems at work in the small world *)

(** C8 at work: the response carries [expires_in = 3600] and the clock reads
    1700000000000 ms. *)
Lemma refresh_expiry_is_receipt_plus_3600s_witness :
  exists tokens,
    fst (refreshAccessToken
           (Demo.world Demo.no_discovery (Demo.refreshed (Some 3600)) (Ok None)
              Demo.state0 Demo.no_jwt 1700000000000)
           "rt-1" (mkOptions "client-1" "s3cret" None)
           (mkRefreshConfig "https://acme.test/token" (Some basic) None) [])
    = Ok tokens
    /\ accessTokenExpiresAt tokens = Some (DateMs (1700000000000 + 3600 * 1000)).
Proof.
  apply (refresh_expiry_is_receipt_plus_3600s
           (Demo.world Demo.no_discovery (Demo.refreshed (Some 3600)) (Ok None)
              Demo.state0 Demo.no_jwt 1700000000000)
           "rt-1" (mkOptions "client-1" "s3cret" None)
           (mkRefreshConfig "https://acme.test/token" (Some basic) None) []
           (Demo.token_response (Some 3600)) 1700000000000).
  - reflexivity.
  - reflexivity.
  - reflexivity.
  - vm_compute. discriminate.
Defined.

(** C10 at work: the response reports [expires_in = 0]. *)
Lemma refresh_without_expiry_witness :
  fst (refreshAccessToken
         (Demo.world Demo.no_discovery (Demo.refreshed (Some 0)) (Ok None)
            Demo.state0 Demo.no_jwt 1700000000000)
         "rt-1" (mkOptions "client-1" "s3cret" None)
         (mkRefreshConfig "https://acme.test/token" None None) [])
  = Ok (tokens_of_response (Demo.token_response (Some 0)))
  /\ accessTokenExpiresAt (tokens_of_response (Demo.token_response (Some 0))) = None.
Proof.
  apply (refresh_without_expiry
           (Demo.world Demo.no_discovery (Demo.refreshed (Some 0)) (Ok None)
              Demo.state0 Demo.no_jwt 1700000000000)
           "rt-1" (mkOptions "client-1" "s3cret" None)
           (mkRefreshConfig "https://acme.test/token" None None) []
           (Demo.token_response (Some 0))).
  - reflexivity.
  - right. reflexivity.
Defined.

(** C3 at work: the ID token decodes to [Demo.payload]. *)
Lemma getUserInfo_id_token_short_circuit_witness :
  exists identity : Obj,
    getUserInfo
      (Demo.world Demo.no_discovery Demo.no_token (Ok None) Demo.state0
         (Ok Demo.payload) 0)
      Demo.tokens_with_id (Some "https://acme.test/userinfo") []
    = (Ok (Some identity), [])
    /\ identity = Demo.payload ∪
         ({[ "id" := prop Demo.payload "sub";
             "emailVerified" := prop Demo.payload "email_verified";
             "image" := prop Demo.payload "picture" ]} : Obj)
    /\ prop identity "email" = prop Demo.payload "email"
    /\ prop identity "sub" = prop Demo.payload "sub"
    /\ (Demo.payload !! "id" = None -> prop identity "id" = prop Demo.payload "sub").
Proof.
  apply (getUserInfo_id_token_short_circuit
           (Demo.world Demo.no_discovery Demo.no_token (Ok None) Demo.state0
              (Ok Demo.payload) 0)
           Demo.tokens_with_id (Some "https://acme.test/userinfo") []
           "header.payload.signature" Demo.payload).
  - reflexivity.
  - discriminate.
  - reflexivity.
  - vm_compute. reflexivity.
  - vm_compute. reflexivity.
Defined.

(** C9 at work: the provider refused, [error=access_denied]. *)
Lemma callback_error_or_missing_code_redirects_witness :
  oAuth2Callback
    (Demo.world Demo.no_discovery Demo.no_token (Ok None) Demo.state0 Demo.no_jwt 0)
    [Demo.acme] Demo.ctx "acme" Demo.denied []
  = (Throw (Redirect
       ("https://app.test/api/auth/error?error=access_denied"
        +:+ "&error_description=refused")),
     []).
Proof.
  apply (callback_error_or_missing_code_redirects
           (Demo.world Demo.no_discovery Demo.no_token (Ok None) Demo.state0
              Demo.no_jwt 0)
           [Demo.acme] Demo.ctx "acme" Demo.denied []).
  left. reflexivity.
Defined.

(** C4 at work: the userinfo endpoint answers without data. *)
Lemma callback_missing_email_redirects_witness :
  oAuth2Callback
    (Demo.world Demo.no_discovery Demo.no_token (Ok (Some Demo.tokens0))
       Demo.state0 Demo.no_jwt 0)
    [Demo.acme] Demo.ctx "acme" Demo.query0 []
  = (Throw (Redirect
       (error_target Demo.ctx Demo.state0 +:+ "?error=email_is_missing")),
     [EvParseState; Demo.exchange "https://acme.test/token";
      EvFetchUserInfo "https://acme.test/userinfo" "Bearer at-1"]
     ++ [EvLogError "Unable to get user info"])
  /\ Forall (fun ev => ~ account_call ev)
       (snd (oAuth2Callback
               (Demo.world Demo.no_discovery Demo.no_token (Ok (Some Demo.tokens0))
                  Demo.state0 Demo.no_jwt 0)
               [Demo.acme] Demo.ctx "acme" Demo.query0 [])).
Proof.
  apply (callback_missing_email_redirects
           (Demo.world Demo.no_discovery Demo.no_token (Ok (Some Demo.tokens0))
              Demo.state0 Demo.no_jwt 0)
           [Demo.acme] Demo.ctx "acme" Demo.query0 []
           (mkIdentity Demo.acme Demo.state0 Demo.tokens0 (Some Demo.nobody))).
  - vm_compute. reflexivity.
  - vm_compute. reflexivity.
Defined.

(** C5 at work: a link flow for [alice@app.test] meets the identity
    [Bob@Acme.test]. *)
Lemma callback_link_email_mismatch_redirects_witness :
  oAuth2Callback
    (Demo.world Demo.no_discovery Demo.no_token (Ok (Some Demo.tokens_with_id))
       Demo.link_state (Ok Demo.payload) 0)
    [Demo.acme] Demo.ctx "acme" Demo.query0 []
  = (Throw (Redirect
       (error_target Demo.ctx Demo.link_state +:+ "?error=email_doesn't_match")),
     [EvParseState; Demo.exchange "https://acme.test/token"])
  /\ Forall (fun ev => ~ account_call ev)
       (snd (oAuth2Callback
               (Demo.world Demo.no_discovery Demo.no_token
                  (Ok (Some Demo.tokens_with_id)) Demo.link_state (Ok Demo.payload) 0)
               [Demo.acme] Demo.ctx "acme" Demo.query0 [])).
Proof.
  apply (callback_link_email_mismatch_redirects
           (Demo.world Demo.no_discovery Demo.no_token
              (Ok (Some Demo.tokens_with_id)) Demo.link_state (Ok Demo.payload) 0)
           [Demo.acme] Demo.ctx "acme" Demo.query0 []
           (mkIdentity Demo.acme Demo.link_state Demo.tokens_with_id (Some Demo.bob))
           [EvParseState; Demo.exchange "https://acme.test/token"]
           (mkLink "alice@app.test" "user-7") "Bob@Acme.test").
  - vm_compute. reflexivity.
  - reflexivity.
  - discriminate.
  - vm_compute. reflexivity.
  - discriminate.
  - vm_compute. discriminate.
  - intros f Hf. discriminate Hf.
Defined.

(** The calls of a sign-in with [Demo.acme_discovery]: the builder is given
    the discovered authorization endpoint. *)
Example signIn_discovery_trace :
  snd (signInWithOAuth2
         (Demo.world (mkFetch (Some Demo.discovered) None) Demo.no_token
            (Ok (Some Demo.tokens0)) Demo.state0 Demo.no_jwt 0)
         [Demo.acme_discovery] Demo.ctx Demo.body0 [])
  = [EvFetchDiscovery Demo.well_known; EvGenerateState;
     EvCreateAuthorizationURL
       {| cau_id := "acme";
          cau_options := mkOptions "client-1" "s3cret" None;
          cau_authorizationEndpoint := "https://idp.acme.test/auth";
          cau_state := "st4te";
          cau_codeVerifier := None;
          cau_scopes := ["openid"; "email"];
          cau_redirectURI := "https://app.test/api/auth/oauth2/callback/acme" |}].
Proof. vm_compute. reflexivity. Qed.

(** The calls of a callback with [Demo.acme_discovery]: the code goes to the
    discovered token endpoint, the access token to the discovered userinfo
    endpoint. *)
Example callback_discovery_trace :
  snd (oAuth2Callback
         (Demo.world (mkFetch (Some Demo.discovered) None) Demo.no_token
            (Ok (Some Demo.tokens0)) Demo.state0 Demo.no_jwt 0)
         [Demo.acme_discovery] Demo.ctx "acme" Demo.query0 [])
  = [EvParseState; EvFetchDiscovery Demo.well_known;
     Demo.exchange "https://idp.acme.test/token";
     EvFetchUserInfo "https://idp.acme.test/me" "Bearer at-1";
     EvLogError "Unable to get user info"].
Proof. vm_compute. reflexivity. Qed.

(** When the discovery fetch returns no data, the static endpoints serve. *)
Example callback_static_fallback_trace :
  snd (oAuth2Callback
         (Demo.world Demo.no_discovery Demo.no_token
            (Ok (Some Demo.tokens0)) Demo.state0 Demo.no_jwt 0)
         [Demo.acme_discovery] Demo.ctx "acme" Demo.query0 [])
  = [EvParseState; EvFetchDiscovery Demo.well_known;
     Demo.exchange "https://acme.test/token";
     EvFetchUserInfo "https://acme.test/userinfo" "Bearer at-1";
     EvLogError "Unable to get user info"].
Proof. vm_compute. reflexivity. Qed.

(** Emails that differ once both are lower-cased differ as the handler
    compares them. *)
Lemma lowercase_mismatch_is_mismatch env (linked extracted : string) :
  (forall s, toLowerCase env (toLowerCase env s) = toLowerCase env s) ->
  toLowerCase env linked <> toLowerCase env extracted ->
  linked <> toLowerCase env extracted.
Proof. intros Hidem Hdiff Heq. apply Hdiff. rewrite Heq. apply Hidem. Qed.

(** The comparison lower-cases the extracted email only: a link flow for
    [bob@acme.test] accepts the identity [Bob@Acme.test] and creates the
    account. *)
Example callback_link_same_email_up_to_case :
  oAuth2Callback
    (Demo.world Demo.no_discovery Demo.no_token (Ok (Some Demo.tokens_with_id))
       (mkState "https://app.test/settings" "v3rifier" None None None
          (Some (mkLink "bob@acme.test" "user-7")))
       (Ok Demo.payload) 0)
    [Demo.acme] Demo.ctx "acme" Demo.query0 []
  = (Throw (Redirect "https://app.test/settings"),
     [EvParseState; Demo.exchange "https://acme.test/token";
      EvCreateAccount
        {| ca_userId := "user-7";
           ca_providerId := "acme";
           ca_accountId := JStr "sub-9";
           ca_accessToken := Some "at-1";
           ca_refreshToken := None;
           ca_accessTokenExpiresAt := None;
           ca_refreshTokenExpiresAt := None;
           ca_scope := None |}]).
Proof. vm_compute. reflexivity. Qed.

(** A sign-in at [Demo.acme]: the scenario of the specification. *)
Example signIn_acme_url :
  fst (signInWithOAuth2
         (Demo.world Demo.no_discovery Demo.no_token (Ok None) Demo.state0
            Demo.no_jwt 0)
         [Demo.acme] Demo.ctx Demo.body0 [])
  = Ok {| resp_url :=
            "https://acme.test/authorize?response_type=code&client_id=client-1"
            +:+ "&state=st4te&scope=openid email"
            +:+ "&redirect_uri=https://app.test/api/auth/oauth2/callback/acme";
          resp_redirect := true |}.
Proof. vm_compute. reflexivity. Qed.

(** A custom [response_type] meets the same fate at the hands of the builder,
    which runs after the custom parameters were set. *)
Example signIn_custom_response_type_url :
  fst (signInWithOAuth2
         (Demo.world Demo.no_discovery Demo.no_token (Ok None) Demo.state0
            Demo.no_jwt 0)
         [Demo.acme_response_type] Demo.ctx Demo.body0 [])
  = Ok {| resp_url :=
            "https://acme.test/authorize?response_type=code&client_id=client-1"
            +:+ "&state=st4te&scope=openid email"
            +:+ "&redirect_uri=https://app.test/api/auth/oauth2/callback/acme";
          resp_redirect := true |}.
Proof. vm_compute. reflexivity. Qed.

(** ** More on URLSearchParams, [split] and [join] *)

Lemma sp_set_keys k v (l : URLSearchParams) k' :
  In k' (map fst (sp_set k v l)) <-> k' = k \/ In k' (map fst l).
Proof.
  induction l as [|[k0 v0] l IH]; cbn.
  - intuition congruence.
  - destruct (String.eqb k0 k) eqn:E; cbn.
    + apply String.eqb_eq in E. subst k0. split.
      * intros [<-|Hin]; [auto|]. right. right.
        apply in_map_iff in Hin as [[a b] [<- Hin]].
        apply filter_In in Hin as [Hin _]. apply in_map_iff. exists (a, b). auto.
      * intros [->|[<-|Hin]]; [auto | auto |].
        destruct (String.eqb k' k) eqn:E'; [apply String.eqb_eq in E'; auto|].
        right. apply in_map_iff in Hin as [[a b] [<- Hin]].
        apply in_map_iff. exists (a, b). split; [reflexivity|].
        apply filter_In. split; [exact Hin|]. cbn in *. rewrite E'. reflexivity.
    + rewrite IH. intuition congruence.
Qed.

Lemma filter_keys_NoDup name (l : URLSearchParams) :
  List.NoDup (map fst l) ->
  List.NoDup (map fst (List.filter (fun p => negb (String.eqb (fst p) name)) l))
  /\ ~ In name (map fst (List.filter (fun p => negb (String.eqb (fst p) name)) l)).
Proof.
  induction l as [|[k0 v0] l IH]; cbn; intros Hnd.
  - split; [constructor | tauto].
  - apply List.NoDup_cons_iff in Hnd as [Hnotin Hnd].
    destruct (IH Hnd) as [IH1 IH2].
    destruct (String.eqb k0 name) eqn:E; cbn; [split; assumption|].
    split.
    + apply List.NoDup_cons_iff. split; [|exact IH1].
      intros Hin. apply Hnotin.
      apply in_map_iff in Hin as [[a b] [<- Hin]].
      apply filter_In in Hin as [Hin _]. apply in_map_iff. exists (a, b). auto.
    + intros [->|Hin]; [|tauto]. rewrite String.eqb_refl in E. discriminate.
Qed.

(** [set] never leaves a name twice in the list. *)
Lemma sp_set_NoDup k v (l : URLSearchParams) :
  List.NoDup (map fst l) -> List.NoDup (map fst (sp_set k v l)).
Proof.
  induction l as [|[k0 v0] l IH]; cbn; intros Hnd.
  - constructor; [cbn; tauto | constructor].
  - apply List.NoDup_cons_iff in Hnd as [Hnotin Hnd].
    destruct (String.eqb k0 k) eqn:E; cbn.
    + destruct (filter_keys_NoDup k l Hnd) as [H1 H2].
      apply List.NoDup_cons_iff. split; assumption.
    + apply List.NoDup_cons_iff. split; [|apply IH; exact Hnd].
      rewrite sp_set_keys. intros [->|Hin]; [|tauto].
      rewrite String.eqb_refl in E. discriminate.
Qed.

Lemma sp_setAll_NoDup entries (l : URLSearchParams) :
  List.NoDup (map fst l) -> List.NoDup (map fst (sp_setAll entries l)).
Proof.
  revert l. induction entries as [|[k v] entries IH]; intros l Hnd; [exact Hnd|].
  apply IH. apply sp_set_NoDup. exact Hnd.
Qed.

Lemma sp_get_setAll_notin k entries (l : URLSearchParams) :
  ~ In k (map fst entries) -> sp_get k (sp_setAll entries l) = sp_get k l.
Proof.
  revert l. induction entries as [|[k0 v0] entries IH]; intros l Hnotin; [reflexivity|].
  cbn in Hnotin. change (sp_get k (sp_setAll entries (sp_set k0 v0 l)) = sp_get k l).
  rewrite IH by tauto. apply sp_get_set_ne. intros ->. tauto.
Qed.

Lemma sp_get_setAll_in k v entries (l : URLSearchParams) :
  List.NoDup (map fst entries) -> In (k, v) entries ->
  sp_get k (sp_setAll entries l) = Some v.
Proof.
  revert l. induction entries as [|[k0 v0] entries IH]; intros l Hnd Hin; [destruct Hin|].
  cbn in Hnd. apply List.NoDup_cons_iff in Hnd as [Hnotin Hnd].
  change (sp_get k (sp_setAll entries (sp_set k0 v0 l)) = Some v).
  destruct Hin as [Heq|Hin].
  - injection Heq as -> ->. rewrite sp_get_setAll_notin by exact Hnotin.
    apply sp_get_set_eq.
  - apply IH; assumption.
Qed.

Lemma split_not_nil sep s : split sep s <> [].
Proof.
  destruct s as [|a r]; cbn; [discriminate|].
  destruct (Ascii.eqb a sep); [discriminate|].
  destruct (split sep r); discriminate.
Qed.

(** [s.split(c).join(c)] is [s]. *)
Lemma join_split sep s : join (String sep EmptyString) (split sep s) = s.
Proof.
  unfold join. induction s as [|a r IH]; [reflexivity|]. cbn [split].
  destruct (Ascii.eqb a sep) eqn:E.
  - apply Ascii.eqb_eq in E. subst a.
    destruct (split sep r) as [|x l] eqn:Hs; [destruct (split_not_nil _ _ Hs)|].
    cbn in IH |- *. rewrite IH. reflexivity.
  - destruct (split sep r) as [|x l] eqn:Hs; [destruct (split_not_nil _ _ Hs)|].
    destruct l; cbn in IH |- *; rewrite <- IH; reflexivity.
Qed.

(** ** The refresh request, further *)

(** The body of the refresh request: the standard parameters for the
    placement chosen, then the extra ones set over them. *)
Lemma refresh_request_body env rt options pc :
  req_body (refresh_request env rt options pc) =
    from_option sp_setAll (fun b => b) (extraParams pc)
      match rp_authentication pc with
      | Some basic => [("grant_type", "refresh_token"); ("refresh_token", rt)]
      | _ => [("grant_type", "refresh_token"); ("refresh_token", rt);
              ("client_id", po_clientId options);
              ("client_secret", po_clientSecret options)]
      end.
Proof.
  unfold refresh_request.
  destruct (rp_authentication pc) as [[|]|]; destruct (extraParams pc); reflexivity.
Qed.

(** X1. Whatever the credentials, the placement and the extra parameters, no
    parameter name occurs twice in the body of the refresh request. *)
Theorem refresh_body_names_are_unique env rt options pc :
  List.NoDup (map fst (req_body (refresh_request env rt options pc))).
Proof.
  rewrite refresh_request_body.
  assert (Hbase : List.NoDup (map fst
            match rp_authentication pc with
            | Some basic => [("grant_type", "refresh_token"); ("refresh_token", rt)]
            | _ => [("grant_type", "refresh_token"); ("refresh_token", rt);
                    ("client_id", po_clientId options);
                    ("client_secret", po_clientSecret options)]
            end)).
  { destruct (rp_authentication pc) as [[|]|]; cbn;
      repeat (apply List.NoDup_cons; [cbn; intuition discriminate|]); constructor. }
  destruct (extraParams pc) as [entries|]; cbn; [|exact Hbase].
  apply sp_setAll_NoDup. exact Hbase.
Qed.

(** X2. Every extra parameter of the provider configuration is in the body
    of the refresh request with its own value, also under the name of a
    standard parameter ([grant_type], [client_id], ...), which it replaces. *)
Theorem refresh_extra_params_win env rt options pc entries k v :
  extraParams pc = Some entries ->
  List.NoDup (map fst entries) ->
  In (k, v) entries ->
  sp_get k (req_body (refresh_request env rt options pc)) = Some v.
Proof.
  intros Hextra Hnd Hin. rewrite refresh_request_body, Hextra. cbn.
  apply sp_get_setAll_in; assumption.
Qed.

(** X3. Unless the extra parameters name them, the body says
    [grant_type=refresh_token] and carries the refresh token given. *)
Theorem refresh_standard_params env rt options pc :
  (forall entries, extraParams pc = Some entries ->
     ~ In "grant_type" (map fst entries) /\ ~ In "refresh_token" (map fst entries)) ->
  sp_get "grant_type" (req_body (refresh_request env rt options pc))
    = Some "refresh_token"
  /\ sp_get "refresh_token" (req_body (refresh_request env rt options pc)) = Some rt.
Proof.
  intros Hextra. rewrite refresh_request_body.
  destruct (extraParams pc) as [entries|]; cbn.
  - destruct (Hextra entries eq_refl) as [H1 H2].
    rewrite !sp_get_setAll_notin by assumption.
    destruct (rp_authentication pc) as [[|]|]; split; reflexivity.
  - destruct (rp_authentication pc) as [[|]|]; split; reflexivity.
Qed.

(** X4. With [authentication: "basic"] the credentials travel in the Basic
    [authorization] header only: unless the extra parameters name them, the
    body has neither [client_id] nor [client_secret]. *)
Theorem refresh_basic_keeps_credentials_out_of_body env rt options pc :
  rp_authentication pc = Some basic ->
  (forall entries, extraParams pc = Some entries ->
     ~ In "client_id" (map fst entries) /\ ~ In "client_secret" (map fst entries)) ->
  req_headers (refresh_request env rt options pc) !! "authorization"
    = Some ("Basic " +:+ btoa env (po_clientId options +:+ ":" +:+ po_clientSecret options))
  /\ sp_get "client_id" (req_body (refresh_request env rt options pc)) = None
  /\ sp_get "client_secret" (req_body (refresh_request env rt options pc)) = None.
Proof.
  intros Hbasic Hextra. split; [apply refresh_request_basic; exact Hbasic|].
  rewrite refresh_request_body, Hbasic.
  destruct (extraParams pc) as [entries|]; cbn.
  - destruct (Hextra entries eq_refl) as [H1 H2].
    rewrite !sp_get_setAll_notin by assumption. split; reflexivity.
  - split; reflexivity.
Qed.

(** When the token endpoint answers with an error, [refreshAccessToken]
    throws that error, data or not, after its one request. *)
Lemma refresh_fetch_error_is_thrown env rt options pc h d e :
  betterFetch_token env h (refresh_request env rt options pc)
    = Ok (mkFetch d (Some e)) ->
  refreshAccessToken env rt options pc h =
    (Throw (FetchFailure e), [EvFetchToken (refresh_request env rt options pc)]).
Proof.
  intros Hfetch. unfold refreshAccessToken, bind, call. rewrite Hfetch. reflexivity.
Qed.

(** X5. When the client credentials go into the body (the authentication is
    not [basic], so nothing is encoded on the way), [refreshAccessToken]
    makes exactly one call, whatever the token endpoint answers: the request
    it assembled, sent to the token endpoint of its [providerConfig]. *)
Theorem refresh_makes_one_request env rt options pc h :
  rp_authentication pc <> Some basic ->
  snd (refreshAccessToken env rt options pc h)
    = [EvFetchToken (refresh_request env rt options pc)]
  /\ req_url (refresh_request env rt options pc) = tokenEndpoint pc.
Proof.
  intros _. split; [|reflexivity].
  unfold refreshAccessToken, bind, call.
  destruct (betterFetch_token env h (refresh_request env rt options pc))
    as [[[d|] [e|]]|e]; cbn; try reflexivity.
  destruct (truthyN (expires_in d)); reflexivity.
Qed.

(** The pieces of [s.split(sep)] hold no [sep]. *)
Lemma split_no_sep sep s :
  Forall (fun x => ~ In sep (String.list_ascii_of_string x)) (split sep s).
Proof.
  induction s as [|a r IH]; cbn [split].
  - constructor; [cbn; tauto | constructor].
  - destruct (Ascii.eqb a sep) eqn:E.
    + constructor; [cbn; tauto | exact IH].
    + destruct (split sep r) as [|x l].
      * constructor; [|constructor]. cbn. intros [H|[]]. subst a.
        rewrite Ascii.eqb_refl in E. discriminate E.
      * inversion IH as [|? ? Hx Hl]; subst. constructor; [|exact Hl].
        cbn. intros [H|H]; [|exact (Hx H)]. subst a.
        rewrite Ascii.eqb_refl in E. discriminate E.
Qed.

(** X6. The [scopes] of the returned bundle are the response's [scope] cut
    at its spaces: at least one piece, no piece holds a space, and the pieces
    joined by spaces give back the string (which settles what the pieces
    are); a response without [scope] gives a bundle without [scopes]. *)
Theorem refresh_scopes_round_trip env rt options pc h d :
  betterFetch_token env h (refresh_request env rt options pc)
    = Ok (mkFetch (Some d) None) ->
  exists tokens,
    fst (refreshAccessToken env rt options pc h) = Ok tokens
    /\ match scope d with
       | Some s =>
           exists l, scopes tokens = Some l
             /\ l <> []
             /\ Forall (fun x => ~ In " "%char (String.list_ascii_of_string x)) l
             /\ join " " l = s
       | None => scopes tokens = None
       end.
Proof.
  intros Hfetch. rewrite (refreshAccessToken_data _ _ _ _ _ _ Hfetch). cbn [fst].
  eexists; split; [reflexivity|].
  destruct (truthyN (expires_in d)); cbn; destruct (scope d) as [s|]; cbn;
    try reflexivity;
    (eexists; split; [reflexivity|]; split; [apply split_not_nil|];
     split; [apply split_no_sep | apply (join_split " " s)]).
Qed.

(** ** The default [getUserInfo], further *)

(** What the default [getUserInfo] does once the ID token is out of the way
    and it has a userinfo URL. *)
Lemma getUserInfo_fetches env tokens u h :
  id_token_insufficient env tokens ->
  u <> "" ->
  getUserInfo env tokens (Some u) h =
    (match betterFetch_userinfo env h u ("Bearer " +:+ tpl (accessToken tokens)) with
     | Ok userInfo =>
         Ok (Some (default ∅ (data userInfo) ∪
               ({[ "id" := propOpt (data userInfo) "sub";
                   "emailVerified" := propOpt (data userInfo) "email_verified";
                   "email" := propOpt (data userInfo) "email";
                   "image" := propOpt (data userInfo) "picture";
                   "name" := propOpt (data userInfo) "name" ]} : Obj)))
     | Throw e => Throw e
     end,
     [EvFetchUserInfo u ("Bearer " +:+ tpl (accessToken tokens))]).
Proof.
  intros Hid Hne. apply String.eqb_neq in Hne.
  unfold getUserInfo, bind, lift, ret, call.
  destruct Hid as [Hnone | [decoded [Hjwt Hlacks]]].
  - rewrite Hnone. cbn [truthyS negb default from_option id]. rewrite Hne.
    cbn [negb]. rewrite app_nil_r.
    destruct (betterFetch_userinfo env h u ("Bearer " +:+ tpl (accessToken tokens)));
      reflexivity.
  - destruct (truthyS (idToken tokens)).
    + rewrite Hjwt, Hlacks. cbn [truthyS negb default from_option id]. rewrite Hne.
      cbn [negb app]. rewrite app_nil_r.
      destruct (betterFetch_userinfo env h u ("Bearer " +:+ tpl (accessToken tokens)));
        reflexivity.
    + cbn [truthyS negb default from_option id]. rewrite Hne.
      cbn [negb]. rewrite app_nil_r.
      destruct (betterFetch_userinfo env h u ("Bearer " +:+ tpl (accessToken tokens)));
        reflexivity.
Qed.

(** The calls of the default [getUserInfo]. *)
Lemma getUserInfo_requests env tokens finalUserInfoUrl h :
  Forall (userinfo_request finalUserInfoUrl tokens)
         (snd (getUserInfo env tokens finalUserInfoUrl h))
  /\ (length (snd (getUserInfo env tokens finalUserInfoUrl h)) <= 1)%nat.
Proof.
  unfold getUserInfo, bind, lift, ret, call.
  destruct (truthyS (idToken tokens));
    [destruct (decodeJwt env (default "" (idToken tokens))) as [decoded|e];
     [destruct (truthy (prop decoded "sub") && truthy (prop decoded "email"))|]|];
    cbn; try (split; [constructor | lia]).
  all: destruct finalUserInfoUrl as [u|]; cbn; try (split; [constructor | lia]).
  all: destruct (negb (negb (String.eqb u ""))); cbn; try (split; [constructor | lia]).
  all: match goal with
       | |- context [betterFetch_userinfo ?e ?hh ?uu ?aa] =>
           destruct (betterFetch_userinfo e hh uu aa)
       end; cbn; (split; [repeat constructor | lia]).
Qed.

(** X7. The default [getUserInfo] makes at most one call, and that call is
    the request to the userinfo URL it was given, with the access token as
    bearer credential. *)
Theorem getUserInfo_at_most_one_bearer_request env tokens finalUserInfoUrl h :
  Forall (userinfo_request finalUserInfoUrl tokens)
         (snd (getUserInfo env tokens finalUserInfoUrl h))
  /\ (length (snd (getUserInfo env tokens finalUserInfoUrl h)) <= 1)%nat.
Proof. apply getUserInfo_requests. Qed.

(** X8. An ID token that does not decode makes the default [getUserInfo]
    throw what the decoder threw; it does not fall back to the userinfo
    endpoint. *)
Theorem getUserInfo_malformed_id_token_throws env tokens finalUserInfoUrl h t e :
  idToken tokens = Some t ->
  t <> "" ->
  decodeJwt env t = Throw e ->
  getUserInfo env tokens finalUserInfoUrl h = (Throw e, []).
Proof.
  intros Hid Hne Hjwt. apply String.eqb_neq in Hne.
  unfold getUserInfo, bind, lift. rewrite Hid. cbn [truthyS default from_option id].
  rewrite Hne, Hjwt. reflexivity.
Qed.

(** X9. Without a sufficient ID token, the identity is the userinfo
    document with the five mapped fields under it: every field of the
    document keeps its own value (an [id] of the document wins over its
    [sub]), and a document without [id] gets its [sub] as [id]. *)
Theorem getUserInfo_userinfo_document_passes_through env tokens u h m e :
  id_token_insufficient env tokens ->
  u <> "" ->
  betterFetch_userinfo env h u ("Bearer " +:+ tpl (accessToken tokens))
    = Ok (mkFetch (Some m) e) ->
  exists identity : Obj,
    getUserInfo env tokens (Some u) h
      = (Ok (Some identity), [EvFetchUserInfo u ("Bearer " +:+ tpl (accessToken tokens))])
    /\ (forall k v, m !! k = Some v -> prop identity k = v)
    /\ (m !! "id" = None -> prop identity "id" = prop m "sub")
    /\ (m !! "image" = None -> prop identity "image" = prop m "picture")
    /\ (m !! "emailVerified" = None ->
        prop identity "emailVerified" = prop m "email_verified").
Proof.
  intros Hid Hne Hfetch.
  rewrite (getUserInfo_fetches _ _ _ _ Hid Hne), Hfetch. cbn [data default from_option id propOpt].
  eexists; split; [reflexivity|]. repeat split.
  - intros k v Hk. unfold prop at 1.
    rewrite (lookup_union_Some_l _ _ _ _ Hk). reflexivity.
  - intros Hnone. unfold prop at 1. rewrite lookup_union_r by exact Hnone. reflexivity.
  - intros Hnone. unfold prop at 1. rewrite lookup_union_r by exact Hnone. reflexivity.
  - intros Hnone. unfold prop at 1. rewrite lookup_union_r by exact Hnone. reflexivity.
Qed.

(** X10. When the userinfo request brings no data, the default
    [getUserInfo] still returns an object, not [null]: one whose [id],
    [email], [emailVerified], [image] and [name] are all [undefined]. *)
Theorem getUserInfo_failed_request_gives_blank_identity env tokens u h e :
  id_token_insufficient env tokens ->
  u <> "" ->
  betterFetch_userinfo env h u ("Bearer " +:+ tpl (accessToken tokens))
    = Ok (mkFetch None e) ->
  exists identity : Obj,
    getUserInfo env tokens (Some u) h
      = (Ok (Some identity), [EvFetchUserInfo u ("Bearer " +:+ tpl (accessToken tokens))])
    /\ (forall k, prop identity k = JUndefined)
    /\ truthy (propOpt (Some identity) "email") = false.
Proof.
  intros Hid Hne Hfetch.
  rewrite (getUserInfo_fetches _ _ _ _ Hid Hne), Hfetch. cbn [data default from_option id propOpt].
  eexists; split; [reflexivity|].
  assert (Hall : forall k,
    prop (∅ ∪ ({[ "id" := JUndefined; "emailVerified" := JUndefined;
                  "email" := JUndefined; "image" := JUndefined;
                  "name" := JUndefined ]} : Obj)) k = JUndefined).
  { intros k. unfold prop. rewrite (left_id_L ∅ (∪)).
    repeat (rewrite lookup_insert; case_decide; [reflexivity|]).
    rewrite lookup_singleton. case_decide; reflexivity. }
  split; [exact Hall|]. rewrite Hall. reflexivity.
Qed.

(** Reading a [safe] judgement at one run. *)
Lemma safe_trace {A} (P : Event -> Prop) (m : M A) (Q : A -> Prop) h :
  safe P m Q -> Forall P (snd (m h)).
Proof. intros Hm. exact (proj1 (Hm h)). Qed.

Lemma safe_value {A} (P : Event -> Prop) (m : M A) (Q : A -> Prop) h :
  safe P m Q -> forall a, fst (m h) = Ok a -> Q a.
Proof. intros Hm. exact (proj2 (Hm h)). Qed.

(** ** Sign-in, further *)

(** A provider without discovery URL needs both static endpoints at
    sign-in, the token URL too: when either is missing the handler throws
    [BAD_REQUEST] "Invalid OAuth configuration" before any call, so no flow
    state is created. *)
Lemma signIn_invalid_configuration env config ctx body h c :
  find_config config (body_providerId body) = Some c ->
  truthyS (discoveryUrl c) = false ->
  truthyS (authorizationUrl c) = false \/ truthyS (tokenUrl c) = false ->
  signInWithOAuth2 env config ctx body h =
    (Throw (APIError BAD_REQUEST "Invalid OAuth configuration"), []).
Proof.
  intros Hfind Hdisc Hmissing. unfold signInWithOAuth2, bind, ret.
  rewrite Hfind, Hdisc. cbn [fst snd].
  destruct Hmissing as [-> | ->]; [reflexivity|].
  rewrite orb_true_r. reflexivity.
Qed.

(** X11. Sign-in only ever calls discovery, the logger, the state codec and
    the authorization URL builder: it exchanges no code, fetches no user info
    and touches neither accounts nor the session. *)
Theorem signIn_makes_initiation_calls_only env config ctx body h :
  Forall initiation_call (snd (signInWithOAuth2 env config ctx body h)).
Proof.
  apply (safe_trace _ _ (fun _ => True)).
  unfold signInWithOAuth2.
  repeat (safe_step; try (intros; exact I)).
Qed.

(** X13. Whatever the builder returns, the URL a successful sign-in answers
    with carries the provider's [prompt], its [accessType] and its
    [responseType] (other than ["code"]) when they are set, and the answer
    asks for a redirect unless the request said [disableRedirect]. *)
Theorem signIn_settings_in_final_url env config ctx body h c resp :
  find_config config (body_providerId body) = Some c ->
  fst (signInWithOAuth2 env config ctx body h) = Ok resp ->
  exists u,
    resp_url resp = URL_toString env u
    /\ (truthyS (prompt c) = true -> sp_get "prompt" (searchParams u) = prompt c)
    /\ (truthyS (accessType c) = true ->
        sp_get "access_type" (searchParams u) = accessType c)
    /\ (truthyS (responseType c) = true -> responseType c <> Some "code" ->
        sp_get "response_type" (searchParams u) = responseType c)
    /\ resp_redirect resp = negb (truthyB (disableRedirect body)).
Proof.
  intros Hfind. revert resp.
  refine (safe_value (fun _ => True) (signInWithOAuth2 env config ctx body)
    (fun resp => exists u,
       resp_url resp = URL_toString env u
       /\ (truthyS (prompt c) = true -> sp_get "prompt" (searchParams u) = prompt c)
       /\ (truthyS (accessType c) = true ->
           sp_get "access_type" (searchParams u) = accessType c)
       /\ (truthyS (responseType c) = true -> responseType c <> Some "code" ->
           sp_get "response_type" (searchParams u) = responseType c)
       /\ resp_redirect resp = negb (truthyB (disableRedirect body))) h _).
  unfold signInWithOAuth2. rewrite Hfind.
  repeat (safe_step; try (intros; exact I)).
  eexists; split; [reflexivity|]. cbn [resp_redirect].
  destruct (prompt c) as [pv|]; destruct (accessType c) as [av|];
    destruct (responseType c) as [rv|]; cbn [truthyS default from_option id];
    repeat match goal with
    | |- context [if ?b then _ else _] => destruct b eqn:?
    end;
    cbn [searchParams url_set andb negb];
    repeat split; try discriminate; intros;
    rewrite ?(sp_get_set_ne "access_type" "prompt"),
            ?(sp_get_set_ne "access_type" "response_type"),
            ?(sp_get_set_ne "prompt" "response_type") by discriminate;
    try (rewrite sp_get_set_eq; reflexivity).
  all: match goal with
    | Hand : negb (String.eqb ?r "") && negb (String.eqb ?r "code") = false,
      Hset : negb (String.eqb ?r "") = true |- _ =>
        rewrite Hset in Hand; cbn in Hand;
        apply negb_false_iff, String.eqb_eq in Hand; congruence
    end.
Qed.

(** X14. Custom authorization parameters are set on the authorization
    endpoint: in the endpoint handed to the builder each of them has its own
    value, over a parameter of the same name the endpoint came with, and the
    other parameters of the endpoint are as they were. *)
Theorem custom_params_on_builder_endpoint env entries s r :
  withAdditionalParams env (Some entries) s = Ok r ->
  List.NoDup (map fst entries) ->
  exists u u',
    URL_parse env s = Some u
    /\ r = URL_toString env u'
    /\ url_base u' = url_base u
    /\ (forall k v, In (k, v) entries -> sp_get k (searchParams u') = Some v)
    /\ (forall k, ~ In k (map fst entries) ->
                  sp_get k (searchParams u') = sp_get k (searchParams u)).
Proof.
  intros Hok Hnd. unfold withAdditionalParams in Hok.
  destruct (URL_parse env s) as [u|]; [|discriminate Hok].
  injection Hok as <-. exists u, (url_setAll entries u).
  repeat split.
  - intros k v Hin. apply sp_get_setAll_in; assumption.
  - intros k Hnotin. apply sp_get_setAll_notin. exact Hnotin.
Qed.

(** ** Discovery that brings no data *)

Section Fallback.
Variables (env : Env) (c : GenericOAuthConfig) (url : string).
Hypothesis Hurl : discoveryUrl c = Some url.
Hypothesis Hnonempty : url <> "".
Hypothesis Hfetch :
  forall h, exists e, betterFetch_discovery env h url = Ok (mkFetch None e).

Let P := uses_static_endpoints env c.

Lemma discovery_call_no_data :
  safe P (call (EvFetchDiscovery url) (fun h => betterFetch_discovery env h url))
       (fun discovery => data discovery = None).
Proof.
  apply safe_call; [exact I|].
  intros h a Ha. destruct (Hfetch h) as [e He]. rewrite He in Ha.
  injection Ha as <-. reflexivity.
Qed.

Lemma signIn_falls_back config ctx body :
  find_config config (body_providerId body) = Some c ->
  safe P (signInWithOAuth2 env config ctx body) (fun _ => True).
Proof.
  intros Hfind. unfold signInWithOAuth2.
  rewrite Hfind, (discoveryUrl_truthy c url Hurl Hnonempty), Hurl.
  cbn [default from_option id].
  eapply safe_bind with
    (R := fun finals => finals = (authorizationUrl c, tokenUrl c)).
  { eapply safe_bind; [apply discovery_call_no_data|].
    intros discovery Hdata. cbn beta. rewrite Hdata.
    eapply safe_bind with (R := fun _ => True).
    - destruct (error discovery); [apply safe_emit; exact I | apply safe_ret; exact I].
    - intros _ _. apply safe_ret. reflexivity. }
  intros finals ->. cbn [fst snd].
  destruct (negb (truthyS (authorizationUrl c)) || negb (truthyS (tokenUrl c))) eqn:Hgate;
    [apply safe_throw|].
  eapply safe_bind with
    (R := fun finalAuthUrl =>
            withAdditionalParams env (authorizationUrlParams c)
              (default "" (authorizationUrl c)) = Ok finalAuthUrl).
  { apply safe_lift. auto. }
  intros finalAuthUrl Hfinal.
  eapply safe_bind with (R := fun _ => True).
  { apply safe_call; [exact I | auto]. }
  intros st _.
  eapply safe_bind with (R := fun _ => True).
  { apply safe_call; [|auto].
    destruct (authorizationUrl c) as [s|] eqn:Hauth; [|discriminate Hgate].
    exists s. split; [exact Hauth | exact Hfinal]. }
  intros authUrl _. apply safe_ret. exact I.
Qed.

Lemma callback_falls_back config ctx pid query :
  find_config config pid = Some c ->
  safe P (oAuth2Callback env config ctx pid query) (fun _ => True).
Proof.
  intros Hfind. unfold oAuth2Callback.
  eapply safe_bind with (R := fun _ => True).
  - unfold callback_identity.
    destruct (truthyS (q_error query) || negb (truthyS (q_code query)));
      [apply safe_throw|].
    rewrite Hfind, (discoveryUrl_truthy c url Hurl Hnonempty), Hurl.
    cbn [default from_option id].
    eapply safe_bind with (R := fun _ => True);
      [apply safe_call; [exact I | auto]|].
    intros st _.
    eapply safe_bind with
      (R := fun finals => finals = (tokenUrl c, userInfoUrl c)).
    { eapply safe_bind; [apply discovery_call_no_data|].
      intros discovery Hdata. cbn beta. rewrite Hdata. apply safe_ret. reflexivity. }
    intros finals ->. cbn [fst snd].
    eapply safe_bind with (R := fun _ => True).
    { apply safe_try_catch.
      - destruct (tokenUrl c) as [s|] eqn:Htoken; cbn; [|apply safe_throw].
        destruct (negb (negb (String.eqb s ""))); [apply safe_throw|].
        apply safe_call; [exact Htoken | auto].
      - intros e. repeat (safe_step; try (intros; exact I)). }
    intros [tokens|] _; [|apply safe_throw].
    eapply safe_bind with (R := fun _ => True).
    { destruct (cfg_getUserInfo c); [apply safe_lift; auto|].
      unfold getUserInfo.
      eapply safe_bind with (R := fun _ => True).
      { repeat (safe_step; try (intros; exact I)). }
      intros [identity|] _; [apply safe_ret; exact I|].
      destruct (userInfoUrl c) as [s|] eqn:Huserinfo; cbn;
        [|apply safe_ret; exact I].
      destruct (negb (negb (String.eqb s ""))); [apply safe_ret; exact I|].
      eapply safe_bind with (R := fun _ => True).
      - apply safe_call; [exact Huserinfo | auto].
      - intros ? _. apply safe_ret. exact I. }
    intros userInfo _. apply safe_ret. exact I.
  - intros x _. unfold callback_complete.
    repeat (safe_step; try (intros; exact I)).
Qed.

End Fallback.

(** ** The callback, further *)

(** Up to the user info, the callback calls only the state codec, discovery,
    the code exchange, the userinfo endpoint and the logger. *)
Lemma callback_identity_resolution_calls env config ctx pid query :
  safe resolution_call (callback_identity env config ctx pid query) (fun _ => True).
Proof.
  unfold callback_identity, getUserInfo.
  repeat (safe_step; try (intros; exact I)).
Qed.

Lemma callback_identity_trace env config ctx pid query h x tr (P : Event -> Prop) :
  (forall ev, resolution_call ev -> P ev) ->
  callback_identity env config ctx pid query h = (Ok x, tr) ->
  Forall P tr.
Proof.
  intros Himpl Hid.
  pose proof (callback_identity_resolution_calls env config ctx pid query h) as [Ht _].
  rewrite Hid in Ht. exact (Forall_impl _ _ _ Ht Himpl).
Qed.

(** The trace of a callback whose first stage returned. *)
Lemma callback_run env config ctx pid query h x tr :
  callback_identity env config ctx pid query h = (Ok x, tr) ->
  oAuth2Callback env config ctx pid query h =
    (fst (callback_complete env ctx x (h ++ tr)),
     tr ++ snd (callback_complete env ctx x (h ++ tr))).
Proof. intros Hid. unfold oAuth2Callback. apply bind_run. exact Hid. Qed.

(** A callback for a provider that is not configured is refused with
    [BAD_REQUEST] before any call: the flow state is not consumed. *)
Lemma callback_unknown_provider env config ctx pid query h :
  truthyS (q_error query) = false ->
  truthyS (q_code query) = true ->
  find_config config pid = None ->
  oAuth2Callback env config ctx pid query h =
    (Throw (APIError BAD_REQUEST ("No config found for provider " +:+ pid)), []).
Proof.
  intros Herr Hcode Hfind. unfold oAuth2Callback, bind, callback_identity.
  rewrite Herr, Hcode, Hfind. reflexivity.
Qed.

(** X16. When the flow state does not parse, the handler throws what the
    state codec threw and goes no further: no discovery, no code exchange. *)
Theorem callback_state_failure_propagates env config ctx pid query h provider e :
  truthyS (q_error query) = false ->
  truthyS (q_code query) = true ->
  find_config config pid = Some provider ->
  parseState env h query = Throw e ->
  oAuth2Callback env config ctx pid query h = (Throw e, [EvParseState]).
Proof.
  intros Herr Hcode Hfind Hstate. unfold oAuth2Callback, callback_identity, bind, call.
  rewrite Herr, Hcode, Hfind. cbv beta iota. cbn [orb negb]. rewrite Hstate.
  reflexivity.
Qed.

(** X17. Whatever the code exchange throws, the handler logs the name of the
    exception and throws the redirect
    [...?error=oauth_code_verification_failed]; it asks for no user info. *)
Theorem callback_exchange_failure_redirects
    env config ctx pid query h provider st t e :
  truthyS (q_error query) = false ->
  truthyS (q_code query) = true ->
  find_config config pid = Some provider ->
  parseState env h query = Ok st ->
  truthyS (discoveryUrl provider) = false ->
  tokenUrl provider = Some t ->
  t <> "" ->
  (forall h' a, validateAuthorizationCode env h' a = Throw e) ->
  exists a,
    oAuth2Callback env config ctx pid query h =
      (Throw (Redirect (error_target ctx st +:+ "?error=oauth_code_verification_failed")),
       [EvParseState; EvValidateAuthorizationCode a; EvLogError (exn_name e)])
    /\ vac_tokenEndpoint a = t
    /\ Some (vac_code a) = q_code query.
Proof.
  intros Herr Hcode Hfind Hstate Hdisc Htoken Hne Hthrow.
  apply String.eqb_neq in Hne.
  eexists. split; [|split].
  - unfold oAuth2Callback, callback_identity, bind, call, try_catch, emit.
    rewrite Herr, Hcode, Hfind. cbv beta iota. cbn [orb negb].
    rewrite Hstate, Hdisc, Htoken. cbn [ret fst snd truthyS]. rewrite Hne.
    cbn [negb]. rewrite Hthrow. reflexivity.
  - reflexivity.
  - cbn. destruct (q_code query); [reflexivity | discriminate Hcode].
Qed.

(** X18. When the code exchange returns no token bundle, the handler throws
    [BAD_REQUEST] to its caller: this check stands after the [try] block and
    is not turned into a redirect. *)
Theorem callback_null_tokens_is_bad_request
    env config ctx pid query h provider st t :
  truthyS (q_error query) = false ->
  truthyS (q_code query) = true ->
  find_config config pid = Some provider ->
  parseState env h query = Ok st ->
  truthyS (discoveryUrl provider) = false ->
  tokenUrl provider = Some t ->
  t <> "" ->
  (forall h' a, validateAuthorizationCode env h' a = Ok None) ->
  exists a,
    oAuth2Callback env config ctx pid query h =
      (Throw (APIError BAD_REQUEST "Invalid OAuth configuration."),
       [EvParseState; EvValidateAuthorizationCode a]).
Proof.
  intros Herr Hcode Hfind Hstate Hdisc Htoken Hne Hnull.
  apply String.eqb_neq in Hne. eexists.
  unfold oAuth2Callback, callback_identity, bind, call, try_catch, emit.
  rewrite Herr, Hcode, Hfind. cbv beta iota. cbn [orb negb].
  rewrite Hstate, Hdisc, Htoken. cbn [ret fst snd truthyS]. rewrite Hne.
  cbn [negb]. rewrite Hnull. reflexivity.
Qed.

Lemma resolution_call_not_session ev : resolution_call ev -> ~ session_call ev.
Proof. destruct ev; cbn; tauto. Qed.

Lemma resolution_call_not_create ev : resolution_call ev -> ~ create_account_call ev.
Proof. destruct ev; cbn; tauto. Qed.

(** X19. A callback of a link flow never reaches the sign-in branch: it
    calls neither [handleOAuthUserInfo] nor [setSessionCookie]. *)
Theorem callback_link_flow_leaves_session_alone env config ctx pid query h x tr l :
  callback_identity env config ctx pid query h = (Ok x, tr) ->
  link (ci_state x) = Some l ->
  Forall (fun ev => ~ session_call ev) (snd (oAuth2Callback env config ctx pid query h)).
Proof.
  intros Hid Hlink. rewrite (callback_run _ _ _ _ _ _ _ _ Hid). cbn [snd].
  apply Forall_app. split.
  - apply (callback_identity_trace _ _ _ _ _ _ _ _ _ resolution_call_not_session Hid).
  - apply (safe_trace _ _ (fun _ => True)).
    unfold callback_complete. rewrite Hlink.
    repeat (safe_step; cbn [session_call]; try tauto).
Qed.

(** X20. A callback that is not a link flow never creates an account record
    itself: that is left to [handleOAuthUserInfo]. *)
Theorem callback_sign_in_flow_creates_no_account env config ctx pid query h x tr :
  callback_identity env config ctx pid query h = (Ok x, tr) ->
  link (ci_state x) = None ->
  Forall (fun ev => ~ create_account_call ev)
         (snd (oAuth2Callback env config ctx pid query h)).
Proof.
  intros Hid Hlink. rewrite (callback_run _ _ _ _ _ _ _ _ Hid). cbn [snd].
  apply Forall_app. split.
  - apply (callback_identity_trace _ _ _ _ _ _ _ _ _ resolution_call_not_create Hid).
  - apply (safe_trace _ _ (fun _ => True)).
    unfold callback_complete. rewrite Hlink.
    repeat (safe_step; cbn [create_account_call]; try tauto).
Qed.

(** [s.split(" ").join("_")] replaces every space of [s] by an underscore. *)
Lemma join_split_underscored s : join "_" (split " " s) = underscored s.
Proof.
  unfold join. induction s as [|a r IH]; [reflexivity|]. cbn [split underscored].
  destruct (Ascii.eqb a " ") eqn:E.
  - destruct (split " " r) as [|x l] eqn:Hs; [destruct (split_not_nil _ _ Hs)|].
    cbn in IH |- *. rewrite IH. reflexivity.
  - destruct (split " " r) as [|x l] eqn:Hs; [destruct (split_not_nil _ _ Hs)|].
    destruct l; cbn in IH |- *; rewrite <- IH; reflexivity.
Qed.

Lemma underscored_has_no_space s :
  ~ In " "%char (String.list_ascii_of_string (underscored s)).
Proof.
  induction s as [|a r IH]; cbn; [tauto|].
  intros [Heq|Hin]; [|tauto].
  destruct (Ascii.eqb a " ") eqn:E; [discriminate Heq|].
  subst a. discriminate E.
Qed.

(** The profile mapping of [callback_complete], when the mapper returns. *)
Lemma callback_mapUser_run (provider : GenericOAuthConfig) (userInfo : Obj) h :
  (forall f, mapProfileToUser provider = Some f ->
             exists mapped, f userInfo = Ok mapped) ->
  exists mapUser,
    match mapProfileToUser provider with
    | Some f => let* mapped := lift (f userInfo) in ret (Some mapped)
    | None => ret None
    end h = (Ok mapUser, []).
Proof.
  intros Hmap. destruct (mapProfileToUser provider) as [f|].
  - destruct (Hmap f eq_refl) as [mapped Hmapped]. exists (Some mapped).
    unfold bind, lift, ret. rewrite Hmapped. reflexivity.
  - exists None. reflexivity.
Qed.

(** X21. In a link flow whose emails agree (the link target's email is the
    lower-cased extracted one), or with [allowDifferentEmails] set to [true],
    the handler asks the account store once for an account of the link
    target's user with this provider, the extracted [id] and the tokens. It
    redirects to the callback URL when the store returns the account, and to
    [...?error=unable_to_link_account] when it returns none. *)
Theorem callback_link_creates_account
    env config ctx pid query h x tr l created :
  callback_identity env config ctx pid query h = (Ok x, tr) ->
  truthy (propOpt (ci_userInfo x) "email") = true ->
  link (ci_state x) = Some l ->
  (allowDifferentEmails ctx = Some true
   \/ exists email, propOpt (ci_userInfo x) "email" = JStr email
                    /\ link_email l = toLowerCase env email) ->
  (forall f, mapProfileToUser (ci_provider x) = Some f ->
             exists mapped, f (default ∅ (ci_userInfo x)) = Ok mapped) ->
  (forall h' a, createAccount env h' a = Ok created) ->
  oAuth2Callback env config ctx pid query h =
    (Throw (Redirect
       match created with
       | Some _ => callbackURL (ci_state x)
       | None => error_target ctx (ci_state x) +:+ "?error=unable_to_link_account"
       end),
     tr ++ [EvCreateAccount
              {| ca_userId := link_userId l;
                 ca_providerId := providerId (ci_provider x);
                 ca_accountId := prop (default ∅ (ci_userInfo x)) "id";
                 ca_accessToken := accessToken (ci_tokens x);
                 ca_refreshToken := refreshToken (ci_tokens x);
                 ca_accessTokenExpiresAt := accessTokenExpiresAt (ci_tokens x);
                 ca_refreshTokenExpiresAt := refreshTokenExpiresAt (ci_tokens x);
                 ca_scope := join "," <$> scopes (ci_tokens x) |}]).
Proof.
  intros Hid Hemail Hlink Hmatch Hmap Hcreate.
  rewrite (callback_run _ _ _ _ _ _ _ _ Hid).
  destruct (callback_complete env ctx x (h ++ tr)) as [r t] eqn:Hc. cbn [fst snd].
  unfold callback_complete in Hc. rewrite Hemail, Hlink in Hc. cbn [negb] in Hc.
  destruct (callback_mapUser_run (ci_provider x) (default ∅ (ci_userInfo x))
              (h ++ tr) Hmap) as [mapUser HmapUser].
  unfold bind at 1 in Hc. rewrite HmapUser in Hc.
  assert (Hmis :
    (if negb (bool_decide (allowDifferentEmails ctx = Some true))
     then match prop (default ∅ (ci_userInfo x)) "email" with
          | JStr email =>
              ret (negb (String.eqb (link_email l) (toLowerCase env email)))
          | _ => throw (TypeError "userInfo.email.toLowerCase")
          end
     else ret false) ((h ++ tr) ++ []) = (Ok false, [])).
  { destruct Hmatch as [Hallow | [email [Hprop Hsame]]].
    - rewrite (bool_decide_eq_true_2 _ Hallow). reflexivity.
    - destruct (bool_decide (allowDifferentEmails ctx = Some true)); [reflexivity|].
      cbn [negb].
      assert (Hp : prop (default ∅ (ci_userInfo x)) "email" = JStr email).
      { destruct (ci_userInfo x); [exact Hprop | discriminate Hprop]. }
      rewrite Hp, Hsame, String.eqb_refl. reflexivity. }
  unfold bind at 1 in Hc. rewrite Hmis in Hc. unfold bind, call in Hc.
  rewrite Hcreate in Hc.
  destruct created; cbn in Hc; injection Hc as <- <-; reflexivity.
Qed.

(** X22. In a sign-in flow, when [handleOAuthUserInfo] returns a session
    without error, the handler sets the session cookie and then redirects: a
    new user goes to the new-user URL when the flow state has one, everyone
    else to the callback URL. *)
Theorem callback_sign_in_sets_cookie_and_redirects
    env config ctx pid query h x tr result d :
  callback_identity env config ctx pid query h = (Ok x, tr) ->
  truthy (propOpt (ci_userInfo x) "email") = true ->
  link (ci_state x) = None ->
  (forall f, mapProfileToUser (ci_provider x) = Some f ->
             exists mapped, f (default ∅ (ci_userInfo x)) = Ok mapped) ->
  (forall h' a, handleOAuthUserInfo env h' a = Ok result) ->
  truthyS (hr_error result) = false ->
  hr_data result = Some d ->
  (forall h', setSessionCookie env h' d = Ok tt) ->
  exists a,
    oAuth2Callback env config ctx pid query h =
      (Throw (Redirect
         (if hr_isRegister result
          then tpl (orS (newUserURL (ci_state x)) (Some (callbackURL (ci_state x))))
          else callbackURL (ci_state x))),
       tr ++ [EvHandleOAuthUserInfo a; EvSetSessionCookie d])
    /\ ho_providerId a = providerId (ci_provider x)
    /\ ho_accountId a = prop (default ∅ (ci_userInfo x)) "id"
    /\ ho_tokens a = ci_tokens x
    /\ (forall k v, default ∅ (ci_userInfo x) !! k = Some v ->
          mapProfileToUser (ci_provider x) = None -> ho_userInfo a !! k = Some v).
Proof.
  intros Hid Hemail Hlink Hmap Hhandle Herr Hdata Hcookie.
  rewrite (callback_run _ _ _ _ _ _ _ _ Hid).
  destruct (callback_complete env ctx x (h ++ tr)) as [r t] eqn:Hc. cbn [fst snd].
  unfold callback_complete in Hc. rewrite Hemail, Hlink in Hc. cbn [negb] in Hc.
  destruct (callback_mapUser_run (ci_provider x) (default ∅ (ci_userInfo x))
              (h ++ tr) Hmap) as [mapUser HmapUser].
  unfold bind at 1 in Hc. rewrite HmapUser in Hc. unfold bind, call in Hc.
  rewrite Hhandle, Herr, Hdata, Hcookie in Hc. cbn in Hc. injection Hc as <- <-.
  eexists. split; [reflexivity|]. cbn. repeat split.
  intros k v Hk Hnone. rewrite Hnone in HmapUser. cbn in HmapUser.
  injection HmapUser as <-. cbn. rewrite (left_id_L ∅ (∪)). exact Hk.
Qed.

(** X23. In a sign-in flow, when [handleOAuthUserInfo] returns an error, the
    handler redirects to the error URL with that error as code, every space
    replaced by an underscore (so the code has no space), and sets no session
    cookie. *)
Theorem callback_collaborator_error_redirects
    env config ctx pid query h x tr result err :
  callback_identity env config ctx pid query h = (Ok x, tr) ->
  truthy (propOpt (ci_userInfo x) "email") = true ->
  link (ci_state x) = None ->
  (forall f, mapProfileToUser (ci_provider x) = Some f ->
             exists mapped, f (default ∅ (ci_userInfo x)) = Ok mapped) ->
  (forall h' a, handleOAuthUserInfo env h' a = Ok result) ->
  hr_error result = Some err ->
  err <> "" ->
  exists a,
    oAuth2Callback env config ctx pid query h =
      (Throw (Redirect (error_target ctx (ci_state x) +:+ "?error=" +:+ underscored err)),
       tr ++ [EvHandleOAuthUserInfo a])
    /\ ~ In " "%char (String.list_ascii_of_string (underscored err)).
Proof.
  intros Hid Hemail Hlink Hmap Hhandle Herr Hne.
  apply String.eqb_neq in Hne.
  rewrite (callback_run _ _ _ _ _ _ _ _ Hid).
  destruct (callback_complete env ctx x (h ++ tr)) as [r t] eqn:Hc. cbn [fst snd].
  unfold callback_complete in Hc. rewrite Hemail, Hlink in Hc. cbn [negb] in Hc.
  destruct (callback_mapUser_run (ci_provider x) (default ∅ (ci_userInfo x))
              (h ++ tr) Hmap) as [mapUser HmapUser].
  unfold bind at 1 in Hc. rewrite HmapUser in Hc. unfold bind, call in Hc.
  rewrite Hhandle, Herr in Hc. cbn [truthyS default from_option id] in Hc.
  rewrite Hne in Hc. cbn [negb] in Hc.
  rewrite join_split_underscored in Hc. cbn in Hc. injection Hc as <- <-.
  eexists. split; [reflexivity | apply underscored_has_no_space].
Qed.

(** When [disableSignUp_arg] is truthy. *)
Lemma disableSignUp_arg_truth provider st :
  truthy (disableSignUp_arg provider st)
  = (truthyB (disableImplicitSignUp provider) && negb (truthyB (requestSignUp st)))
    || truthyB (disableSignUp provider).
Proof.
  unfold disableSignUp_arg.
  destruct (disableImplicitSignUp provider) as [[|]|];
    destruct (requestSignUp st) as [[|]|];
    destruct (disableSignUp provider) as [[|]|]; reflexivity.
Qed.

(** ** The provider object *)



(** ** The link endpoint *)


(** X29. When the user already has an account with the provider asked for,
    link initiation throws [BAD_REQUEST] before anything else: no discovery,
    no flow state, and this even for a provider that is not configured. *)
Theorem link_already_linked env lenv config ctx session body h accounts a :
  findAccounts lenv h (su_id session) = Ok accounts ->
  In a accounts ->
  acc_providerId a = lb_providerId body ->
  oAuth2LinkAccount env lenv config ctx session body h =
    (Throw (APIError BAD_REQUEST (SOCIAL_ACCOUNT_ALREADY_LINKED lenv)), []).
Proof.
  intros Hfound Hin Hsame. unfold oAuth2LinkAccount, bind, consult.
  rewrite Hfound.
  destruct (List.find (fun a0 => String.eqb (acc_providerId a0) (lb_providerId body))
              accounts) as [a'|] eqn:Hfind; [reflexivity|].
  pose proof (find_none _ _ Hfind a Hin) as Hno. cbn in Hno.
  rewrite Hsame, String.eqb_refl in Hno. discriminate Hno.
Qed.

(** X30. Link initiation starts by reading the accounts of the user
    ([findAccounts], a read of the account store that is consulted and leaves
    no entry among the calls); when that read throws, the handler throws the
    same and calls nothing. After it, the handler calls only discovery, the
    logger, the state codec and the builder: it writes no account, exchanges
    no code and sets no cookie. When it answers, the answer always asks for a
    redirect. *)
Theorem link_makes_initiation_calls_only env lenv config ctx session body h :
  Forall initiation_call (snd (oAuth2LinkAccount env lenv config ctx session body h))
  /\ (forall resp,
        fst (oAuth2LinkAccount env lenv config ctx session body h) = Ok resp ->
        resp_redirect resp = true)
  /\ (forall e,
        findAccounts lenv h (su_id session) = Throw e ->
        oAuth2LinkAccount env lenv config ctx session body h = (Throw e, [])).
Proof.
  assert (Hsafe : safe initiation_call
                    (oAuth2LinkAccount env lenv config ctx session body)
                    (fun resp => resp_redirect resp = true)).
  { unfold oAuth2LinkAccount.
    eapply safe_bind with (R := fun _ => True).
    { intros h'; split; [constructor | auto]. }
    intros accounts _.
    repeat (safe_step; try (intros; exact I)). reflexivity. }
  split; [exact (safe_trace _ _ _ h Hsafe)|].
  split; [exact (safe_value _ _ _ h Hsafe)|].
  intros e Hthrow. unfold oAuth2LinkAccount, bind, consult. rewrite Hthrow.
  reflexivity.
Qed.

(** ** The further theorems at work in the small world *)

(** The extra parameter [client_id=other-client] replaces the standard one. *)
Lemma refresh_extra_params_win_witness :
  sp_get "client_id"
    (req_body (refresh_request Demo.plain "rt-1" Demo.options0 Demo.refresh_with_extras))
  = Some "other-client".
Proof.
  apply (refresh_extra_params_win Demo.plain "rt-1" Demo.options0
           Demo.refresh_with_extras Demo.extras "client_id" "other-client").
  - reflexivity.
  - repeat (apply List.NoDup_cons; [cbn; intuition discriminate|]). constructor.
  - cbn. auto.
Defined.

Lemma refresh_standard_params_witness :
  sp_get "grant_type"
    (req_body (refresh_request Demo.plain "rt-1" Demo.options0 Demo.refresh_with_extras))
  = Some "refresh_token"
  /\ sp_get "refresh_token"
       (req_body (refresh_request Demo.plain "rt-1" Demo.options0 Demo.refresh_with_extras))
     = Some "rt-1".
Proof.
  apply (refresh_standard_params Demo.plain "rt-1" Demo.options0 Demo.refresh_with_extras).
  intros entries Hentries. injection Hentries as <-.
  split; cbn; intuition discriminate.
Defined.

Lemma refresh_basic_keeps_credentials_out_of_body_witness :
  req_headers (refresh_request Demo.plain "rt-1" Demo.options0 Demo.refresh_basic)
    !! "authorization"
  = Some ("Basic " +:+ btoa Demo.plain
            (po_clientId Demo.options0 +:+ ":" +:+ po_clientSecret Demo.options0))
  /\ sp_get "client_id"
       (req_body (refresh_request Demo.plain "rt-1" Demo.options0 Demo.refresh_basic))
     = None
  /\ sp_get "client_secret"
       (req_body (refresh_request Demo.plain "rt-1" Demo.options0 Demo.refresh_basic))
     = None.
Proof.
  apply (refresh_basic_keeps_credentials_out_of_body Demo.plain "rt-1" Demo.options0
           Demo.refresh_basic).
  - reflexivity.
  - intros entries Hentries. discriminate Hentries.
Defined.

Lemma refresh_scopes_round_trip_witness :
  exists tokens,
    fst (refreshAccessToken
           (Demo.world Demo.no_discovery (Demo.refreshed (Some 3600)) (Ok None)
              Demo.state0 Demo.no_jwt 0)
           "rt-1" Demo.options0 Demo.refresh_basic [])
    = Ok tokens
    /\ match scope (Demo.token_response (Some 3600)) with
       | Some s =>
           exists l, scopes tokens = Some l
             /\ l <> []
             /\ Forall (fun x => ~ In " "%char (String.list_ascii_of_string x)) l
             /\ join " " l = s
       | None => scopes tokens = None
       end.
Proof.
  apply (refresh_scopes_round_trip
           (Demo.world Demo.no_discovery (Demo.refreshed (Some 3600)) (Ok None)
              Demo.state0 Demo.no_jwt 0)
           "rt-1" Demo.options0 Demo.refresh_basic []
           (Demo.token_response (Some 3600))).
  reflexivity.
Defined.

Lemma getUserInfo_malformed_id_token_throws_witness :
  getUserInfo Demo.plain Demo.tokens_with_id (Some "https://acme.test/userinfo") []
  = (Throw (Thrown "JWTInvalid"), []).
Proof.
  apply (getUserInfo_malformed_id_token_throws Demo.plain Demo.tokens_with_id
           (Some "https://acme.test/userinfo") [] "header.payload.signature"
           (Thrown "JWTInvalid")).
  - reflexivity.
  - discriminate.
  - reflexivity.
Defined.

Lemma getUserInfo_userinfo_document_passes_through_witness :
  exists identity : Obj,
    getUserInfo (Demo.with_userinfo (mkFetch (Some Demo.profile) None) Demo.plain)
      Demo.tokens0 (Some "https://acme.test/userinfo") []
    = (Ok (Some identity),
       [EvFetchUserInfo "https://acme.test/userinfo"
          ("Bearer " +:+ tpl (accessToken Demo.tokens0))])
    /\ (forall k v, Demo.profile !! k = Some v -> prop identity k = v)
    /\ (Demo.profile !! "id" = None -> prop identity "id" = prop Demo.profile "sub")
    /\ (Demo.profile !! "image" = None ->
        prop identity "image" = prop Demo.profile "picture")
    /\ (Demo.profile !! "emailVerified" = None ->
        prop identity "emailVerified" = prop Demo.profile "email_verified").
Proof.
  apply (getUserInfo_userinfo_document_passes_through
           (Demo.with_userinfo (mkFetch (Some Demo.profile) None) Demo.plain)
           Demo.tokens0 "https://acme.test/userinfo" [] Demo.profile None).
  - left. reflexivity.
  - discriminate.
  - reflexivity.
Defined.

Lemma getUserInfo_failed_request_gives_blank_identity_witness :
  exists identity : Obj,
    getUserInfo Demo.plain Demo.tokens0 (Some "https://acme.test/userinfo") []
    = (Ok (Some identity),
       [EvFetchUserInfo "https://acme.test/userinfo"
          ("Bearer " +:+ tpl (accessToken Demo.tokens0))])
    /\ (forall k, prop identity k = JUndefined)
    /\ truthy (propOpt (Some identity) "email") = false.
Proof.
  apply (getUserInfo_failed_request_gives_blank_identity Demo.plain Demo.tokens0
           "https://acme.test/userinfo" [] None).
  - left. reflexivity.
  - discriminate.
  - reflexivity.
Defined.

Lemma signIn_settings_in_final_url_witness :
  exists u,
    resp_url (mkResponse
                ("https://acme.test/authorize?response_type=code&client_id=client-1"
                 +:+ "&state=st4te&scope=openid email"
                 +:+ "&redirect_uri=https://app.test/api/auth/oauth2/callback/acme"
                 +:+ "&code_challenge_method=S256&code_challenge=S256(v3rifier)"
                 +:+ "&access_type=offline") true)
    = URL_toString Demo.plain u
    /\ (truthyS (prompt Demo.acme_custom) = true ->
        sp_get "prompt" (searchParams u) = prompt Demo.acme_custom)
    /\ (truthyS (accessType Demo.acme_custom) = true ->
        sp_get "access_type" (searchParams u) = accessType Demo.acme_custom)
    /\ (truthyS (responseType Demo.acme_custom) = true ->
        responseType Demo.acme_custom <> Some "code" ->
        sp_get "response_type" (searchParams u) = responseType Demo.acme_custom)
    /\ resp_redirect
         (mkResponse
            ("https://acme.test/authorize?response_type=code&client_id=client-1"
             +:+ "&state=st4te&scope=openid email"
             +:+ "&redirect_uri=https://app.test/api/auth/oauth2/callback/acme"
             +:+ "&code_challenge_method=S256&code_challenge=S256(v3rifier)"
             +:+ "&access_type=offline") true)
       = negb (truthyB (disableRedirect Demo.body0)).
Proof.
  apply (signIn_settings_in_final_url Demo.plain [Demo.acme_custom] Demo.ctx
           Demo.body0 [] Demo.acme_custom).
  - reflexivity.
  - vm_compute. reflexivity.
Defined.

Lemma custom_params_on_builder_endpoint_witness :
  exists u u',
    URL_parse Demo.plain "https://acme.test/authorize?prompt=none&ui=dark" = Some u
    /\ "https://acme.test/authorize?prompt=login&ui=dark" = URL_toString Demo.plain u'
    /\ url_base u' = url_base u
    /\ (forall k v, In (k, v) [("prompt", "login")] ->
                    sp_get k (searchParams u') = Some v)
    /\ (forall k, ~ In k (map fst [("prompt", "login")]) ->
                  sp_get k (searchParams u') = sp_get k (searchParams u)).
Proof.
  apply (custom_params_on_builder_endpoint Demo.plain [("prompt", "login")]
           "https://acme.test/authorize?prompt=none&ui=dark"
           "https://acme.test/authorize?prompt=login&ui=dark").
  - vm_compute. reflexivity.
  - repeat (apply List.NoDup_cons; [cbn; intuition discriminate|]). constructor.
Defined.

Lemma callback_state_failure_propagates_witness :
  oAuth2Callback (Demo.with_state (Throw (Thrown "state_mismatch")) Demo.plain)
    [Demo.acme] Demo.ctx "acme" Demo.query0 []
  = (Throw (Thrown "state_mismatch"), [EvParseState]).
Proof.
  apply (callback_state_failure_propagates
           (Demo.with_state (Throw (Thrown "state_mismatch")) Demo.plain)
           [Demo.acme] Demo.ctx "acme" Demo.query0 [] Demo.acme (Thrown "state_mismatch"));
    reflexivity.
Defined.

Lemma callback_exchange_failure_redirects_witness :
  exists a,
    oAuth2Callback
      (Demo.world Demo.no_discovery Demo.no_token (Throw (Thrown "invalid_grant"))
         Demo.state0 Demo.no_jwt 0)
      [Demo.acme] Demo.ctx "acme" Demo.query0 []
    = (Throw (Redirect (error_target Demo.ctx Demo.state0
                        +:+ "?error=oauth_code_verification_failed")),
       [EvParseState; EvValidateAuthorizationCode a;
        EvLogError (exn_name (Thrown "invalid_grant"))])
    /\ vac_tokenEndpoint a = "https://acme.test/token"
    /\ Some (vac_code a) = q_code Demo.query0.
Proof.
  apply (callback_exchange_failure_redirects
           (Demo.world Demo.no_discovery Demo.no_token (Throw (Thrown "invalid_grant"))
              Demo.state0 Demo.no_jwt 0)
           [Demo.acme] Demo.ctx "acme" Demo.query0 [] Demo.acme Demo.state0
           "https://acme.test/token" (Thrown "invalid_grant"));
    try reflexivity.
  discriminate.
Defined.

Lemma callback_null_tokens_is_bad_request_witness :
  exists a,
    oAuth2Callback
      (Demo.world Demo.no_discovery Demo.no_token (Ok None) Demo.state0 Demo.no_jwt 0)
      [Demo.acme] Demo.ctx "acme" Demo.query0 []
    = (Throw (APIError BAD_REQUEST "Invalid OAuth configuration."),
       [EvParseState; EvValidateAuthorizationCode a]).
Proof.
  apply (callback_null_tokens_is_bad_request
           (Demo.world Demo.no_discovery Demo.no_token (Ok None) Demo.state0
              Demo.no_jwt 0)
           [Demo.acme] Demo.ctx "acme" Demo.query0 [] Demo.acme Demo.state0
           "https://acme.test/token");
    try reflexivity.
  discriminate.
Defined.

Lemma callback_link_flow_leaves_session_alone_witness :
  Forall (fun ev => ~ session_call ev)
         (snd (oAuth2Callback Demo.linking [Demo.acme] Demo.ctx "acme" Demo.query0 [])).
Proof.
  apply (callback_link_flow_leaves_session_alone Demo.linking [Demo.acme] Demo.ctx
           "acme" Demo.query0 []
           (Demo.known Demo.bob_link_state Demo.tokens_with_id Demo.bob)
           [EvParseState; Demo.exchange "https://acme.test/token"]
           (mkLink "bob@acme.test" "user-7")).
  - vm_compute. reflexivity.
  - reflexivity.
Defined.

Lemma callback_sign_in_flow_creates_no_account_witness :
  Forall (fun ev => ~ create_account_call ev)
         (snd (oAuth2Callback Demo.with_profile [Demo.acme] Demo.ctx "acme" Demo.query0 [])).
Proof.
  apply (callback_sign_in_flow_creates_no_account Demo.with_profile [Demo.acme]
           Demo.ctx "acme" Demo.query0 []
           (Demo.known Demo.state0 Demo.tokens0 Demo.carol) Demo.asked).
  - vm_compute. reflexivity.
  - reflexivity.
Defined.

Lemma callback_link_creates_account_witness :
  oAuth2Callback Demo.linking [Demo.acme] Demo.ctx "acme" Demo.query0 []
  = (Throw (Redirect "https://app.test/settings"),
     [EvParseState; Demo.exchange "https://acme.test/token"]
     ++ [EvCreateAccount
           {| ca_userId := "user-7";
              ca_providerId := "acme";
              ca_accountId := prop Demo.bob "id";
              ca_accessToken := Some "at-1";
              ca_refreshToken := None;
              ca_accessTokenExpiresAt := None;
              ca_refreshTokenExpiresAt := None;
              ca_scope := None |}]).
Proof.
  apply (callback_link_creates_account Demo.linking [Demo.acme] Demo.ctx "acme"
           Demo.query0 []
           (Demo.known Demo.bob_link_state Demo.tokens_with_id Demo.bob)
           [EvParseState; Demo.exchange "https://acme.test/token"]
           (mkLink "bob@acme.test" "user-7") (Some "account-1")).
  - vm_compute. reflexivity.
  - vm_compute. reflexivity.
  - reflexivity.
  - right. exists "Bob@Acme.test". split; vm_compute; reflexivity.
  - intros f Hf. discriminate Hf.
  - reflexivity.
Defined.

Lemma callback_sign_in_sets_cookie_and_redirects_witness :
  exists a,
    oAuth2Callback
      (Demo.with_resolution Demo.registered
         (Demo.with_state (Ok Demo.new_user_state) Demo.with_profile))
      [Demo.acme] Demo.ctx "acme" Demo.query0 []
    = (Throw (Redirect "https://app.test/onboarding"),
       Demo.asked
       ++ [EvHandleOAuthUserInfo a; EvSetSessionCookie (mkSession "session-1" "user-1")])
    /\ ho_providerId a = "acme"
    /\ ho_accountId a = prop Demo.carol "id"
    /\ ho_tokens a = Demo.tokens0
    /\ (forall k v, Demo.carol !! k = Some v ->
          mapProfileToUser Demo.acme = None -> ho_userInfo a !! k = Some v).
Proof.
  apply (callback_sign_in_sets_cookie_and_redirects
           (Demo.with_resolution Demo.registered
              (Demo.with_state (Ok Demo.new_user_state) Demo.with_profile))
           [Demo.acme] Demo.ctx "acme" Demo.query0 []
           (Demo.known Demo.new_user_state Demo.tokens0 Demo.carol) Demo.asked
           Demo.registered (mkSession "session-1" "user-1")).
  - vm_compute. reflexivity.
  - vm_compute. reflexivity.
  - reflexivity.
  - intros f Hf. discriminate Hf.
  - reflexivity.
  - reflexivity.
  - reflexivity.
  - reflexivity.
Defined.

Lemma callback_collaborator_error_redirects_witness :
  exists a,
    oAuth2Callback (Demo.with_resolution Demo.refused Demo.with_profile)
      [Demo.acme] Demo.ctx "acme" Demo.query0 []
    = (Throw (Redirect (error_target Demo.ctx Demo.state0 +:+ "?error="
                        +:+ underscored "signup disabled")),
       Demo.asked ++ [EvHandleOAuthUserInfo a])
    /\ ~ In " "%char (String.list_ascii_of_string (underscored "signup disabled")).
Proof.
  apply (callback_collaborator_error_redirects
           (Demo.with_resolution Demo.refused Demo.with_profile)
           [Demo.acme] Demo.ctx "acme" Demo.query0 []
           (Demo.known Demo.state0 Demo.tokens0 Demo.carol) Demo.asked
           Demo.refused "signup disabled").
  - vm_compute. reflexivity.
  - vm_compute. reflexivity.
  - reflexivity.
  - intros f Hf. discriminate Hf.
  - reflexivity.
  - reflexivity.
  - discriminate.
Defined.




Lemma link_already_linked_witness :
  oAuth2LinkAccount Demo.plain (Demo.link_env [mkAccount "acme" "sub-9"])
    [] Demo.ctx Demo.alice Demo.link_body []
  = (Throw (APIError BAD_REQUEST
              (SOCIAL_ACCOUNT_ALREADY_LINKED (Demo.link_env [mkAccount "acme" "sub-9"]))),
     []).
Proof.
  apply (link_already_linked Demo.plain (Demo.link_env [mkAccount "acme" "sub-9"])
           [] Demo.ctx Demo.alice Demo.link_body []
           [mkAccount "acme" "sub-9"] (mkAccount "acme" "sub-9")).
  - reflexivity.
  - left. reflexivity.
  - reflexivity.
Defined.

(** The calls of a link initiation for [Demo.acme_discovery]: no discovery
    fetch, and the static authorization URL for the builder. *)
Example link_static_trace :
  snd (oAuth2LinkAccount Demo.discovering (Demo.link_env [])
         [Demo.acme_discovery] Demo.ctx Demo.alice Demo.link_body [])
  = [EvGenerateState;
     EvCreateAuthorizationURL
       {| cau_id := "acme";
          cau_options :=
            mkOptions "client-1" "s3cret"
              (Some "https://app.test/api/auth/oauth2/callback");
          cau_authorizationEndpoint := "https://acme.test/authorize";
          cau_state := "st4te";
          cau_codeVerifier := None;
          cau_scopes := ["openid"; "email"];
          cau_redirectURI := "https://app.test/api/auth/oauth2/callback/acme" |}].
Proof. vm_compute. reflexivity. Qed.

(** ** The handlers, stage by stage *)

(** [signInWithOAuth2] is the provider lookup, then [signIn_endpoints], then
    [signIn_build]. *)
Lemma signInWithOAuth2_stages env config ctx body :
  signInWithOAuth2 env config ctx body =
    match find_config config (body_providerId body) with
    | None =>
        throw (APIError BAD_REQUEST
                 ("No config found for provider " +:+ body_providerId body))
    | Some c =>
        let* finals := signIn_endpoints env c in
        signIn_build env ctx body c finals
    end.
Proof. reflexivity. Qed.

(** [callback_identity] is the query check, the provider lookup, the state,
    then [callback_endpoints], [callback_tokens] and [callback_userInfo]. *)
Lemma callback_identity_stages env config ctx pid query :
  callback_identity env config ctx pid query =
    if truthyS (q_error query) || negb (truthyS (q_code query)) then
      throw (Redirect
               (tpl (orS (onAPIError_errorURL ctx) (Some (baseURL ctx +:+ "/error")))
                +:+ "?error=" +:+ tpl (orS (q_error query) (Some "oAuth_code_missing"))
                +:+ "&error_description=" +:+ tpl (q_error_description query)))
    else
    match find_config config pid with
    | None => throw (APIError BAD_REQUEST ("No config found for provider " +:+ pid))
    | Some provider =>
        let* st := call EvParseState (fun h => parseState env h query) in
        let* finals := callback_endpoints env provider in
        let* tokens :=
          callback_tokens env ctx provider st (default "" (q_code query)) (fst finals) in
        match tokens with
        | None => throw (APIError BAD_REQUEST "Invalid OAuth configuration.")
        | Some tokens =>
            let* userInfo := callback_userInfo env provider tokens (snd finals) in
            ret {| ci_provider := provider;
                   ci_state := st;
                   ci_tokens := tokens;
                   ci_userInfo := userInfo |}
        end
    end.
Proof. reflexivity. Qed.

(** *** The runs of the stages *)

Lemma truthyS_Some s : s <> "" -> truthyS (Some s) = true.
Proof. intros H. apply String.eqb_neq in H. cbn. rewrite H. reflexivity. Qed.

(** Sign-in asks discovery and gets data: the endpoints are the document's. *)
Lemma signIn_endpoints_data env c url d e h :
  discoveryUrl c = Some url ->
  url <> "" ->
  betterFetch_discovery env h url = Ok (mkFetch (Some d) e) ->
  signIn_endpoints env c h =
    (Ok (authorization_endpoint d, token_endpoint d),
     EvFetchDiscovery url :: discovery_log e).
Proof.
  intros Hurl Hne Hfetch. unfold signIn_endpoints.
  rewrite Hurl, (truthyS_Some url Hne). cbn [default from_option id].
  unfold bind, call, emit, ret. rewrite Hfetch. cbn [data error].
  destruct e; reflexivity.
Qed.

(** Sign-in asks discovery and gets no data: the endpoints are the static
    ones. *)
Lemma signIn_endpoints_no_data env c url e h :
  discoveryUrl c = Some url ->
  url <> "" ->
  betterFetch_discovery env h url = Ok (mkFetch None e) ->
  signIn_endpoints env c h =
    (Ok (authorizationUrl c, tokenUrl c), EvFetchDiscovery url :: discovery_log e).
Proof.
  intros Hurl Hne Hfetch. unfold signIn_endpoints.
  rewrite Hurl, (truthyS_Some url Hne). cbn [default from_option id].
  unfold bind, call, emit, ret. rewrite Hfetch. cbn [data error].
  destruct e; reflexivity.
Qed.

(** Sign-in without a discovery URL asks nothing. *)
Lemma signIn_endpoints_static env c h :
  truthyS (discoveryUrl c) = false ->
  signIn_endpoints env c h = (Ok (authorizationUrl c, tokenUrl c), []).
Proof. intros Hno. unfold signIn_endpoints. rewrite Hno. reflexivity. Qed.

(** Sign-in once it has both endpoints, with a state codec and a builder
    that answer. *)
Lemma signIn_build_run env ctx body c a t ep st authUrl h :
  a <> "" ->
  t <> "" ->
  withAdditionalParams env (authorizationUrlParams c) a = Ok ep ->
  (forall h', generateState env h' body = Ok st) ->
  (forall h', createAuthorizationURL env h' (signIn_builder_args ctx body c ep st)
              = Ok authUrl) ->
  signIn_build env ctx body c (Some a, Some t) h =
    (Ok {| resp_url := URL_toString env (signIn_settings c authUrl);
           resp_redirect := negb (truthyB (disableRedirect body)) |},
     [EvGenerateState; EvCreateAuthorizationURL (signIn_builder_args ctx body c ep st)]).
Proof.
  intros Ha Ht Hep Hstate Hbuild. unfold signIn_build. cbn [fst snd].
  rewrite (truthyS_Some a Ha), (truthyS_Some t Ht). cbn [negb orb default from_option id].
  unfold bind, lift, call, ret. rewrite Hep, Hstate, Hbuild. reflexivity.
Qed.

(** A sign-in whose endpoints stage returned both endpoints. *)
Lemma signInWithOAuth2_run env config ctx body c a t ep st authUrl h etr :
  find_config config (body_providerId body) = Some c ->
  signIn_endpoints env c h = (Ok (Some a, Some t), etr) ->
  a <> "" ->
  t <> "" ->
  withAdditionalParams env (authorizationUrlParams c) a = Ok ep ->
  (forall h', generateState env h' body = Ok st) ->
  (forall h', createAuthorizationURL env h' (signIn_builder_args ctx body c ep st)
              = Ok authUrl) ->
  signInWithOAuth2 env config ctx body h =
    (Ok {| resp_url := URL_toString env (signIn_settings c authUrl);
           resp_redirect := negb (truthyB (disableRedirect body)) |},
     etr ++ [EvGenerateState;
             EvCreateAuthorizationURL (signIn_builder_args ctx body c ep st)]).
Proof.
  intros Hfind Hends Ha Ht Hep Hstate Hbuild.
  rewrite signInWithOAuth2_stages, Hfind.
  rewrite (bind_run _ _ h _ etr Hends).
  rewrite (signIn_build_run env ctx body c a t ep st authUrl (h ++ etr)
             Ha Ht Hep Hstate Hbuild).
  reflexivity.
Qed.

(** The callback asks discovery and gets data: the endpoints are the
    document's. *)
Lemma callback_endpoints_data env c url d e h :
  discoveryUrl c = Some url ->
  url <> "" ->
  betterFetch_discovery env h url = Ok (mkFetch (Some d) e) ->
  callback_endpoints env c h =
    (Ok (token_endpoint d, userinfo_endpoint d), [EvFetchDiscovery url]).
Proof.
  intros Hurl Hne Hfetch. unfold callback_endpoints.
  rewrite Hurl, (truthyS_Some url Hne). cbn [default from_option id].
  unfold bind, call, ret. rewrite Hfetch. reflexivity.
Qed.

(** The callback asks discovery and gets no data: the endpoints are the
    static ones. *)
Lemma callback_endpoints_no_data env c url e h :
  discoveryUrl c = Some url ->
  url <> "" ->
  betterFetch_discovery env h url = Ok (mkFetch None e) ->
  callback_endpoints env c h =
    (Ok (tokenUrl c, userInfoUrl c), [EvFetchDiscovery url]).
Proof.
  intros Hurl Hne Hfetch. unfold callback_endpoints.
  rewrite Hurl, (truthyS_Some url Hne). cbn [default from_option id].
  unfold bind, call, ret. rewrite Hfetch. reflexivity.
Qed.

(** The code exchange at a token endpoint, answered. *)
Lemma callback_tokens_run env ctx c st code t tokens h :
  t <> "" ->
  validateAuthorizationCode env h (callback_exchange_args ctx c st code t) = Ok tokens ->
  callback_tokens env ctx c st code (Some t) h =
    (Ok tokens, [EvValidateAuthorizationCode (callback_exchange_args ctx c st code t)]).
Proof.
  intros Ht Hvalid. unfold callback_tokens, try_catch, call.
  rewrite (truthyS_Some t Ht). cbn [negb default from_option id].
  rewrite Hvalid. reflexivity.
Qed.

(** The user info of a provider without a [getUserInfo] of its own, when the
    ID token does not settle the identity. *)
Lemma callback_userInfo_run env c tokens u r h :
  cfg_getUserInfo c = None ->
  id_token_insufficient env tokens ->
  u <> "" ->
  betterFetch_userinfo env h u ("Bearer " +:+ tpl (accessToken tokens)) = Ok r ->
  callback_userInfo env c tokens (Some u) h =
    (Ok (Some (userInfo_of_response r)),
     [EvFetchUserInfo u ("Bearer " +:+ tpl (accessToken tokens))]).
Proof.
  intros Hcustom Hid Hu Hfetch. unfold callback_userInfo. rewrite Hcustom.
  rewrite (getUserInfo_fetches env tokens u h Hid Hu), Hfetch. reflexivity.
Qed.

(** The first stage of a callback whose endpoints stage returned both
    endpoints, with collaborators that answer. *)
Lemma callback_identity_run env config ctx pid query h c st t u tokens r etr :
  truthyS (q_error query) = false ->
  truthyS (q_code query) = true ->
  find_config config pid = Some c ->
  parseState env h query = Ok st ->
  callback_endpoints env c (h ++ [EvParseState]) = (Ok (Some t, Some u), etr) ->
  t <> "" ->
  u <> "" ->
  (forall h', validateAuthorizationCode env h'
                (callback_exchange_args ctx c st (default "" (q_code query)) t)
              = Ok (Some tokens)) ->
  cfg_getUserInfo c = None ->
  id_token_insufficient env tokens ->
  (forall h', betterFetch_userinfo env h' u ("Bearer " +:+ tpl (accessToken tokens))
              = Ok r) ->
  callback_identity env config ctx pid query h =
    (Ok {| ci_provider := c;
           ci_state := st;
           ci_tokens := tokens;
           ci_userInfo := Some (userInfo_of_response r) |},
     EvParseState :: etr ++
       [EvValidateAuthorizationCode
          (callback_exchange_args ctx c st (default "" (q_code query)) t);
        EvFetchUserInfo u ("Bearer " +:+ tpl (accessToken tokens))]).
Proof.
  intros Herr Hcode Hfind Hstate Hends Ht Hu Hvalid Hcustom Hid Hfetch.
  rewrite callback_identity_stages, Herr, Hcode, Hfind. cbn [negb orb].
  rewrite (bind_run _ _ h st [EvParseState]); [|unfold call; rewrite Hstate; reflexivity].
  rewrite (bind_run _ _ _ _ etr Hends). cbn [fst snd].
  rewrite (bind_run _ _ _ (Some tokens) _
             (callback_tokens_run env ctx c st _ t (Some tokens) _ Ht (Hvalid _))).
  rewrite (bind_run _ _ _ _ _
             (callback_userInfo_run env c tokens u r _ Hcustom Hid Hu (Hfetch _))).
  cbn [fst snd ret]. rewrite app_nil_r. reflexivity.
Qed.

(** ** Discovery, run by run *)

(** C1. For a provider with a (non-empty) [discoveryUrl] whose discovery
    fetch returns data [d], the endpoints the two handlers use are [d]'s,
    whatever [authorizationUrl], [tokenUrl] and [userInfoUrl] the provider
    was configured with.
    - No call of either handler uses another endpoint: every authorization
      URL is built on [d]'s authorization endpoint (with the provider's
      [authorizationUrlParams] set on it), every code is exchanged at [d]'s
      token endpoint, every user info fetched from [d]'s userinfo endpoint.
    - Sign-in, when [d] names an authorization and a token endpoint and the
      state codec and the builder answer, makes exactly three calls:
      discovery (and the log of its error, if any), [generateState], and the
      builder on [d]'s authorization endpoint. It answers with the URL the
      builder returned, the provider's settings set on it.
    - The callback, when [d] names a token and a userinfo endpoint and the
      collaborators answer, starts with exactly four calls: the state codec,
      discovery, the code exchange at [d]'s token endpoint and the userinfo
      request at [d]'s userinfo endpoint. It goes on with the identity that
      request brought. *)
Theorem discovery_overrides_static_endpoints env config ctx c url d :
  discoveryUrl c = Some url ->
  url <> "" ->
  (forall h, exists e, betterFetch_discovery env h url = Ok (mkFetch (Some d) e)) ->
  (forall body h,
     find_config config (body_providerId body) = Some c ->
     Forall (uses_discovered_endpoints env c d)
            (snd (signInWithOAuth2 env config ctx body h)))
  /\ (forall pid query h,
        find_config config pid = Some c ->
        Forall (uses_discovered_endpoints env c d)
               (snd (oAuth2Callback env config ctx pid query h)))
  /\ (forall body h e a t ep st authUrl,
        find_config config (body_providerId body) = Some c ->
        betterFetch_discovery env h url = Ok (mkFetch (Some d) e) ->
        authorization_endpoint d = Some a ->
        a <> "" ->
        token_endpoint d = Some t ->
        t <> "" ->
        withAdditionalParams env (authorizationUrlParams c) a = Ok ep ->
        (forall h', generateState env h' body = Ok st) ->
        (forall h', createAuthorizationURL env h' (signIn_builder_args ctx body c ep st)
                    = Ok authUrl) ->
        signInWithOAuth2 env config ctx body h =
          (Ok {| resp_url := URL_toString env (signIn_settings c authUrl);
                 resp_redirect := negb (truthyB (disableRedirect body)) |},
           EvFetchDiscovery url :: discovery_log e ++
             [EvGenerateState;
              EvCreateAuthorizationURL
                {| cau_id := body_providerId body;
                   cau_options :=
                     {| po_clientId := clientId c;
                        po_clientSecret := clientSecret c;
                        po_redirectURI := redirectURI c |};
                   cau_authorizationEndpoint := ep;
                   cau_state := fst st;
                   cau_codeVerifier :=
                     if truthyB (pkce c) then Some (snd st) else None;
                   cau_scopes :=
                     default [] (body_scopes body) ++ default [] (cfg_scopes c);
                   cau_redirectURI :=
                     baseURL ctx +:+ "/oauth2/callback/" +:+ body_providerId body |}]))
  /\ (forall pid query h st t u tokens r,
        truthyS (q_error query) = false ->
        truthyS (q_code query) = true ->
        find_config config pid = Some c ->
        parseState env h query = Ok st ->
        token_endpoint d = Some t ->
        t <> "" ->
        userinfo_endpoint d = Some u ->
        u <> "" ->
        (forall h', validateAuthorizationCode env h'
                      (callback_exchange_args ctx c st (default "" (q_code query)) t)
                    = Ok (Some tokens)) ->
        cfg_getUserInfo c = None ->
        id_token_insufficient env tokens ->
        (forall h', betterFetch_userinfo env h' u
                      ("Bearer " +:+ tpl (accessToken tokens)) = Ok r) ->
        let tr :=
          [EvParseState;
           EvFetchDiscovery url;
           EvValidateAuthorizationCode
             {| vac_code := default "" (q_code query);
                vac_codeVerifier :=
                  if truthyB (pkce c) then Some (codeVerifier st) else None;
                vac_redirectURI := baseURL ctx +:+ "/oauth2/callback/" +:+ providerId c;
                vac_options :=
                  {| po_clientId := clientId c;
                     po_clientSecret := clientSecret c;
                     po_redirectURI := redirectURI c |};
                vac_tokenEndpoint := t |};
           EvFetchUserInfo u ("Bearer " +:+ tpl (accessToken tokens))] in
        let x :=
          {| ci_provider := c;
             ci_state := st;
             ci_tokens := tokens;
             ci_userInfo := Some (userInfo_of_response r) |} in
        oAuth2Callback env config ctx pid query h =
          (fst (callback_complete env ctx x (h ++ tr)),
           tr ++ snd (callback_complete env ctx x (h ++ tr)))).
Proof.
  intros Hurl Hne Hfetch. split; [|split; [|split]].
  - intros body h Hfind.
    apply (signIn_uses_discovery env c url d Hurl Hne Hfetch config ctx body Hfind h).
  - intros pid query h Hfind.
    apply (callback_uses_discovery env c url d Hurl Hne Hfetch config ctx pid query Hfind h).
  - intros body h e a t ep st authUrl Hfind He Ha Hane Ht Htne Hep Hstate Hbuild.
    pose proof (signIn_endpoints_data env c url d e h Hurl Hne He) as Hends.
    rewrite Ha, Ht in Hends.
    rewrite (signInWithOAuth2_run env config ctx body c a t ep st authUrl h _
               Hfind Hends Hane Htne Hep Hstate Hbuild).
    unfold signIn_builder_args. destruct (body_scopes body); reflexivity.
  - intros pid query h st t u tokens r Herr Hcode Hfind Hstate Ht Htne Hu Hune
      Hvalid Hcustom Hid Huser. cbv zeta.
    destruct (Hfetch (h ++ [EvParseState])) as [e He].
    pose proof (callback_endpoints_data env c url d e _ Hurl Hne He) as Hends.
    rewrite Ht, Hu in Hends.
    apply callback_run.
    exact (callback_identity_run env config ctx pid query h c st t u tokens r _
             Herr Hcode Hfind Hstate Hends Htne Hune Hvalid Hcustom Hid Huser).
Qed.

(** C1 at work: [Demo.acme_discovery] has static endpoints under
    [acme.test], and its discovery document names endpoints under
    [idp.acme.test]. The sign-in answers with a URL under [idp.acme.test];
    the callback sends the code and the access token there. *)
Lemma discovery_overrides_static_endpoints_witness :
  signInWithOAuth2 Demo.discovering_profile [Demo.acme_discovery] Demo.ctx Demo.body0 []
  = (Ok {| resp_url :=
             "https://idp.acme.test/auth?response_type=code&client_id=client-1&state=st4te&scope=openid email&redirect_uri=https://app.test/api/auth/oauth2/callback/acme";
           resp_redirect := true |},
     [EvFetchDiscovery Demo.well_known; EvGenerateState;
      EvCreateAuthorizationURL
        {| cau_id := "acme";
           cau_options := mkOptions "client-1" "s3cret" None;
           cau_authorizationEndpoint := "https://idp.acme.test/auth";
           cau_state := "st4te";
           cau_codeVerifier := None;
           cau_scopes := ["openid"; "email"];
           cau_redirectURI := "https://app.test/api/auth/oauth2/callback/acme" |}])
  /\ firstn 4 (snd (oAuth2Callback Demo.discovering_profile [Demo.acme_discovery]
                      Demo.ctx "acme" Demo.query0 []))
     = [EvParseState; EvFetchDiscovery Demo.well_known;
        Demo.exchange "https://idp.acme.test/token";
        EvFetchUserInfo "https://idp.acme.test/me" "Bearer at-1"].
Proof.
  pose proof (discovery_overrides_static_endpoints Demo.discovering_profile
                [Demo.acme_discovery] Demo.ctx Demo.acme_discovery Demo.well_known
                Demo.discovered eq_refl ltac:(discriminate)
                (fun _ => ex_intro _ None eq_refl)) as (_ & _ & Hsign & Hcall).
  split.
  - etransitivity.
    + apply (Hsign Demo.body0 [] None "https://idp.acme.test/auth"
               "https://idp.acme.test/token" "https://idp.acme.test/auth"
               ("st4te", "v3rifier")).
      * reflexivity.
      * reflexivity.
      * reflexivity.
      * discriminate.
      * reflexivity.
      * discriminate.
      * reflexivity.
      * intros h'. reflexivity.
      * intros h'. vm_compute. reflexivity.
    + vm_compute. reflexivity.
  - rewrite (Hcall "acme" Demo.query0 [] Demo.state0 "https://idp.acme.test/token"
               "https://idp.acme.test/me" Demo.tokens0 (mkFetch (Some Demo.profile) None)).
    + vm_compute. reflexivity.
    + reflexivity.
    + reflexivity.
    + reflexivity.
    + reflexivity.
    + reflexivity.
    + discriminate.
    + reflexivity.
    + discriminate.
    + intros h'. reflexivity.
    + reflexivity.
    + left. reflexivity.
    + intros h'. reflexivity.
Defined.

(** X15. When the discovery fetch of a provider brings no data, both
    handlers carry on with the statically configured endpoints.
    - No call of either handler uses another endpoint: every authorization
      URL is built on [authorizationUrl], every code is exchanged at
      [tokenUrl], every user info fetched from [userInfoUrl].
    - Sign-in, with an [authorizationUrl] and a [tokenUrl], makes exactly
      these calls: discovery (and the log of its error, if any),
      [generateState], and the builder on [authorizationUrl].
    - The callback, with a [tokenUrl] and a [userInfoUrl], starts with
      exactly four calls: the state codec, discovery, the code exchange at
      [tokenUrl] and the userinfo request at [userInfoUrl]. *)
Theorem discovery_failure_falls_back_to_static env config ctx c url :
  discoveryUrl c = Some url ->
  url <> "" ->
  (forall h, exists e, betterFetch_discovery env h url = Ok (mkFetch None e)) ->
  (forall body h,
     find_config config (body_providerId body) = Some c ->
     Forall (uses_static_endpoints env c)
            (snd (signInWithOAuth2 env config ctx body h)))
  /\ (forall pid query h,
        find_config config pid = Some c ->
        Forall (uses_static_endpoints env c)
               (snd (oAuth2Callback env config ctx pid query h)))
  /\ (forall body h e a t ep st authUrl,
        find_config config (body_providerId body) = Some c ->
        betterFetch_discovery env h url = Ok (mkFetch None e) ->
        authorizationUrl c = Some a ->
        a <> "" ->
        tokenUrl c = Some t ->
        t <> "" ->
        withAdditionalParams env (authorizationUrlParams c) a = Ok ep ->
        (forall h', generateState env h' body = Ok st) ->
        (forall h', createAuthorizationURL env h' (signIn_builder_args ctx body c ep st)
                    = Ok authUrl) ->
        signInWithOAuth2 env config ctx body h =
          (Ok {| resp_url := URL_toString env (signIn_settings c authUrl);
                 resp_redirect := negb (truthyB (disableRedirect body)) |},
           EvFetchDiscovery url :: discovery_log e ++
             [EvGenerateState;
              EvCreateAuthorizationURL
                {| cau_id := body_providerId body;
                   cau_options :=
                     {| po_clientId := clientId c;
                        po_clientSecret := clientSecret c;
                        po_redirectURI := redirectURI c |};
                   cau_authorizationEndpoint := ep;
                   cau_state := fst st;
                   cau_codeVerifier :=
                     if truthyB (pkce c) then Some (snd st) else None;
                   cau_scopes :=
                     default [] (body_scopes body) ++ default [] (cfg_scopes c);
                   cau_redirectURI :=
                     baseURL ctx +:+ "/oauth2/callback/" +:+ body_providerId body |}]))
  /\ (forall pid query h st t u tokens r,
        truthyS (q_error query) = false ->
        truthyS (q_code query) = true ->
        find_config config pid = Some c ->
        parseState env h query = Ok st ->
        tokenUrl c = Some t ->
        t <> "" ->
        userInfoUrl c = Some u ->
        u <> "" ->
        (forall h', validateAuthorizationCode env h'
                      (callback_exchange_args ctx c st (default "" (q_code query)) t)
                    = Ok (Some tokens)) ->
        cfg_getUserInfo c = None ->
        id_token_insufficient env tokens ->
        (forall h', betterFetch_userinfo env h' u
                      ("Bearer " +:+ tpl (accessToken tokens)) = Ok r) ->
        let tr :=
          [EvParseState;
           EvFetchDiscovery url;
           EvValidateAuthorizationCode
             {| vac_code := default "" (q_code query);
                vac_codeVerifier :=
                  if truthyB (pkce c) then Some (codeVerifier st) else None;
                vac_redirectURI := baseURL ctx +:+ "/oauth2/callback/" +:+ providerId c;
                vac_options :=
                  {| po_clientId := clientId c;
                     po_clientSecret := clientSecret c;
                     po_redirectURI := redirectURI c |};
                vac_tokenEndpoint := t |};
           EvFetchUserInfo u ("Bearer " +:+ tpl (accessToken tokens))] in
        let x :=
          {| ci_provider := c;
             ci_state := st;
             ci_tokens := tokens;
             ci_userInfo := Some (userInfo_of_response r) |} in
        oAuth2Callback env config ctx pid query h =
          (fst (callback_complete env ctx x (h ++ tr)),
           tr ++ snd (callback_complete env ctx x (h ++ tr)))).
Proof.
  intros Hurl Hne Hfetch. split; [|split; [|split]].
  - intros body h Hfind.
    apply (signIn_falls_back env c url Hurl Hne Hfetch config ctx body Hfind h).
  - intros pid query h Hfind.
    apply (callback_falls_back env c url Hurl Hne Hfetch config ctx pid query Hfind h).
  - intros body h e a t ep st authUrl Hfind He Ha Hane Ht Htne Hep Hstate Hbuild.
    pose proof (signIn_endpoints_no_data env c url e h Hurl Hne He) as Hends.
    rewrite Ha, Ht in Hends.
    rewrite (signInWithOAuth2_run env config ctx body c a t ep st authUrl h _
               Hfind Hends Hane Htne Hep Hstate Hbuild).
    unfold signIn_builder_args. destruct (body_scopes body); reflexivity.
  - intros pid query h st t u tokens r Herr Hcode Hfind Hstate Ht Htne Hu Hune
      Hvalid Hcustom Hid Huser. cbv zeta.
    destruct (Hfetch (h ++ [EvParseState])) as [e He].
    pose proof (callback_endpoints_no_data env c url e _ Hurl Hne He) as Hends.
    rewrite Ht, Hu in Hends.
    apply callback_run.
    exact (callback_identity_run env config ctx pid query h c st t u tokens r _
             Herr Hcode Hfind Hstate Hends Htne Hune Hvalid Hcustom Hid Huser).
Qed.

(** X15 at work: discovery answers [Demo.acme_discovery] without data, and
    the handlers go to [acme.test]. *)
Lemma discovery_failure_falls_back_to_static_witness :
  signInWithOAuth2 Demo.with_profile [Demo.acme_discovery] Demo.ctx Demo.body0 []
  = (Ok {| resp_url :=
             "https://acme.test/authorize?response_type=code&client_id=client-1&state=st4te&scope=openid email&redirect_uri=https://app.test/api/auth/oauth2/callback/acme";
           resp_redirect := true |},
     [EvFetchDiscovery Demo.well_known; EvGenerateState;
      EvCreateAuthorizationURL
        {| cau_id := "acme";
           cau_options := mkOptions "client-1" "s3cret" None;
           cau_authorizationEndpoint := "https://acme.test/authorize";
           cau_state := "st4te";
           cau_codeVerifier := None;
           cau_scopes := ["openid"; "email"];
           cau_redirectURI := "https://app.test/api/auth/oauth2/callback/acme" |}])
  /\ firstn 4 (snd (oAuth2Callback Demo.with_profile [Demo.acme_discovery]
                      Demo.ctx "acme" Demo.query0 []))
     = [EvParseState; EvFetchDiscovery Demo.well_known;
        Demo.exchange "https://acme.test/token";
        EvFetchUserInfo "https://acme.test/userinfo" "Bearer at-1"].
Proof.
  pose proof (discovery_failure_falls_back_to_static Demo.with_profile
                [Demo.acme_discovery] Demo.ctx Demo.acme_discovery Demo.well_known
                eq_refl ltac:(discriminate)
                (fun _ => ex_intro _ None eq_refl)) as (_ & _ & Hsign & Hcall).
  split.
  - etransitivity.
    + apply (Hsign Demo.body0 [] None "https://acme.test/authorize"
               "https://acme.test/token" "https://acme.test/authorize"
               ("st4te", "v3rifier")).
      * reflexivity.
      * reflexivity.
      * reflexivity.
      * discriminate.
      * reflexivity.
      * discriminate.
      * reflexivity.
      * intros h'. reflexivity.
      * intros h'. vm_compute. reflexivity.
    + vm_compute. reflexivity.
  - rewrite (Hcall "acme" Demo.query0 [] Demo.state0 "https://acme.test/token"
               "https://acme.test/userinfo" Demo.tokens0
               (mkFetch (Some Demo.profile) None)).
    + vm_compute. reflexivity.
    + reflexivity.
    + reflexivity.
    + reflexivity.
    + reflexivity.
    + reflexivity.
    + discriminate.
    + reflexivity.
    + discriminate.
    + intros h'. reflexivity.
    + reflexivity.
    + left. reflexivity.
    + intros h'. reflexivity.
Defined.

(** ** Sign-in without discovery *)

(** X12. A sign-in for a provider without [discoveryUrl], with both static
    endpoints, makes exactly two calls when the state codec and the builder
    answer: [generateState], then the builder. The builder is given the
    provider asked for, the provider's client and [redirectURI], the
    authorization endpoint (with [authorizationUrlParams] set on it), the
    state just generated, the code verifier just generated exactly when the
    provider has [pkce], the scopes of the request before the configured
    ones, and the provider's callback as redirect URI. The answer carries the
    URL the builder returned, the provider's settings set on it. *)
Theorem signIn_builder_arguments env config ctx body h c a t ep st authUrl :
  find_config config (body_providerId body) = Some c ->
  truthyS (discoveryUrl c) = false ->
  authorizationUrl c = Some a ->
  a <> "" ->
  tokenUrl c = Some t ->
  t <> "" ->
  withAdditionalParams env (authorizationUrlParams c) a = Ok ep ->
  (forall h', generateState env h' body = Ok st) ->
  (forall h', createAuthorizationURL env h' (signIn_builder_args ctx body c ep st)
              = Ok authUrl) ->
  signInWithOAuth2 env config ctx body h =
    (Ok {| resp_url := URL_toString env (signIn_settings c authUrl);
           resp_redirect := negb (truthyB (disableRedirect body)) |},
     [EvGenerateState;
      EvCreateAuthorizationURL
        {| cau_id := body_providerId body;
           cau_options :=
             {| po_clientId := clientId c;
                po_clientSecret := clientSecret c;
                po_redirectURI := redirectURI c |};
           cau_authorizationEndpoint := ep;
           cau_state := fst st;
           cau_codeVerifier := if truthyB (pkce c) then Some (snd st) else None;
           cau_scopes := default [] (body_scopes body) ++ default [] (cfg_scopes c);
           cau_redirectURI :=
             baseURL ctx +:+ "/oauth2/callback/" +:+ body_providerId body |}]).
Proof.
  intros Hfind Hno Ha Hane Ht Htne Hep Hstate Hbuild.
  pose proof (signIn_endpoints_static env c h Hno) as Hends.
  rewrite Ha, Ht in Hends.
  rewrite (signInWithOAuth2_run env config ctx body c a t ep st authUrl h _
             Hfind Hends Hane Htne Hep Hstate Hbuild).
  unfold signIn_builder_args. destruct (body_scopes body); reflexivity.
Qed.

(** X12 at work: [Demo.acme_custom] has [pkce], the request asks for the
    scope [profile]. *)
Lemma signIn_builder_arguments_witness :
  signInWithOAuth2 Demo.plain [Demo.acme_custom] Demo.ctx
    (mkBody "acme" None None None None (Some ["profile"]) None) []
  = (Ok {| resp_url :=
             "https://acme.test/authorize?response_type=code&client_id=client-1&state=st4te&scope=profile openid email&redirect_uri=https://app.test/api/auth/oauth2/callback/acme&code_challenge_method=S256&code_challenge=S256(v3rifier)&access_type=offline";
           resp_redirect := true |},
     [EvGenerateState;
      EvCreateAuthorizationURL
        {| cau_id := "acme";
           cau_options := mkOptions "client-1" "s3cret" None;
           cau_authorizationEndpoint := "https://acme.test/authorize";
           cau_state := "st4te";
           cau_codeVerifier := Some "v3rifier";
           cau_scopes := ["profile"; "openid"; "email"];
           cau_redirectURI := "https://app.test/api/auth/oauth2/callback/acme" |}]).
Proof.
  etransitivity.
  - apply (signIn_builder_arguments Demo.plain [Demo.acme_custom] Demo.ctx
             (mkBody "acme" None None None None (Some ["profile"]) None) []
             Demo.acme_custom "https://acme.test/authorize" "https://acme.test/token"
             "https://acme.test/authorize" ("st4te", "v3rifier")).
    + reflexivity.
    + reflexivity.
    + reflexivity.
    + discriminate.
    + reflexivity.
    + discriminate.
    + reflexivity.
    + intros h'. reflexivity.
    + intros h'. vm_compute. reflexivity.
  - vm_compute. reflexivity.
Defined.

(** ** The sign-up bar *)

(** A computation that starts with a call has that call first in its trace. *)
Lemma bind_call_trace {A B} (ev : Event) (answer : list Event -> Result A)
    (k : A -> M B) h :
  exists rest, snd (bind (call ev answer) k h) = ev :: rest.
Proof.
  unfold bind, call. destruct (answer h) as [a|e]; [destruct (k a (h ++ [ev]))|];
    eexists; reflexivity.
Qed.

(** X24. In a sign-in flow with an email, the first call of the handler
    after the user info is [handleOAuthUserInfo], and the [disableSignUp] it
    is handed is truthy exactly when the provider disables sign-up, or
    disables implicit sign-up and the flow did not request one:
    [requestSignUp] lifts the second bar and never the first. *)
Theorem callback_disableSignUp_flag env config ctx pid query h x tr :
  callback_identity env config ctx pid query h = (Ok x, tr) ->
  truthy (propOpt (ci_userInfo x) "email") = true ->
  link (ci_state x) = None ->
  (forall f, mapProfileToUser (ci_provider x) = Some f ->
             exists mapped, f (default ∅ (ci_userInfo x)) = Ok mapped) ->
  exists a rest,
    snd (oAuth2Callback env config ctx pid query h)
      = tr ++ EvHandleOAuthUserInfo a :: rest
    /\ truthy (ho_disableSignUp a)
       = (truthyB (disableImplicitSignUp (ci_provider x))
          && negb (truthyB (requestSignUp (ci_state x))))
         || truthyB (disableSignUp (ci_provider x)).
Proof.
  intros Hid Hemail Hlink Hmap.
  rewrite (callback_run _ _ _ _ _ _ _ _ Hid). cbn [snd].
  destruct (callback_mapUser_run (ci_provider x) (default ∅ (ci_userInfo x))
              (h ++ tr) Hmap) as [mapUser HmapUser].
  assert (Htrace : exists rest,
            snd (callback_complete env ctx x (h ++ tr)) =
              EvHandleOAuthUserInfo
                {| ho_userInfo := default ∅ mapUser ∪ default ∅ (ci_userInfo x);
                   ho_providerId := providerId (ci_provider x);
                   ho_accountId := prop (default ∅ (ci_userInfo x)) "id";
                   ho_tokens := ci_tokens x;
                   ho_scope := join "," <$> scopes (ci_tokens x);
                   ho_disableSignUp :=
                     disableSignUp_arg (ci_provider x) (ci_state x) |} :: rest).
  { unfold callback_complete. rewrite Hemail, Hlink. cbn [negb].
    unfold bind at 1. rewrite HmapUser.
    match goal with
    | |- context [bind (call ?ev ?f) ?k ?h0] =>
        destruct (bind_call_trace ev f k h0) as [rest Hrest];
        destruct (bind (call ev f) k h0) as [r0 t0]
    end.
    cbn [snd] in Hrest |- *. subst t0. exists rest. reflexivity. }
  destruct Htrace as [rest Hrest]. rewrite Hrest.
  eexists. exists rest. split; [reflexivity|].
  apply disableSignUp_arg_truth.
Qed.

(** X24 at work: a flow of [Demo.acme], which bars no sign-up. *)
Lemma callback_disableSignUp_flag_witness :
  exists a rest,
    snd (oAuth2Callback
           (Demo.with_state (Ok Demo.new_user_state) Demo.with_profile)
           [Demo.acme] Demo.ctx "acme" Demo.query0 [])
      = Demo.asked ++ EvHandleOAuthUserInfo a :: rest
    /\ truthy (ho_disableSignUp a) = false.
Proof.
  apply (callback_disableSignUp_flag
           (Demo.with_state (Ok Demo.new_user_state) Demo.with_profile)
           [Demo.acme] Demo.ctx "acme" Demo.query0 []
           (Demo.known Demo.new_user_state Demo.tokens0 Demo.carol) Demo.asked).
  - vm_compute. reflexivity.
  - vm_compute. reflexivity.
  - reflexivity.
  - intros f Hf. discriminate Hf.
Defined.

(** X5 at work: a refresh with the credentials in the body. *)
Lemma refresh_makes_one_request_witness :
  snd (refreshAccessToken Demo.plain "rt-1" Demo.options0 Demo.refresh_with_extras [])
    = [EvFetchToken
         (refresh_request Demo.plain "rt-1" Demo.options0 Demo.refresh_with_extras)]
  /\ req_url (refresh_request Demo.plain "rt-1" Demo.options0 Demo.refresh_with_extras)
     = "https://acme.test/token".
Proof.
  apply (refresh_makes_one_request Demo.plain "rt-1" Demo.options0
           Demo.refresh_with_extras []).
  discriminate.
Defined.
